(** * spotify-mcp: the command dispatcher and the Spotify client

    A shallow embedding of [src/spotify_mcp/spotify_api.py] (class [Client])
    and [src/spotify_mcp/server.py] ([handle_call_tool] and its helpers).

    Python values are modelled by [pyval]; a Python function that may raise
    returns [exn + A]; code that talks to a collaborator (the spotipy object
    [self.sp], the local search endpoint, the module-level [spotify_client])
    is a state-and-exception computation [M S A] that records every call to
    the collaborator, with its outcome, in a log.

    The first part is the model: Python values, the two source files, the
    decorators of [utils.py] as the spec describes them, the vocabulary of
    the properties and the test doubles.  The second part states and proves
    the properties. *)

From Stdlib Require Import String Ascii List ZArith Bool Lia DecimalString.
Import ListNotations.
Set Warnings "-register-all".
Local Open Scope string_scope.

(** ** Python values *)

Module Py.

(** The JSON-like values that travel through the two files.  Floats and
    objects of library classes do not occur in the modelled paths. *)
Inductive pyval : Type :=
| PNone
| PBool (b : bool)
| PInt (n : Z)
| PStr (s : string)
| PList (xs : list pyval)
| PDict (kvs : list (string * pyval)).

(** Exception classes the code raises or filters on.  All of them but
    [AssertionError] are filtered by class somewhere in the source; every
    one is a subclass of [Exception]. *)
Inductive exn_class : Type :=
| SpotifyException
| Timeout | RequestsConnectionError | HTTPError | RequestException
| JSONDecodeError | ValueError
| AttributeError | TypeError | KeyError | IndexError
| ConnectionError | AssertionError
| OtherException.

(** An exception: its class and [str(e)]. *)
Record exn : Type := Raise { exn_class_of : exn_class; exn_str : string }.

(** [isinstance(e, requests.RequestException)]. *)
Definition is_RequestException (e : exn) : bool :=
  match exn_class_of e with
  | Timeout | RequestsConnectionError | HTTPError | RequestException => true
  | _ => false
  end.

(** [isinstance(e, spotipy.SpotifyException)]. *)
Definition is_SpotifyException (e : exn) : bool :=
  match exn_class_of e with SpotifyException => true | _ => false end.

(** [isinstance(e, Exception)]: every modelled class. *)
Definition is_Exception (e : exn) : bool := true.

Definition type_name (v : pyval) : string :=
  match v with
  | PNone => "NoneType" | PBool _ => "bool" | PInt _ => "int"
  | PStr _ => "str" | PList _ => "list" | PDict _ => "dict"
  end.

Definition no_attribute (v : pyval) (attr : string) : exn :=
  Raise AttributeError
        ("'" ++ type_name v ++ "' object has no attribute '" ++ attr ++ "'").

(** [bool(v)]. *)
Definition truthy (v : pyval) : bool :=
  match v with
  | PNone => false
  | PBool b => b
  | PInt n => negb (n =? 0)%Z
  | PStr s => negb (s =? "")
  | PList xs => match xs with [] => false | _ => true end
  | PDict kvs => match kvs with [] => false | _ => true end
  end.

(** [v == "lit"] for a string literal, as a [case "lit"] pattern tests it. *)
Definition is_str (v : pyval) (lit : string) : bool :=
  match v with PStr s => (s =? lit) | _ => false end.

Definition isinstance_str (v : pyval) : bool :=
  match v with PStr _ => true | _ => false end.

Definition isinstance_list (v : pyval) : bool :=
  match v with PList _ => true | _ => false end.

Fixpoint dict_lookup (k : string) (kvs : list (string * pyval)) : option pyval :=
  match kvs with
  | [] => None
  | (k', v) :: rest => if (k' =? k) then Some v else dict_lookup k rest
  end.

(** [v.get(key, default)]. *)
Definition py_get (v : pyval) (key : string) (default : pyval) : exn + pyval :=
  match v with
  | PDict kvs => inr (match dict_lookup key kvs with Some x => x | None => default end)
  | _ => inl (no_attribute v "get")
  end.

(** [v[key]] for a string key. *)
Definition py_getitem (v : pyval) (key : string) : exn + pyval :=
  match v with
  | PDict kvs =>
      match dict_lookup key kvs with
      | Some x => inr x
      | None => inl (Raise KeyError ("'" ++ key ++ "'"))
      end
  | PStr _ => inl (Raise TypeError "string indices must be integers, not 'str'")
  | PList _ => inl (Raise TypeError "list indices must be integers or slices, not str")
  | _ => inl (Raise TypeError ("'" ++ type_name v ++ "' object is not subscriptable"))
  end.

(** [v[0]]. *)
Definition py_getitem0 (v : pyval) : exn + pyval :=
  match v with
  | PList (x :: _) => inr x
  | PList [] => inl (Raise IndexError "list index out of range")
  | PStr (String c _) => inr (PStr (String c EmptyString))
  | PStr EmptyString => inl (Raise IndexError "string index out of range")
  | PDict kvs => inl (Raise KeyError "0")
  | _ => inl (Raise TypeError ("'" ++ type_name v ++ "' object is not subscriptable"))
  end.

(** [len(v)]. *)
Definition py_len (v : pyval) : exn + Z :=
  match v with
  | PStr s => inr (Z.of_nat (String.length s))
  | PList xs => inr (Z.of_nat (List.length xs))
  | PDict kvs => inr (Z.of_nat (List.length kvs))
  | _ => inl (Raise TypeError ("object of type '" ++ type_name v ++ "' has no len()"))
  end.

(** [s.startswith(p)]. *)
Definition py_startswith (v : pyval) (p : string) : exn + bool :=
  match v with
  | PStr s => inr (String.prefix p s)
  | _ => inl (no_attribute v "startswith")
  end.

(** [s.split(sep)] for a one-character separator: never the empty list. *)
Fixpoint split_string (sep : ascii) (s : string) : list string :=
  match s with
  | EmptyString => [EmptyString]
  | String c s' =>
      if Ascii.eqb c sep then EmptyString :: split_string sep s'
      else match split_string sep s' with
           | [] => [String c EmptyString]
           | p :: ps => String c p :: ps
           end
  end.

Definition py_split (v : pyval) (sep : ascii) : exn + list string :=
  match v with
  | PStr s => inr (split_string sep s)
  | _ => inl (no_attribute v "split")
  end.

(** [parts[-1]] of a split. *)
Definition last_part (parts : list string) : string := List.last parts EmptyString.

(** [sub in s] on strings. *)
Fixpoint contains (sub s : string) : bool :=
  String.prefix sub s ||
  match s with
  | EmptyString => false
  | String _ s' => contains sub s'
  end.

Fixpoint chars (s : string) : list pyval :=
  match s with
  | EmptyString => []
  | String c s' => PStr (String c EmptyString) :: chars s'
  end.

(** ["lit" in v]: substring of a string, element of a list, key of a dict. *)
Definition py_in (lit : string) (v : pyval) : exn + bool :=
  match v with
  | PStr s => inr (contains lit s)
  | PList xs => inr (existsb (fun x => is_str x lit) xs)
  | PDict kvs => inr (match dict_lookup lit kvs with Some _ => true | None => false end)
  | _ => inl (Raise TypeError
                    ("argument of type '" ++ type_name v ++ "' is not iterable"))
  end.

(** The elements a [for] loop over [v] visits. *)
Definition py_iter (v : pyval) : exn + list pyval :=
  match v with
  | PList xs => inr xs
  | PDict kvs => inr (map (fun kv => PStr (fst kv)) kvs)
  | PStr s => inr (chars s)
  | _ => inl (Raise TypeError ("'" ++ type_name v ++ "' object is not iterable"))
  end.

Definition decimal (n : Z) : string := NilZero.string_of_int (Z.to_int n).

Definition quote : string := String (ascii_of_nat 34) EmptyString.
Definition newline : string := String (ascii_of_nat 10) EmptyString.

(** [sep.join(xs)] on strings. *)
Fixpoint py_join (sep : string) (xs : list string) : string :=
  match xs with
  | [] => EmptyString
  | [x] => x
  | x :: rest => x ++ sep ++ py_join sep rest
  end.

Fixpoint dict_set (k : string) (x : pyval) (kvs : list (string * pyval))
  : list (string * pyval) :=
  match kvs with
  | [] => [(k, x)]
  | (k', v) :: rest =>
      if (k' =? k) then (k', x) :: rest else (k', v) :: dict_set k x rest
  end.

(** [v[key] = x], as the value of [v] afterwards. *)
Definition py_setitem (v : pyval) (key : string) (x : pyval) : exn + pyval :=
  match v with
  | PDict kvs => inr (PDict (dict_set key x kvs))
  | PList _ => inl (Raise TypeError "list indices must be integers or slices, not str")
  | _ => inl (Raise TypeError
                    ("'" ++ type_name v ++ "' object does not support item assignment"))
  end.

(** The stop index of the slice [[:limit]] on a sequence of length [n]. *)
Definition slice_stop (limit : Z) (n : nat) : nat :=
  if (limit <? 0)%Z then n - Z.to_nat (- limit) else Nat.min n (Z.to_nat limit).

Fixpoint string_firstn (n : nat) (s : string) : string :=
  match n, s with
  | S n', String c s' => String c (string_firstn n' s')
  | _, _ => EmptyString
  end.

(** [v[:limit]]. *)
Definition py_slice_upto (v limit : pyval) : exn + pyval :=
  let stop (n : nat) : exn + nat :=
    match limit with
    | PNone => inr n
    | PInt k => inr (slice_stop k n)
    | PBool b => inr (slice_stop (if b then 1 else 0) n)
    | _ => inl (Raise TypeError
             "slice indices must be integers or None or have an __index__ method")
    end in
  match v with
  | PList xs =>
      match stop (List.length xs) with
      | inl e => inl e
      | inr k => inr (PList (firstn k xs))
      end
  | PStr s =>
      match stop (String.length s) with
      | inl e => inl e
      | inr k => inr (PStr (string_firstn k s))
      end
  | PDict _ => inl (Raise TypeError "unhashable type: 'slice'")
  | _ => inl (Raise TypeError ("'" ++ type_name v ++ "' object is not subscriptable"))
  end.

(** Sequencing of Python expressions that may raise. *)
Definition ebind {A C} (r : exn + A) (k : A -> exn + C) : exn + C :=
  match r with
  | inl e => inl e
  | inr a => k a
  end.

Fixpoint emap {A C} (f : A -> exn + C) (xs : list A) : exn + list C :=
  match xs with
  | [] => inr []
  | x :: rest =>
      ebind (f x) (fun y => ebind (emap f rest) (fun ys => inr (y :: ys)))
  end.

End Py.
Export Py.

Declare Scope pyexpr_scope.
Delimit Scope pyexpr_scope with pyexpr.
Notation "x <~ r ;; k" := (ebind r (fun x => k))
  (at level 100, r at next level, right associativity) : pyexpr_scope.

(** ** Computations with a state and exceptions *)

Section Monad.
Context {St : Type}.

Definition M (A : Type) : Type := St -> (exn + A) * St.

Definition ret {A} (a : A) : M A := fun s => (inr a, s).

Definition raise {A} (e : exn) : M A := fun s => (inl e, s).

Definition bind {A B} (m : M A) (k : A -> M B) : M B :=
  fun s => match m s with
           | (inr a, s') => k a s'
           | (inl e, s') => (inl e, s')
           end.

(** A Python expression that may raise and touches no collaborator. *)
Definition lift {A} (r : exn + A) : M A := fun s => (r, s).

(** [try: m  except <the classes catches accepts> as e: h e]. *)
Definition try_except {A} (m : M A) (catches : exn -> bool) (h : exn -> M A) : M A :=
  fun s => match m s with
           | (inl e, s') => if catches e then h e s' else (inl e, s')
           | r => r
           end.

End Monad.

Arguments M : clear implicits.

Declare Scope monad_scope.
Delimit Scope monad_scope with monad.
Notation "x <- m ;; k" := (bind m (fun x => k))
  (at level 100, m at next level, right associativity) : monad_scope.
Notation "m ;;; k" := (bind m (fun _ => k))
  (at level 100, right associativity) : monad_scope.
Local Open Scope monad_scope.

(** ** spotify_api.py: class Client *)

Module spotify_api.

(** The [def] statements in the body of [class Client], in source order,
    each with the line of its [def].  Python runs a class body top to bottom
    and every [def] rebinds its name, so the attribute [Client.name] is the
    last definition of [name]. *)
Definition Client_defs : list (string * nat) :=
  [ ("smart_search", 36); ("__init__", 79); ("set_username", 101);
    ("is_valid_track", 104); ("is_valid_playlist", 113);
    ("is_valid_album", 122); ("is_valid_artist", 131);
    ("get_playlist_tracks", 140); ("get_album_tracks", 168);
    ("get_artist_top_tracks", 193); ("add_to_queue", 219);
    ("get_queue", 236); ("get_info", 244); ("_extract_id_from_uri", 300);
    ("search", 319); ("recommendations", 333); ("get_current_track", 339);
    ("start_playback", 363); ("pause_playback", 399); ("add_to_queue", 406);
    ("get_queue", 414); ("get_liked_songs", 423); ("is_track_playing", 430);
    ("get_current_user_playlists", 439); ("get_playlist_tracks", 450);
    ("add_tracks_to_playlist", 462); ("remove_tracks_from_playlist", 481);
    ("change_playlist_details", 499); ("get_devices", 516);
    ("is_active_device", 519); ("_get_candidate_device", 522);
    ("auth_ok", 532); ("auth_refresh", 546); ("skip_track", 549);
    ("previous_track", 554); ("seek_to_position", 557); ("set_volume", 560) ].

Fixpoint bound_def (name : string) (defs : list (string * nat)) (seen : option nat)
  : option nat :=
  match defs with
  | [] => seen
  | (n, line) :: rest =>
      bound_def name rest (if (n =? name) then Some line else seen)
  end.

(** The calls the modelled methods make on [self.sp] (spotipy), and the
    request to the local search endpoint.  [requests_get] stands for lines
    43-50 of [smart_search]: [requests.get], [raise_for_status] and
    [local_resp.json()]; its outcome is the decoded body, or the exception
    one of the three raised. *)
Inductive sp_call : Type :=
| requests_get (url q qtype : pyval)
| sp_search (q qtype limit market : pyval)
| sp_current_user
| sp_track (track_id : pyval)
| sp_playlist (playlist_id : pyval)
| sp_album (album_id : pyval)
| sp_artist (artist_id : pyval)
| sp_playlist_items (playlist_id : pyval)
| sp_album_tracks (album_id : pyval)
| sp_next (results : pyval)
| sp_add_to_queue (uri device_id : pyval)
| sp_devices
| sp_playlist_add_items (playlist_id track_ids position : pyval)
| sp_playlist_remove_all_occurrences_of_items (playlist_id track_ids : pyval)
| sp_playlist_change_details (playlist_id name description : pyval).

(** The method calls that [server.py] makes on its [Client] object, with the
    arguments it passes. *)
Inductive client_call : Type :=
| c_get_current_track
| c_is_valid_track (spotify_uri : pyval)
| c_start_playback (spotify_uri : pyval)
| c_get_info (item_uri : pyval)
| c_pause_playback
| c_skip_track (n : Z)
| c_search (query qtype limit : pyval)
| c_add_to_queue (spotify_uri : pyval)
| c_is_valid_playlist (spotify_uri : pyval)
| c_get_playlist_tracks (spotify_uri : pyval)
| c_is_valid_album (spotify_uri : pyval)
| c_get_album_tracks (spotify_uri : pyval)
| c_is_valid_artist (spotify_uri : pyval)
| c_get_artist_top_tracks (spotify_uri : pyval)
| c_get_queue
| c_get_current_user_playlists
| c_add_tracks_to_playlist (playlist_id track_ids : pyval)
| c_remove_tracks_from_playlist (playlist_id track_ids : pyval)
| c_change_playlist_details (playlist_id name description : pyval).

Section Client.

(** The remote service: a state [B] and its answer to every call. *)
Variable B : Type.
Variable sp : sp_call -> B -> (exn + pyval) * B.

(** Module constants read from the environment. *)
Variable LOCAL_SEARCH_URL : pyval.
Variable SPOTIFY_COUNTRY : pyval.

(** Functions of [utils.py], which is not part of the sources. *)
Variable parse_local_documents : pyval -> pyval -> exn + pyval.
Variable parse_search_results : pyval -> pyval -> pyval -> exn + pyval.
Variable parse_tracks : pyval -> exn + pyval.

(** [urllib.parse.urlparse(uri).path]. *)
Variable urlparse_path : string -> exn + string.

(** A [Client] object: [self.username], the remote service behind [self.sp],
    and the log of the calls made on it. *)
Record client : Type := Client {
  username : pyval;
  remote : B;
  sp_log : list (sp_call * (exn + pyval))
}.

(** The decorator [utils.validate], which is not part of the sources: it
    receives the method, which takes the keyword [device], and its result is
    what a call of the decorated method does.  The methods are written over
    any decorator; module [utils] below models this one. *)
Variable validate : forall A : Type, (pyval -> M client A) -> M client A.

(** The client after a call [c] on the service that came out as [r] and
    left the service in [b]. *)
Definition after_call (s : client) (c : sp_call) (r : exn + pyval) (b : B) : client :=
  {| username := username s; remote := b; sp_log := sp_log s ++ [(c, r)] |}.

(** A call [self.sp.<method>(...)]. *)
Definition sp_invoke (c : sp_call) : M client pyval :=
  fun s => let (r, b) := sp c (remote s) in (r, after_call s c r b).

Definition set_self_username (u : pyval) : M client unit :=
  fun s => (inr tt, {| username := u; remote := remote s; sp_log := sp_log s |}).

Definition get_self_username : M client pyval :=
  fun s => (inr (username s), s).

(** Lines 100-102. *)
Definition set_username : M client unit :=
  validate unit (fun device =>
    user <- sp_invoke sp_current_user ;;
    name <- lift (py_getitem user "display_name") ;;
    set_self_username name).

(** Modelled from the spec: the decorator [utils.ensure_username] is not part
    of the sources.  The spec describes the user's display name as "lazily
    fetched once, then reused for the process lifetime", which is also what
    [search] (lines 327-328) does by hand. *)
Definition ensure_username {A} (method : M client A) : M client A :=
  u <- get_self_username ;;
  match u with
  | PNone => set_username ;;; method
  | _ => method
  end.

(** Lines 300-317. *)
Definition _extract_id_from_uri (uri : pyval) : exn + pyval :=
  match py_startswith uri "spotify:" with
  | inl e => inl e
  | inr true =>
      match py_split uri ":" with
      | inl e => inl e
      | inr parts => inr (PStr (last_part parts))
      end
  | inr false =>
      match py_startswith uri "http", uri with
      | inl e, _ => inl e
      | inr true, PStr u =>
          match urlparse_path u with
          | inl e => inl e
          | inr path => inr (PStr (last_part (split_string "/" path)))
          end
      | inr _, _ => inr uri
      end
  end.

(** Lines 104-111. *)
Definition is_valid_track (spotify_uri : pyval) : M client pyval :=
  try_except
    (track_id <- lift (_extract_id_from_uri spotify_uri) ;;
     sp_invoke (sp_track track_id) ;;;
     ret (PBool true))
    is_Exception (fun _ => ret (PBool false)).

(** Lines 113-120. *)
Definition is_valid_playlist (spotify_uri : pyval) : M client pyval :=
  try_except
    (playlist_id <- lift (_extract_id_from_uri spotify_uri) ;;
     sp_invoke (sp_playlist playlist_id) ;;;
     ret (PBool true))
    is_Exception (fun _ => ret (PBool false)).

(** Lines 122-129. *)
Definition is_valid_album (spotify_uri : pyval) : M client pyval :=
  try_except
    (album_id <- lift (_extract_id_from_uri spotify_uri) ;;
     sp_invoke (sp_album album_id) ;;;
     ret (PBool true))
    is_Exception (fun _ => ret (PBool false)).

(** Lines 131-138. *)
Definition is_valid_artist (spotify_uri : pyval) : M client pyval :=
  try_except
    (artist_id <- lift (_extract_id_from_uri spotify_uri) ;;
     sp_invoke (sp_artist artist_id) ;;;
     ret (PBool true))
    is_Exception (fun _ => ret (PBool false)).

(** [device.get('id') if device else None] (lines 388, 403, 411). *)
Definition device_id_of (device : pyval) : exn + pyval :=
  if truthy device then py_get device "id" PNone else inr PNone.

(** Lines 74-77: the search on the remote service. *)
Definition smart_search_online (query qtype limit : pyval) : M client pyval :=
  online_results <- sp_invoke (sp_search query qtype limit SPOTIFY_COUNTRY) ;;
  u <- get_self_username ;;
  lift (parse_search_results online_results qtype u).

(** Lines 36-77. *)
Definition smart_search (query qtype limit : pyval) : M client pyval :=
  local_data <- try_except (sp_invoke (requests_get LOCAL_SEARCH_URL query qtype))
                           is_RequestException (fun _ => ret PNone) ;;
  nonempty_list <-
    (if truthy local_data then
       if isinstance_list local_data then
         n <- lift (py_len local_data) ;; ret (0 <? n)%Z
       else ret false
     else ret false) ;;
  local_results <-
    (if nonempty_list : bool then
       documents <- lift (py_get local_data "documents" (PList [])) ;;
       if truthy documents then
         local_results <- lift (parse_local_documents documents qtype) ;;
         if truthy local_results then
           has_tracks <- lift (py_in "tracks" local_results) ;;
           if has_tracks : bool then
             lift (tracks <~ py_getitem local_results "tracks" ;;
                   items <~ py_getitem tracks "items" ;;
                   sliced <~ py_slice_upto items limit ;;
                   elems <~ py_iter sliced ;;
                   parsed <~ emap (fun _ => inl (Raise AttributeError
                       "'Client' object has no attribute 'parse_track'")) elems ;;
                   tracks1 <~ py_setitem tracks "items" (PList parsed) ;;
                   items1 <~ py_getitem tracks1 "items" ;;
                   total <~ py_len items1 ;;
                   tracks2 <~ py_setitem tracks1 "total" (PInt total) ;;
                   results <~ py_setitem local_results "tracks" tracks2 ;;
                   inr (Some results))%pyexpr
           else
             has_playlists <- lift (py_in "playlists" local_results) ;;
             if has_playlists : bool then
               lift (playlists <~ py_getitem local_results "playlists" ;;
                     items <~ py_getitem playlists "items" ;;
                     sliced <~ py_slice_upto items limit ;;
                     elems <~ py_iter sliced ;;
                     parsed <~ emap (fun _ => inl (Raise AttributeError
                         "'Client' object has no attribute 'parse_playlist'")) elems ;;
                     playlists1 <~ py_setitem playlists "items" (PList parsed) ;;
                     items1 <~ py_getitem playlists1 "items" ;;
                     total <~ py_len items1 ;;
                     playlists2 <~ py_setitem playlists1 "total" (PInt total) ;;
                     results <~ py_setitem local_results "playlists" playlists2 ;;
                     inr (Some results))%pyexpr
             else ret (Some local_results)
         else ret None
       else ret None
     else ret None) ;;
  match local_results with
  | Some results => ret results
  | None => smart_search_online query qtype limit
  end.

(** Lines 318-330, without the decorator. *)
Definition search_body (query qtype limit : pyval) (device : pyval) : M client pyval :=
  u <- get_self_username ;;
  match u with
  | PNone => set_username
  | _ => ret tt
  end ;;;
  smart_search query qtype limit.

Definition search (query qtype limit : pyval) : M client pyval :=
  validate pyval (search_body query qtype limit).

(** Lines 149-158: one item of a playlist page; [None] when it is skipped. *)
Definition playlist_item_track_data (item : pyval) : exn + option pyval :=
  (has_track <~ (if truthy item then
                   present <~ py_in "track" item ;;
                   if present : bool then
                     t <~ py_getitem item "track" ;; inr (truthy t)
                   else inr false
                 else inr false) ;;
   if has_track : bool then
     track <~ py_getitem item "track" ;;
     uri <~ py_getitem track "uri" ;;
     name <~ py_getitem track "name" ;;
     artists <~ py_getitem track "artists" ;;
     artist_list <~ py_iter artists ;;
     names <~ emap (fun artist => py_getitem artist "name") artist_list ;;
     duration_ms <~ py_getitem track "duration_ms" ;;
     has_album <~ py_in "album" track ;;
     album <~ (if has_album : bool then
                 a <~ py_getitem track "album" ;; py_getitem a "name"
               else inr PNone) ;;
     inr (Some (PDict [("uri", uri); ("name", name); ("artists", PList names);
                       ("duration_ms", duration_ms); ("album", album)]))
   else inr None)%pyexpr.

(** Lines 147-158: the [for] loop over one page, appending to [tracks]. *)
Fixpoint playlist_page_tracks (items : list pyval) (tracks : list pyval)
  : exn + list pyval :=
  match items with
  | [] => inr tracks
  | item :: rest =>
      (d <~ playlist_item_track_data item ;;
       playlist_page_tracks rest
         (match d with Some track_data => tracks ++ [track_data] | None => tracks end))%pyexpr
  end.

(** Lines 146-164: the [while results:] loop.  It follows the backend's
    cursors, so it is run with fuel; [None] means the fuel ran out. *)
Fixpoint playlist_pages (fuel : nat) (results : pyval) (tracks : list pyval)
  (s : client) : option ((exn + pyval) * client) :=
  match fuel with
  | O => None
  | S fuel' =>
      if truthy results then
        match (items <~ py_getitem results "items" ;;
               xs <~ py_iter items ;;
               tracks' <~ playlist_page_tracks xs tracks ;;
               next <~ py_getitem results "next" ;;
               inr (tracks', next))%pyexpr with
        | inl e => Some (inl e, s)
        | inr (tracks', next) =>
            if truthy next then
              match sp_invoke (sp_next results) s with
              | (inr results', s') => playlist_pages fuel' results' tracks' s'
              | (inl e, s') => Some (inl e, s')
              end
            else playlist_pages fuel' PNone tracks' s
        end
      else Some (inr (PList tracks), s)
  end.

(** Lines 140-166: the first [def get_playlist_tracks] of the class body.
    The second one (line 450) rebinds the name, so no call reaches this. *)
Definition get_playlist_tracks_shadowed (fuel : nat) (playlist_uri : pyval)
  (s : client) : option ((exn + pyval) * client) :=
  match _extract_id_from_uri playlist_uri with
  | inl e => Some (inl e, s)
  | inr playlist_id =>
      match sp_invoke (sp_playlist_items playlist_id) s with
      | (inr results, s') => playlist_pages fuel results [] s'
      | (inl e, s') => Some (inl e, s')
      end
  end.

(** Lines 449-459, without the decorator: the definition
    [Client.get_playlist_tracks] is bound to. *)
Definition get_playlist_tracks_body (playlist_id : pyval) : M client pyval :=
  playlist <- sp_invoke (sp_playlist playlist_id) ;;
  if truthy playlist then
    lift (tracks <~ py_getitem playlist "tracks" ;;
          items <~ py_getitem tracks "items" ;;
          parse_tracks items)%pyexpr
  else raise (Raise ValueError "No playlist found.").

Definition get_playlist_tracks (playlist_id : pyval) : M client pyval :=
  ensure_username (get_playlist_tracks_body playlist_id).

(** Lines 219-234: the first [def add_to_queue] of the class body.  The
    second one (line 406) rebinds the name, so no call reaches this. *)
Definition add_to_queue_shadowed (spotify_uri : pyval) : M client pyval :=
  try_except
    (sp_invoke (sp_add_to_queue spotify_uri PNone) ;;; ret (PBool true))
    is_Exception
    (fun _ =>
       devices <- sp_invoke sp_devices ;;
       listed <- (if truthy devices then
                    lift (ds <~ py_getitem devices "devices" ;;
                          n <~ py_len ds ;; inr (0 <? n)%Z)%pyexpr
                  else ret false) ;;
       if listed : bool then
         device_id <- lift (ds <~ py_getitem devices "devices" ;;
                            d <~ py_getitem0 ds ;;
                            py_getitem d "id")%pyexpr ;;
         sp_invoke (sp_add_to_queue spotify_uri device_id) ;;;
         ret (PBool true)
       else
         raise (Raise OtherException
           "No active Spotify device found. Please open Spotify on a device first.")).

(** Lines 405-411, without the decorator: the definition
    [Client.add_to_queue] is bound to. *)
Definition add_to_queue_body (track_id : pyval) (device : pyval) : M client pyval :=
  device_id <- lift (device_id_of device) ;;
  sp_invoke (sp_add_to_queue track_id device_id) ;;;
  ret PNone.

Definition add_to_queue (track_id : pyval) : M client pyval :=
  validate pyval (add_to_queue_body track_id).

(** Lines 461-478. *)
Definition add_tracks_to_playlist (playlist_id track_ids : pyval) : M client pyval :=
  ensure_username
    (if negb (truthy playlist_id) then raise (Raise ValueError "No playlist ID provided.")
     else if negb (truthy track_ids) then raise (Raise ValueError "No track IDs provided.")
     else
       try_except
         (sp_invoke (sp_playlist_add_items playlist_id track_ids PNone) ;;; ret PNone)
         is_Exception (fun _ => ret PNone)).

(** Lines 480-496. *)
Definition remove_tracks_from_playlist (playlist_id track_ids : pyval) : M client pyval :=
  ensure_username
    (if negb (truthy playlist_id) then raise (Raise ValueError "No playlist ID provided.")
     else if negb (truthy track_ids) then raise (Raise ValueError "No track IDs provided.")
     else
       try_except
         (sp_invoke (sp_playlist_remove_all_occurrences_of_items playlist_id track_ids) ;;;
          ret PNone)
         is_Exception (fun _ => ret PNone)).

(** Lines 498-514. *)
Definition change_playlist_details (playlist_id name description : pyval)
  : M client pyval :=
  ensure_username
    (if negb (truthy playlist_id) then raise (Raise ValueError "No playlist ID provided.")
     else
       try_except
         (sp_invoke (sp_playlist_change_details playlist_id name description) ;;;
          ret PNone)
         is_Exception (fun _ => ret PNone)).

(** The methods of [Client] that are not modelled above. *)
Variable unmodelled : client_call -> M client pyval.

(** A method call on a [Client] object.  [get_playlist_tracks] and
    [add_to_queue] are the definitions the names are bound to. *)
Definition Client_method (c : client_call) : M client pyval :=
  match c with
  | c_is_valid_track spotify_uri => is_valid_track spotify_uri
  | c_is_valid_playlist spotify_uri => is_valid_playlist spotify_uri
  | c_is_valid_album spotify_uri => is_valid_album spotify_uri
  | c_is_valid_artist spotify_uri => is_valid_artist spotify_uri
  | c_search query qtype limit => search query qtype limit
  | c_add_to_queue track_id => add_to_queue track_id
  | c_get_playlist_tracks playlist_id => get_playlist_tracks playlist_id
  | c_add_tracks_to_playlist playlist_id track_ids =>
      add_tracks_to_playlist playlist_id track_ids
  | c_remove_tracks_from_playlist playlist_id track_ids =>
      remove_tracks_from_playlist playlist_id track_ids
  | c_change_playlist_details playlist_id name description =>
      change_playlist_details playlist_id name description
  | _ => unmodelled c
  end.

End Client.

Arguments Client {B}.
Arguments after_call {B}.
Arguments username {B}.
Arguments remote {B}.
Arguments sp_log {B}.

End spotify_api.

(** ** server.py: the command dispatcher *)

Module server.
Import spotify_api.

(** The [text] of a content block: a string, or [json.dumps(v, indent=2)]. *)
Inductive text_value : Type :=
| plain (s : string)
| json_dumps (v : pyval).

(** [types.TextContent]. *)
Record TextContent : Type := { type : string; text : text_value }.

(** Lines 131-140. *)
Definition create_error_response (message : string) : list TextContent :=
  [ {| type := "text";
       text := json_dumps (PDict [("error", PBool true); ("message", PStr message)]) |} ].

Definition text_response (t : text_value) : option (list TextContent) :=
  Some [ {| type := "text"; text := t |} ].

Definition utf8 (bytes : list nat) : string :=
  fold_right (fun b s => String (ascii_of_nat b) s) EmptyString bytes.

(** The pictographs of the format strings, as the bytes of the source file. *)
Definition play_sign : string := utf8 [226; 150; 182; 239; 184; 143].
Definition disc_sign : string := utf8 [240; 159; 146; 191].
Definition check_sign : string := utf8 [226; 156; 133].
Definition person_sign : string := utf8 [240; 159; 145; 164].
Definition scroll_sign : string := utf8 [240; 159; 147; 156].
Definition microphone_sign : string := utf8 [240; 159; 142; 164].
Definition glass_sign : string := utf8 [240; 159; 148; 141].

Section Dispatcher.

(** The client behind [spotify_client]: a state [W] and what every method
    call returns or raises. *)
Variable W : Type.
Variable spotify_client : client_call -> W -> (exn + pyval) * W.

(** Library functions: [repr] of a list or a dict, [json.loads] ([None] for
    a [JSONDecodeError]) and [int] of a string ([None] for a [ValueError]). *)
Variable repr : pyval -> string.
Variable json_loads : string -> option pyval.
Variable int_of_str : string -> option Z.

(** One run of the dispatcher: the client, and the log of the calls made on
    it with their outcomes. *)
Record dispatcher : Type := Dispatcher {
  client_state : W;
  client_log : list (client_call * (exn + pyval))
}.

(** The dispatcher after a call [c] on the client that came out as [r] and
    left the client in [w]. *)
Definition after_method (s : dispatcher) (c : client_call) (r : exn + pyval) (w : W)
  : dispatcher :=
  {| client_state := w; client_log := client_log s ++ [(c, r)] |}.

(** A call [spotify_client.<method>(...)]. *)
Definition invoke (c : client_call) : M dispatcher pyval :=
  fun s => let (r, w) := spotify_client c (client_state s) in (r, after_method s c r w).

(** [str(v)], as an f-string formats a value. *)
Definition str (v : pyval) : string :=
  match v with
  | PNone => "None"
  | PBool true => "True"
  | PBool false => "False"
  | PInt n => decimal n
  | PStr s => s
  | _ => repr v
  end.

(** [int(v)]. *)
Definition py_int (v : pyval) : exn + Z :=
  match v with
  | PInt n => inr n
  | PBool b => inr (if b then 1 else 0)%Z
  | PStr s =>
      match int_of_str s with
      | Some n => inr n
      | None => inl (Raise ValueError
                       ("invalid literal for int() with base 10: '" ++ s ++ "'"))
      end
  | _ => inl (Raise TypeError
           ("int() argument must be a string, a bytes-like object or a real number, not '"
              ++ type_name v ++ "'"))
  end.

(** [", ".join(xs)]: every element must be a string. *)
Fixpoint join_values (xs : list pyval) (index : nat) : exn + list string :=
  match xs with
  | [] => inr []
  | PStr s :: rest => (ss <~ join_values rest (S index) ;; inr (s :: ss))%pyexpr
  | x :: _ => inl (Raise TypeError
                     ("sequence item " ++ decimal (Z.of_nat index)
                        ++ ": expected str instance, " ++ type_name x ++ " found"))
  end.

(** Lines 540-559. *)
Definition get_artist_string (item : pyval) : exn + string :=
  (artists <~ py_get item "artists" PNone ;;
   artist <~ py_get item "artist" PNone ;;
   let all_artists :=
     match artists with
     | PList xs => xs
     | _ => if isinstance_str artist then [artist] else []
     end in
   names <~ join_values all_artists 0 ;;
   inr (py_join ", " names))%pyexpr.

(** Lines 142-173. *)
Definition format_playback_response (spotify_uri : pyval) : M dispatcher string :=
  curr_info <- invoke (c_get_info spotify_uri) ;;
  lift (uri_parts <~ py_split spotify_uri ":" ;;
        let uri_type :=
          match uri_parts with
          | [_; kind; _] => kind
          | _ => "unknown"
          end in
        if (uri_type =? "track") then
          title <~ py_get curr_info "name" (PStr "Unknown Track") ;;
          by_artists <~ get_artist_string curr_info ;;
          inr (play_sign ++ " Now playing: " ++ quote ++ str title ++ quote ++ " by "
                 ++ by_artists ++ newline ++ "URI: " ++ str spotify_uri)
        else if (uri_type =? "album") then
          album <~ py_get curr_info "name" (PStr "Unknown Album") ;;
          total <~ py_get curr_info "total_tracks" (PStr "N/A") ;;
          by_artists <~ get_artist_string curr_info ;;
          inr (disc_sign ++ " Playing album: " ++ quote ++ str album ++ quote ++ " by "
                 ++ by_artists ++ newline ++ "Tracks: " ++ str total ++ newline
                 ++ "URI: " ++ str spotify_uri)
        else if (uri_type =? "playlist") then
          name <~ py_get curr_info "name" (PStr "Unknown Playlist") ;;
          owner <~ py_get curr_info "owner" (PStr "Unknown Owner") ;;
          total <~ py_get curr_info "total_tracks" (PStr "N/A") ;;
          is_owner <~ py_get curr_info "user_is_owner" (PBool false) ;;
          let ownership :=
            if truthy is_owner then check_sign ++ " You own this playlist"
            else person_sign ++ " Owned by someone else" in
          inr (scroll_sign ++ " Playing playlist: " ++ quote ++ str name ++ quote
                 ++ newline ++ "Owner: " ++ str owner ++ " | Tracks: " ++ str total
                 ++ newline ++ ownership ++ newline ++ "URI: " ++ str spotify_uri)
        else if (uri_type =? "artist") then
          name <~ py_get curr_info "name" (PStr "Unknown Artist") ;;
          inr (microphone_sign ++ " Playing songs from artist: " ++ str name
                 ++ newline ++ "URI: " ++ str spotify_uri)
        else
          inr (play_sign ++ " Playback started for URI: " ++ str spotify_uri
                 ++ " (type: " ++ uri_type ++ ")"))%pyexpr.

(** Lines 185-242: [case "Playback"]. *)
Definition playback (arguments : pyval) : M dispatcher (option (list TextContent)) :=
  action <- lift (py_get arguments "action" PNone) ;;
  if is_str action "get" then
    curr_track <- invoke c_get_current_track ;;
    if truthy curr_track then
      lift (py_get curr_track "name" (PStr "Unknown")) ;;;
      ret (text_response (json_dumps curr_track))
    else ret (text_response (plain "No track playing."))
  else if is_str action "start" then
    spotify_uri <- lift (py_get arguments "spotify_uri" PNone) ;;
    invalid <-
      (if truthy spotify_uri then
         is_track <- lift (py_startswith spotify_uri "spotify:track:") ;;
         track_id <- (if is_track : bool then
                        parts <- lift (py_split spotify_uri ":") ;;
                        ret (PStr (last_part parts))
                      else ret PNone) ;;
         if truthy track_id then
           valid <- invoke (c_is_valid_track track_id) ;;
           ret (negb (truthy valid))
         else ret false
       else ret false) ;;
    if invalid : bool then
      ret (Some (create_error_response
                   "Invalid or non-existent track URI. Please try another track."))
    else
      invoke (c_start_playback spotify_uri) ;;;
      text <- format_playback_response spotify_uri ;;
      ret (text_response (plain text))
  else if is_str action "pause" then
    invoke c_pause_playback ;;;
    ret (text_response (plain "Playback paused."))
  else if is_str action "skip" then
    num_skips <- lift (n <~ py_get arguments "num_skips" (PInt 1) ;; py_int n)%pyexpr ;;
    invoke (c_skip_track num_skips) ;;;
    ret (text_response (plain "Skipped to next track."))
  else
    ret None.

(** Lines 266-310: the lines of the search result, one per item. *)
Definition format_search_item (qtype : pyval) (idx : nat) (item : pyval) : exn + string :=
  let number := decimal (Z.of_nat idx) in
  (if is_str qtype "track" then
     title <~ py_get item "name" (PStr "Unknown Title") ;;
     _ <~ py_get item "name" PNone ;;
     _ <~ py_get item "id" PNone ;;
     id <~ py_get item "id" (PStr "N/A") ;;
     let uri := "spotify:track:" ++ str id in
     by_artists <~ get_artist_string item ;;
     inr (number ++ ". " ++ quote ++ str title ++ quote ++ " by " ++ by_artists
            ++ newline ++ "   URI: " ++ uri)
   else if is_str qtype "artist" then
     name <~ py_get item "name" (PStr "Unknown Artist") ;;
     id <~ py_get item "id" (PStr "N/A") ;;
     let uri := "spotify:artist:" ++ str id in
     inr (number ++ ". " ++ person_sign ++ " " ++ str name ++ newline ++ "   URI: " ++ uri)
   else if is_str qtype "album" then
     title <~ py_get item "name" (PStr "Unknown Album") ;;
     id <~ py_get item "id" (PStr "N/A") ;;
     let uri := "spotify:album:" ++ str id in
     by_artists <~ get_artist_string item ;;
     inr (number ++ ". " ++ disc_sign ++ " " ++ quote ++ str title ++ quote ++ " by "
            ++ by_artists ++ newline ++ "   URI: " ++ uri)
   else if is_str qtype "playlist" then
     name <~ py_get item "name" (PStr "Unknown Playlist") ;;
     owner <~ py_get item "owner" (PStr "Unknown Owner") ;;
     is_owner <~ py_get item "user_is_owner" (PBool false) ;;
     total_tracks <~ py_get item "total_tracks" (PStr "N/A") ;;
     id <~ py_get item "id" (PStr "N/A") ;;
     let uri := "spotify:playlist:" ++ str id in
     let ownership_text :=
       if truthy is_owner then check_sign ++ " You own this playlist"
       else person_sign ++ " Owned by someone else" in
     inr (number ++ ". " ++ scroll_sign ++ " " ++ quote ++ str name ++ quote ++ newline
            ++ "   Owner: " ++ str owner ++ " | Tracks: " ++ str total_tracks ++ newline
            ++ "   " ++ ownership_text ++ newline
            ++ "   URI: " ++ uri)
   else
     inr (number ++ ". Unsupported qtype: " ++ str qtype))%pyexpr.

Fixpoint format_search_items (qtype : pyval) (idx : nat) (items : list pyval)
  : exn + list string :=
  match items with
  | [] => inr []
  | item :: rest =>
      (line <~ format_search_item qtype idx item ;;
       lines <~ format_search_items qtype (S idx) rest ;;
       inr (line :: lines))%pyexpr
  end.

(** Lines 244-319: [case "Search"]. *)
Definition search_tool (arguments : pyval) : M dispatcher (option (list TextContent)) :=
  try_except
    (query <- lift (py_get arguments "query" (PStr EmptyString)) ;;
     qtype <- lift (py_get arguments "qtype" (PStr "track")) ;;
     limit <- lift (py_get arguments "limit" (PInt 10)) ;;
     search_results <- invoke (c_search query qtype limit) ;;
     let heading := glass_sign ++ " Search Results for " ++ str qtype ++ "s:" in
     result_items <- lift (py_get search_results (str qtype ++ "s") (PList [])) ;;
     if negb (truthy result_items) then
       ret (Some (create_error_response ("No " ++ str qtype ++ "s found for your query.")))
     else
       lines <- lift (items <~ py_iter result_items ;;
                      format_search_items qtype 1 items)%pyexpr ;;
       ret (text_response (plain (py_join newline (heading :: lines)))))
    is_Exception
    (fun e => ret (Some (create_error_response
                           ("An error occurred during search: " ++ exn_str e)))).

(** Lines 358-361, 380-383, 402-405: queue every track of [tracks], reading
    its uri under [key], and append it to [added_tracks]. *)
Fixpoint add_each (key : string) (tracks : list pyval) (added_tracks : list pyval)
  : M dispatcher (list pyval) :=
  match tracks with
  | [] => ret added_tracks
  | track :: rest =>
      track_uri <- lift (py_get track key PNone) ;;
      invoke (c_add_to_queue track_uri) ;;;
      add_each key rest (added_tracks ++ [track])
  end.

Definition count (added_tracks : list pyval) : Z := Z.of_nat (List.length added_tracks).

(** Lines 332-421: the body of the [try] of [Queue]/[add].  Every branch
    ends in a [return]: an error response, or the common one of lines
    418-421 with the branch's [response_data]. *)
Definition queue_add (spotify_uri : pyval) : M dispatcher (option (list TextContent)) :=
  is_track <- lift (py_in "track" spotify_uri) ;;
  if is_track : bool then
    valid <- invoke (c_is_valid_track spotify_uri) ;;
    if negb (truthy valid) then
      ret (Some (create_error_response
                   "Invalid or non-existent track URI. Please try another track."))
    else
      invoke (c_add_to_queue spotify_uri) ;;;
      track_info <- invoke (c_get_info spotify_uri) ;;
      ret (text_response (json_dumps (PDict
        [("status", PStr "Track added to queue successfully");
         ("track_details", track_info)])))
  else
  is_playlist <- lift (py_in "playlist" spotify_uri) ;;
  if is_playlist : bool then
    valid <- invoke (c_is_valid_playlist spotify_uri) ;;
    if negb (truthy valid) then
      ret (Some (create_error_response "Invalid or non-existent playlist URI."))
    else
      playlist_tracks <- invoke (c_get_playlist_tracks spotify_uri) ;;
      tracks <- lift (py_iter playlist_tracks) ;;
      added_tracks <- add_each "id" tracks [] ;;
      playlist_info <- invoke (c_get_info spotify_uri) ;;
      ret (text_response (json_dumps (PDict
        [("status", PStr ("All " ++ decimal (count added_tracks)
                            ++ " tracks from playlist added to queue successfully"));
         ("playlist_details", playlist_info);
         ("tracks_added", PInt (count added_tracks))])))
  else
  is_album <- lift (py_in "album" spotify_uri) ;;
  if is_album : bool then
    valid <- invoke (c_is_valid_album spotify_uri) ;;
    if negb (truthy valid) then
      ret (Some (create_error_response "Invalid or non-existent album URI."))
    else
      album_tracks <- invoke (c_get_album_tracks spotify_uri) ;;
      tracks <- lift (py_iter album_tracks) ;;
      added_tracks <- add_each "uri" tracks [] ;;
      album_info <- invoke (c_get_info spotify_uri) ;;
      ret (text_response (json_dumps (PDict
        [("status", PStr ("All " ++ decimal (count added_tracks)
                            ++ " tracks from album added to queue successfully"));
         ("album_details", album_info);
         ("tracks_added", PInt (count added_tracks))])))
  else
  is_artist <- lift (py_in "artist" spotify_uri) ;;
  if is_artist : bool then
    valid <- invoke (c_is_valid_artist spotify_uri) ;;
    if negb (truthy valid) then
      ret (Some (create_error_response "Invalid or non-existent artist URI."))
    else
      artist_tracks <- invoke (c_get_artist_top_tracks spotify_uri) ;;
      tracks <- lift (py_iter artist_tracks) ;;
      added_tracks <- add_each "uri" tracks [] ;;
      artist_info <- invoke (c_get_info spotify_uri) ;;
      ret (text_response (json_dumps (PDict
        [("status", PStr ("Top " ++ decimal (count added_tracks)
                            ++ " tracks from artist added to queue successfully"));
         ("artist_details", artist_info);
         ("tracks_added", PInt (count added_tracks))])))
  else
    ret (Some (create_error_response
                 "Unsupported URI type. Please provide a track, playlist, album, or artist URI.")).

(** Lines 321-435: [case "Queue"]. *)
Definition queue (arguments : pyval) : M dispatcher (option (list TextContent)) :=
  action <- lift (py_get arguments "action" PNone) ;;
  if is_str action "add" then
    spotify_uri <- lift (py_get arguments "spotify_uri" PNone) ;;
    if negb (truthy spotify_uri) then
      ret (Some (create_error_response "spotify_uri is required for the 'add' action."))
    else
      try_except (queue_add spotify_uri) is_Exception
        (fun e => ret (Some (create_error_response
                               ("Error adding to queue: " ++ exn_str e))))
  else if is_str action "get" then
    q <- invoke c_get_queue ;;
    ret (text_response (json_dumps q))
  else
    ret (Some (create_error_response
                 ("Unknown queue action: " ++ str action
                    ++ ". Supported actions are: add and get."))).

(** Lines 436-444: [case "GetInfo"]. *)
Definition get_info_tool (arguments : pyval) : M dispatcher (option (list TextContent)) :=
  item_uri <- lift (py_get arguments "item_uri" PNone) ;;
  item_info <- invoke (c_get_info item_uri) ;;
  ret (text_response (json_dumps item_info)).

(** Lines 469-475 and 487-493: [track_ids], decoded when it is a string;
    [inl] is the error response of a [JSONDecodeError]. *)
Definition decoded_track_ids (arguments : pyval)
  : M dispatcher (list TextContent + pyval) :=
  track_ids <- lift (py_get arguments "track_ids" PNone) ;;
  match track_ids with
  | PStr s =>
      match json_loads s with
      | Some decoded => ret (inr decoded)
      | None => ret (inl (create_error_response
                            "track_ids must be a list or a valid JSON array."))
      end
  | _ => ret (inr track_ids)
  end.

(** Lines 446-526: [case "Playlist"]. *)
Definition playlist (arguments : pyval) : M dispatcher (option (list TextContent)) :=
  action <- lift (py_get arguments "action" PNone) ;;
  if is_str action "get" then
    playlists <- invoke c_get_current_user_playlists ;;
    ret (text_response (json_dumps playlists))
  else if is_str action "get_tracks" then
    playlist_id <- lift (py_get arguments "playlist_id" PNone) ;;
    if negb (truthy playlist_id) then
      ret (Some (create_error_response "playlist_id is required for get_tracks action."))
    else
      playlist_id <- lift (py_get arguments "playlist_id" PNone) ;;
      tracks <- invoke (c_get_playlist_tracks playlist_id) ;;
      ret (text_response (json_dumps tracks))
  else if is_str action "add_tracks" then
    track_ids <- decoded_track_ids arguments ;;
    match track_ids with
    | inl error => ret (Some error)
    | inr track_ids =>
        playlist_id <- lift (py_get arguments "playlist_id" PNone) ;;
        invoke (c_add_tracks_to_playlist playlist_id track_ids) ;;;
        ret (text_response (plain "Tracks added to playlist."))
    end
  else if is_str action "remove_tracks" then
    track_ids <- decoded_track_ids arguments ;;
    match track_ids with
    | inl error => ret (Some error)
    | inr track_ids =>
        playlist_id <- lift (py_get arguments "playlist_id" PNone) ;;
        invoke (c_remove_tracks_from_playlist playlist_id track_ids) ;;;
        ret (text_response (plain "Tracks removed from playlist."))
    end
  else if is_str action "change_details" then
    playlist_id <- lift (py_get arguments "playlist_id" PNone) ;;
    if negb (truthy playlist_id) then
      ret (Some (create_error_response
                   "playlist_id is required for change_details action."))
    else
      (* [arguments] is a dict here, so reading [description] before the
         test of [name] raises nothing the source would not. *)
      name <- lift (py_get arguments "name" PNone) ;;
      description <- lift (py_get arguments "description" PNone) ;;
      if negb (truthy name) && negb (truthy description) then
        ret (Some (create_error_response
          "At least one of name, description, public, or collaborative is required."))
      else
        invoke (c_change_playlist_details playlist_id name description) ;;;
        ret (text_response (plain "Playlist details changed."))
  else
    ret (Some (create_error_response
      ("Unknown playlist action: " ++ str action
         ++ ". Supported actions are: get, get_tracks, add_tracks, remove_tracks, change_details."))).

(** Lines 183-530: the [match name[7:]] inside the [try]. *)
Definition tool (name : string) (arguments : pyval)
  : M dispatcher (option (list TextContent)) :=
  let suffix := substring 7 (String.length name - 7) name in
  if (suffix =? "Playback") then playback arguments
  else if (suffix =? "Search") then search_tool arguments
  else if (suffix =? "Queue") then queue arguments
  else if (suffix =? "GetInfo") then get_info_tool arguments
  else if (suffix =? "Playlist") then playlist arguments
  else ret (Some (create_error_response ("Unknown tool: " ++ name))).

(** Lines 176-538.  The result is [None] when the function ends without a
    [return]; an exception in the result is one that leaves the function. *)
Definition handle_call_tool (name : string) (arguments : pyval)
  : M dispatcher (option (list TextContent)) :=
  if (substring 0 7 name =? "Spotify") then
    try_except (tool name arguments) is_Exception
      (fun e =>
         if is_SpotifyException e then
           ret (Some (create_error_response
                        ("An error occurred with the Spotify Client: " ++ exn_str e)))
         else
           ret (Some (create_error_response
                        ("Unexpected error occurred: " ++ exn_str e))))
  else raise (Raise AssertionError ("Unknown tool: " ++ name)).

End Dispatcher.

Arguments Dispatcher {W}.
Arguments after_method {W}.
Arguments client_state {W}.
Arguments client_log {W}.

End server.

(** ** The vocabulary of the properties *)

Module props.
Import spotify_api server.

(** The four kinds of resource a uri can name. *)
Inductive kind : Type := Track | Album | Playlist | Artist.

(** The validator of a kind, and the lookup it makes on the service. *)
Definition validator {B} (sp : sp_call -> B -> (exn + pyval) * B)
  (urlparse_path : string -> exn + string) (k : kind)
  : pyval -> M (client B) pyval :=
  match k with
  | Track => is_valid_track B sp urlparse_path
  | Album => is_valid_album B sp urlparse_path
  | Playlist => is_valid_playlist B sp urlparse_path
  | Artist => is_valid_artist B sp urlparse_path
  end.

Definition lookup_call (k : kind) (id : pyval) : sp_call :=
  match k with
  | Track => sp_track id
  | Album => sp_album id
  | Playlist => sp_playlist id
  | Artist => sp_artist id
  end.

(** Lines 47 and 119-125 of [server.py]: the names of the tools. *)
Definition tool_names : list string :=
  ["SpotifyPlayback"; "SpotifySearch"; "SpotifyQueue"; "SpotifyGetInfo"; "SpotifyPlaylist"].

(** A logged call that raised. *)
Definition raised {C : Type} (event : C * (exn + pyval)) : bool :=
  match snd event with
  | inl _ => true
  | inr _ => false
  end.

(** The response is exactly the payload [{error: true, message: m}] with a
    non-empty [m]. *)
Definition is_error_payload (r : option (list TextContent)) : Prop :=
  exists message : string,
    message <> EmptyString /\ r = Some (create_error_response message).

(** A computation of the dispatcher is faithful up to [Q] when, started with
    no raised call in the log, it can only return a value outside [Q] with
    no raised call in the log: an exception of the client is never dropped
    on the way to a result that [Q] does not describe. *)
Definition faithful {W A : Type} (Q : A -> Prop) (m : M (dispatcher W) A) : Prop :=
  forall (s : dispatcher W) (a : A) (s' : dispatcher W),
    existsb raised (client_log s) = false ->
    m s = (inr a, s') ->
    existsb raised (client_log s') = false \/ Q a.

(** The three actions of the [Playlist] tool that change a playlist, with
    the text the dispatcher answers. *)
Inductive playlist_edit : Type := add_tracks | remove_tracks | change_details.

Definition edit_action (e : playlist_edit) : string :=
  match e with
  | add_tracks => "add_tracks"
  | remove_tracks => "remove_tracks"
  | change_details => "change_details"
  end.

Definition edit_answer (e : playlist_edit) : string :=
  match e with
  | add_tracks => "Tracks added to playlist."
  | remove_tracks => "Tracks removed from playlist."
  | change_details => "Playlist details changed."
  end.

(** [d.get(key, default)] on the items of a dict. *)
Definition item_or (d : list (string * pyval)) (key : string) (default : pyval) : pyval :=
  match dict_lookup key d with
  | Some v => v
  | None => default
  end.

(** [arguments.get(key)]. *)
Definition argument (arguments : list (string * pyval)) (key : string) : pyval :=
  item_or arguments key PNone.

(** [track_ids] as the dispatcher hands it to the client: a string is
    decoded by [json.loads]; [None] when the decoding fails. *)
Definition track_ids_argument (json_loads : string -> option pyval)
  (arguments : list (string * pyval)) : option pyval :=
  match argument arguments "track_ids" with
  | PStr s => json_loads s
  | v => Some v
  end.

(** Valid arguments of an edit: the ones that pass every argument check of
    the dispatcher (lines 470-475, 488-493, 506-512) and of the client
    method (lines 469-472, 487-490, 507-508). *)
Definition valid_edit_arguments (json_loads : string -> option pyval)
  (e : playlist_edit) (arguments : list (string * pyval)) : bool :=
  match e with
  | add_tracks | remove_tracks =>
      truthy (argument arguments "playlist_id")
      && match track_ids_argument json_loads arguments with
         | Some track_ids => truthy track_ids
         | None => false
         end
  | change_details =>
      truthy (argument arguments "playlist_id")
      && (truthy (argument arguments "name")
          || truthy (argument arguments "description"))
  end.

(** The call an edit makes on the remote service. *)
Definition edit_call (json_loads : string -> option pyval)
  (e : playlist_edit) (arguments : list (string * pyval)) : sp_call :=
  let track_ids :=
    match track_ids_argument json_loads arguments with
    | Some v => v
    | None => PNone
    end in
  match e with
  | add_tracks =>
      sp_playlist_add_items (argument arguments "playlist_id") track_ids PNone
  | remove_tracks =>
      sp_playlist_remove_all_occurrences_of_items
        (argument arguments "playlist_id") track_ids
  | change_details =>
      sp_playlist_change_details (argument arguments "playlist_id")
        (argument arguments "name") (argument arguments "description")
  end.

End props.

(** ** spotify_api.py: the other methods of class Client *)

Module spotify_api_rest.
Import spotify_api server.

Section Rest.

Variable B : Type.
Variable sp : sp_call -> B -> (exn + pyval) * B.
Variable urlparse_path : string -> exn + string.

(** [repr] of a list or a dict, for the f-string of line 296. *)
Variable repr : pyval -> string.

Local Abbreviation sp_invoke' := (sp_invoke B sp).
Local Abbreviation extract := (_extract_id_from_uri urlparse_path).

(** Lines 176-182: the data kept of one track of an album page. *)
Definition album_track_data (track : pyval) : exn + pyval :=
  (uri <~ py_getitem track "uri" ;;
   name <~ py_getitem track "name" ;;
   artists <~ py_getitem track "artists" ;;
   artist_list <~ py_iter artists ;;
   names <~ emap (fun artist => py_getitem artist "name") artist_list ;;
   duration_ms <~ py_getitem track "duration_ms" ;;
   track_number <~ py_getitem track "track_number" ;;
   inr (PDict [("uri", uri); ("name", name); ("artists", PList names);
               ("duration_ms", duration_ms); ("track_number", track_number)]))%pyexpr.

(** Lines 175-183: the [for] loop over one page, appending to [tracks]. *)
Fixpoint album_page_tracks (items : list pyval) (tracks : list pyval)
  : exn + list pyval :=
  match items with
  | [] => inr tracks
  | track :: rest =>
      (track_data <~ album_track_data track ;;
       album_page_tracks rest (tracks ++ [track_data]))%pyexpr
  end.

(** Lines 174-189: the [while results:] loop, run with fuel; [None] means
    the fuel ran out. *)
Fixpoint album_pages (fuel : nat) (results : pyval) (tracks : list pyval)
  (s : client B) : option ((exn + pyval) * client B) :=
  match fuel with
  | O => None
  | S fuel' =>
      if truthy results then
        match (items <~ py_getitem results "items" ;;
               xs <~ py_iter items ;;
               tracks' <~ album_page_tracks xs tracks ;;
               next <~ py_getitem results "next" ;;
               inr (tracks', next))%pyexpr with
        | inl e => Some (inl e, s)
        | inr (tracks', next) =>
            if truthy next then
              match sp_invoke' (sp_next results) s with
              | (inr results', s') => album_pages fuel' results' tracks' s'
              | (inl e, s') => Some (inl e, s')
              end
            else album_pages fuel' PNone tracks' s
        end
      else Some (inr (PList tracks), s)
  end.

(** Lines 168-191. *)
Definition get_album_tracks (fuel : nat) (album_uri : pyval) (s : client B)
  : option ((exn + pyval) * client B) :=
  match extract album_uri with
  | inl e => Some (inl e, s)
  | inr album_id =>
      match sp_invoke' (sp_album_tracks album_id) s with
      | (inr results, s') => album_pages fuel results [] s'
      | (inl e, s') => Some (inl e, s')
      end
  end.

(** [item['external_urls']['spotify'] if 'external_urls' in item else None]
    (lines 258, 270, 282, 293). *)
Definition external_url (item : pyval) : exn + pyval :=
  (present <~ py_in "external_urls" item ;;
   if present : bool then
     urls <~ py_getitem item "external_urls" ;; py_getitem urls "spotify"
   else inr PNone)%pyexpr.

(** Lines 250-259. *)
Definition track_info (item : pyval) : exn + pyval :=
  (name <~ py_getitem item "name" ;;
   artists <~ py_getitem item "artists" ;;
   artist_list <~ py_iter artists ;;
   names <~ emap (fun artist => py_getitem artist "name") artist_list ;;
   album <~ py_getitem item "album" ;;
   album_name <~ py_getitem album "name" ;;
   duration_ms <~ py_getitem item "duration_ms" ;;
   popularity <~ py_getitem item "popularity" ;;
   uri <~ py_getitem item "uri" ;;
   url <~ external_url item ;;
   inr (PDict [("type", PStr "track"); ("name", name); ("artists", PList names);
               ("album", album_name); ("duration_ms", duration_ms);
               ("popularity", popularity); ("uri", uri); ("external_url", url)]))%pyexpr.

(** Lines 262-271. *)
Definition playlist_info (item : pyval) : exn + pyval :=
  (name <~ py_getitem item "name" ;;
   owner <~ py_getitem item "owner" ;;
   owner_name <~ py_getitem owner "display_name" ;;
   description <~ py_getitem item "description" ;;
   tracks <~ py_getitem item "tracks" ;;
   tracks_total <~ py_getitem tracks "total" ;;
   followers <~ py_getitem item "followers" ;;
   followers_total <~ py_getitem followers "total" ;;
   uri <~ py_getitem item "uri" ;;
   url <~ external_url item ;;
   inr (PDict [("type", PStr "playlist"); ("name", name); ("owner", owner_name);
               ("description", description); ("tracks_total", tracks_total);
               ("followers", followers_total); ("uri", uri);
               ("external_url", url)]))%pyexpr.

(** Lines 274-283. *)
Definition album_info (item : pyval) : exn + pyval :=
  (name <~ py_getitem item "name" ;;
   artists <~ py_getitem item "artists" ;;
   artist_list <~ py_iter artists ;;
   names <~ emap (fun artist => py_getitem artist "name") artist_list ;;
   release_date <~ py_getitem item "release_date" ;;
   total_tracks <~ py_getitem item "total_tracks" ;;
   popularity <~ py_getitem item "popularity" ;;
   uri <~ py_getitem item "uri" ;;
   url <~ external_url item ;;
   inr (PDict [("type", PStr "album"); ("name", name); ("artists", PList names);
               ("release_date", release_date); ("total_tracks", total_tracks);
               ("popularity", popularity); ("uri", uri); ("external_url", url)]))%pyexpr.

(** Lines 286-294. *)
Definition artist_info (item : pyval) : exn + pyval :=
  (name <~ py_getitem item "name" ;;
   genres <~ py_getitem item "genres" ;;
   followers <~ py_getitem item "followers" ;;
   followers_total <~ py_getitem followers "total" ;;
   popularity <~ py_getitem item "popularity" ;;
   uri <~ py_getitem item "uri" ;;
   url <~ external_url item ;;
   inr (PDict [("type", PStr "artist"); ("name", name); ("genres", genres);
               ("followers", followers_total); ("popularity", popularity);
               ("uri", uri); ("external_url", url)]))%pyexpr.

(** Lines 244-298. *)
Definition get_info (item_uri : pyval) : M (client B) pyval :=
  item_id <- lift (extract item_uri) ;;
  is_track <- lift (py_in "track" item_uri) ;;
  if is_track : bool then
    item <- sp_invoke' (sp_track item_id) ;; lift (track_info item)
  else
  is_playlist <- lift (py_in "playlist" item_uri) ;;
  if is_playlist : bool then
    item <- sp_invoke' (sp_playlist item_id) ;; lift (playlist_info item)
  else
  is_album <- lift (py_in "album" item_uri) ;;
  if is_album : bool then
    item <- sp_invoke' (sp_album item_id) ;; lift (album_info item)
  else
  is_artist <- lift (py_in "artist" item_uri) ;;
  if is_artist : bool then
    item <- sp_invoke' (sp_artist item_id) ;; lift (artist_info item)
  else
    raise (Raise ValueError ("Unsupported URI type: " ++ str repr item_uri)).

(** Lines 516-517. *)
Definition get_devices : M (client B) pyval :=
  devices <- sp_invoke' sp_devices ;;
  lift (py_getitem devices "devices").

(** [device.get('is_active')] of every device of a listing (lines 520, 527). *)
Definition is_active (device : pyval) : exn + pyval := py_get device "is_active" PNone.

(** Lines 519-520. *)
Definition is_active_device : M (client B) pyval :=
  devices <- get_devices ;;
  lift (ds <~ py_iter devices ;;
        flags <~ emap is_active ds ;;
        inr (PBool (existsb truthy flags)))%pyexpr.

(** Lines 526-528: the first device of the loop that is active. *)
Fixpoint first_active (devices : list pyval) : exn + option pyval :=
  match devices with
  | [] => inr None
  | device :: rest =>
      (flag <~ is_active device ;;
       if truthy flag then inr (Some device) else first_active rest)%pyexpr
  end.

(** Lines 522-530. *)
Definition _get_candidate_device : M (client B) pyval :=
  devices <- get_devices ;;
  if negb (truthy devices) then
    raise (Raise ConnectionError "No active device. Is Spotify open?")
  else
    lift (ds <~ py_iter devices ;;
          active <~ first_active ds ;;
          match active with
          | Some device => inr device
          | None =>
              first <~ py_getitem0 devices ;;
              _ <~ py_getitem first "name" ;;
              py_getitem0 devices
          end)%pyexpr.

End Rest.

(** The calls on [self.sp], [self.cache_handler] and [self.auth_manager]
    that the methods below make and the ones above do not. *)
Inductive api_call : Type :=
| sp_artist_top_tracks (artist_id country : pyval)
| sp_current_user_playing_track
| sp_start_playback (uris context_uri device_id : pyval)
| sp_current_playback
| sp_pause_playback (device_id : pyval)
| sp_next_track
| cache_get_cached_token
| auth_is_token_expired (token : pyval).

Section Player.

Variable B : Type.
Variable sp : sp_call -> B -> (exn + pyval) * B.
Variable api : api_call -> B -> (exn + pyval) * B.
Variable urlparse_path : string -> exn + string.

(** [utils.parse_track], which is not part of the sources. *)
Variable parse_track : pyval -> exn + pyval.

(** A [Client] object with the log of the calls of [api_call] made on it. *)
Record session : Type := Session {
  self : client B;
  api_log : list (api_call * (exn + pyval))
}.

(** The session after a call [c] that came out as [r] and left the service
    in [b]. *)
Definition after_api_call (s : session) (c : api_call) (r : exn + pyval) (b : B)
  : session :=
  {| self := {| username := username (self s); remote := b; sp_log := sp_log (self s) |};
     api_log := api_log s ++ [(c, r)] |}.

Definition api_invoke (c : api_call) : M session pyval :=
  fun s => let (r, b) := api c (remote (self s)) in (r, after_api_call s c r b).

(** A computation of the methods modelled above, run on the same object. *)
Definition on_self {A : Type} (m : M (client B) A) : M session A :=
  fun s => let (r, c) := m (self s) in (r, {| self := c; api_log := api_log s |}).

(** Lines 207-214: the data kept of one top track. *)
Definition top_track_data (track : pyval) : exn + pyval :=
  (uri <~ py_getitem track "uri" ;;
   name <~ py_getitem track "name" ;;
   artists <~ py_getitem track "artists" ;;
   artist_list <~ py_iter artists ;;
   names <~ emap (fun artist => py_getitem artist "name") artist_list ;;
   duration_ms <~ py_getitem track "duration_ms" ;;
   has_album <~ py_in "album" track ;;
   album <~ (if has_album : bool then
               a <~ py_getitem track "album" ;; py_getitem a "name"
             else inr PNone) ;;
   popularity <~ py_getitem track "popularity" ;;
   inr (PDict [("uri", uri); ("name", name); ("artists", PList names);
               ("duration_ms", duration_ms); ("album", album);
               ("popularity", popularity)]))%pyexpr.

(** Lines 197-201: the market, [US] when the profile cannot be read.  The
    [except:] is bare: it catches whatever is raised. *)
Definition market : M session pyval :=
  try_except
    (user_info <- on_self (sp_invoke B sp sp_current_user) ;;
     lift (py_getitem user_info "country"))
    (fun _ => true) (fun _ => ret (PStr "US")).

(** Lines 193-217. *)
Definition get_artist_top_tracks (artist_uri : pyval) : M session pyval :=
  artist_id <- lift (_extract_id_from_uri urlparse_path artist_uri) ;;
  country <- market ;;
  results <- api_invoke (sp_artist_top_tracks artist_id country) ;;
  lift (tracks <~ py_getitem results "tracks" ;;
        xs <~ py_iter tracks ;;
        ds <~ emap top_track_data xs ;;
        inr (PList ds))%pyexpr.

(** Lines 339-360.  The [except] clause logs and raises again. *)
Definition get_current_track : M session pyval :=
  try_except
    (current <- api_invoke sp_current_user_playing_track ;;
     if negb (truthy current) then ret PNone
     else
       kind <- lift (py_get current "currently_playing_type" PNone) ;;
       if negb (is_str kind "track") then ret PNone
       else
         lift (item <~ py_getitem current "item" ;;
               track_info <~ parse_track item ;;
               has_is_playing <~ py_in "is_playing" current ;;
               track_info <~ (if has_is_playing : bool then
                                is_playing <~ py_getitem current "is_playing" ;;
                                py_setitem track_info "is_playing" is_playing
                              else inr track_info) ;;
               _ <~ py_get track_info "name" (PStr "Unknown") ;;
               _ <~ py_get track_info "artist" (PStr "Unknown") ;;
               inr track_info)%pyexpr)
    is_Exception (fun e => raise e).





(** Lines 551-552: [for _ in range(k): self.sp.next_track()]. *)
Fixpoint next_tracks (k : nat) : M session unit :=
  match k with
  | O => ret tt
  | S k' => api_invoke sp_next_track ;;; next_tracks k'
  end.

(** Lines 549-552, for an integer [n]. *)
Definition skip_track (n : Z) : M session pyval :=
  next_tracks (Z.to_nat n) ;;; ret PNone.

(** Lines 532-544. *)
Definition auth_ok : M session pyval :=
  try_except
    (token <- api_invoke cache_get_cached_token ;;
     match token with
     | PNone => ret (PBool false)
     | _ =>
         is_expired <- api_invoke (auth_is_token_expired token) ;;
         ret (PBool (negb (truthy is_expired)))
     end)
    is_Exception (fun _ => ret (PBool false)).

End Player.

Arguments Session {B}.
Arguments self {B}.
Arguments api_log {B}.
Arguments after_api_call {B}.

End spotify_api_rest.

(** ** utils.py: the decorator of the methods that need a device *)

Module utils.
Import spotify_api spotify_api_rest.

Section Validate.

Variable B : Type.
Variable sp : sp_call -> B -> (exn + pyval) * B.

(** Modelled from the spec: the decorator [utils.validate] is not part of
    the sources.  The spec has a device selector that "finds or selects a
    playback target device" and is "used by playback and queue operations",
    which "always re-resolve a device" (sections 2 and 3): a device is
    looked for with [is_active_device], and selected with
    [_get_candidate_device] when none is active.  The sources agree: every
    decorated method takes a keyword [device] that defaults to [None] and
    that no caller passes, and nothing else calls these two methods.  A
    method is handed no device when one is active, the candidate otherwise. *)
Definition validate (A : Type) (method : pyval -> M (client B) A) : M (client B) A :=
  active <- is_active_device B sp ;;
  if truthy active then method PNone
  else
    device <- _get_candidate_device B sp ;;
    method device.

End Validate.

End utils.

(** ** The vocabulary of the further properties *)

Module props_rest.
Import spotify_api server props spotify_api_rest.

(** [page] is a page of an album listing: its tracks give the data [ds] and
    its cursor is [next]. *)
Definition album_page (page : pyval) (ds : list pyval) (next : pyval) : Prop :=
  exists (items : pyval) (xs : list pyval),
    py_getitem page "items" = inr items /\
    py_iter items = inr xs /\
    emap album_track_data xs = inr ds /\
    py_getitem page "next" = inr next.

(** From the service state [b], the page [page] and the pages its cursors
    lead to hold the tracks [ds]; following them takes the calls [calls]
    and leaves the service in [b_end]. *)
Inductive listing {B : Type} (sp : sp_call -> B -> (exn + pyval) * B)
  : B -> pyval -> list pyval -> list sp_call -> B -> Prop :=
| listing_last (b : B) (page : pyval) (ds : list pyval) (next : pyval) :
    album_page page ds next ->
    truthy next = false ->
    listing sp b page ds [] b
| listing_more (b b' b_end : B) (page page' : pyval) (ds ds' : list pyval)
    (next : pyval) (calls : list sp_call) :
    album_page page ds next ->
    truthy next = true ->
    sp (sp_next page) b = (inr page', b') ->
    listing sp b' page' ds' calls b_end ->
    listing sp b page (ds ++ ds') (sp_next page :: calls) b_end.

(** A device is active when its [is_active] is a true value. *)
Definition active (device : list (string * pyval)) : bool :=
  truthy (item_or device "is_active" PNone).

(** A computation of the dispatcher answers when every value it returns is
    a response. *)
Definition answers {W : Type} (m : M (dispatcher W) (option (list TextContent))) : Prop :=
  forall (s : dispatcher W) (r : option (list TextContent)) (s' : dispatcher W),
    m s = (inr r, s') -> r <> None.

(** The four actions of the [Playback] tool. *)
Definition playback_action (action : pyval) : bool :=
  is_str action "get" || is_str action "start"
  || is_str action "pause" || is_str action "skip".

(** The requests that the dispatcher turns down on their arguments alone,
    with the message of the error: lines 328-329, 433-435, 459-461,
    473-475, 491-493, 506-512 and 524-526. *)
Inductive rejected (repr : pyval -> string) (json_loads : string -> option pyval)
  : string -> list (string * pyval) -> string -> Prop :=
| queue_add_without_uri (a : list (string * pyval)) :
    is_str (argument a "action") "add" = true ->
    truthy (argument a "spotify_uri") = false ->
    rejected repr json_loads "SpotifyQueue" a
      "spotify_uri is required for the 'add' action."
| queue_unknown_action (a : list (string * pyval)) :
    is_str (argument a "action") "add" = false ->
    is_str (argument a "action") "get" = false ->
    rejected repr json_loads "SpotifyQueue" a
      ("Unknown queue action: " ++ str repr (argument a "action")
         ++ ". Supported actions are: add and get.")
| playlist_tracks_without_id (a : list (string * pyval)) :
    is_str (argument a "action") "get_tracks" = true ->
    truthy (argument a "playlist_id") = false ->
    rejected repr json_loads "SpotifyPlaylist" a
      "playlist_id is required for get_tracks action."
| playlist_edit_with_bad_json (a : list (string * pyval)) (t : string) :
    is_str (argument a "action") "add_tracks" = true
    \/ is_str (argument a "action") "remove_tracks" = true ->
    argument a "track_ids" = PStr t ->
    json_loads t = None ->
    rejected repr json_loads "SpotifyPlaylist" a
      "track_ids must be a list or a valid JSON array."
| change_details_without_id (a : list (string * pyval)) :
    is_str (argument a "action") "change_details" = true ->
    truthy (argument a "playlist_id") = false ->
    rejected repr json_loads "SpotifyPlaylist" a
      "playlist_id is required for change_details action."
| change_details_without_change (a : list (string * pyval)) :
    is_str (argument a "action") "change_details" = true ->
    truthy (argument a "playlist_id") = true ->
    truthy (argument a "name") = false ->
    truthy (argument a "description") = false ->
    rejected repr json_loads "SpotifyPlaylist" a
      "At least one of name, description, public, or collaborative is required."
| playlist_unknown_action (a : list (string * pyval)) :
    is_str (argument a "action") "get" = false ->
    is_str (argument a "action") "get_tracks" = false ->
    is_str (argument a "action") "add_tracks" = false ->
    is_str (argument a "action") "remove_tracks" = false ->
    is_str (argument a "action") "change_details" = false ->
    rejected repr json_loads "SpotifyPlaylist" a
      ("Unknown playlist action: " ++ str repr (argument a "action")
         ++ ". Supported actions are: get, get_tracks, add_tracks, remove_tracks, change_details.").

(** The add of one track of a collection: the call the loop makes for it. *)
Definition add_call (key : string) (track : list (string * pyval)) : client_call :=
  c_add_to_queue (item_or track key PNone).

End props_rest.

(** ** Test doubles

    Concrete remote services and clients, and stand-ins for the library
    functions and for the parsers of [utils.py], on which the properties are
    run. *)

Module doubles.
Import spotify_api server.

Definition repr (v : pyval) : string := "<" ++ type_name v ++ ">".

(** A decoder that knows one document. *)
Definition json_loads (s : string) : option pyval :=
  if (s =? "[]") then Some (PList []) else None.

Definition int_of_str (s : string) : option Z :=
  if (s =? "1") then Some 1%Z else None.

Definition urlparse_path (url : string) : exn + string := inr url.

Definition parse_search_results (online_results qtype username : pyval) : exn + pyval :=
  inr online_results.

Definition parse_local_documents (documents qtype : pyval) : exn + pyval :=
  inr documents.

(** The track of every item that is not null. *)
Definition parse_tracks (items : pyval) : exn + pyval :=
  (xs <~ py_iter items ;;
   tracks <~ emap (fun item => py_getitem item "track") (filter truthy xs) ;;
   inr (PList tracks))%pyexpr.

Definition not_found : exn := Raise SpotifyException "http status: 404".

(** A remote service on which every call fails. *)
Definition failing_service (c : sp_call) (b : unit) : (exn + pyval) * unit :=
  (inl not_found, b).

(** A playlist of five tracks, listed in pages of 2, 2 and 1. *)
Definition track (n : string) : pyval :=
  PDict [("uri", PStr ("spotify:track:" ++ n)); ("name", PStr ("Track " ++ n));
         ("artists", PList [PDict [("name", PStr "Artist")]]);
         ("duration_ms", PInt 1000)].

Definition track_data (n : string) : pyval :=
  PDict [("uri", PStr ("spotify:track:" ++ n)); ("name", PStr ("Track " ++ n));
         ("artists", PList [PStr "Artist"]);
         ("duration_ms", PInt 1000); ("album", PNone)].

Definition item (n : string) : pyval := PDict [("track", track n)].

Definition page (items : list pyval) (next : pyval) : pyval :=
  PDict [("items", PList items); ("next", next)].

Definition page1 : pyval := page [item "1"; item "2"] (PStr "page2").
Definition page2 : pyval := page [item "3"; item "4"] (PStr "page3").
Definition page3 : pyval := page [item "5"] PNone.

Definition paged_service (c : sp_call) (b : unit) : (exn + pyval) * unit :=
  match c with
  | sp_playlist_items _ => (inr page1, b)
  | sp_playlist _ => (inr (PDict [("name", PStr "Mix"); ("tracks", page1)]), b)
  | sp_next results =>
      match py_getitem results "next" with
      | inr (PStr "page2") => (inr page2, b)
      | inr (PStr "page3") => (inr page3, b)
      | _ => (inl not_found, b)
      end
  | _ => (inl not_found, b)
  end.

(** A service with no active device and one listed device: queueing fails
    unless a device id is given.  The state is the queue. *)
Definition no_active_device : exn := Raise SpotifyException "No active device found".

Definition queue_service (c : sp_call) (b : list (pyval * pyval))
  : (exn + pyval) * list (pyval * pyval) :=
  match c with
  | sp_add_to_queue uri PNone => (inl no_active_device, b)
  | sp_add_to_queue uri device_id => (inr PNone, (b ++ [(uri, device_id)])%list)
  | sp_devices =>
      (inr (PDict [("devices", PList [PDict [("id", PStr "dev1");
                                             ("name", PStr "Kitchen");
                                             ("is_active", PBool false)]])]), b)
  | _ => (inl not_found, b)
  end.

(** A service whose local search endpoint answers [local], and whose remote
    search finds one track. *)
Definition online_results : pyval :=
  PDict [("tracks", PDict [("items", PList [track "9"])])].

Definition search_service (local : exn + pyval) (c : sp_call) (b : unit)
  : (exn + pyval) * unit :=
  match c with
  | requests_get _ _ _ => (local, b)
  | sp_search _ _ _ _ => (inr online_results, b)
  | _ => (inl not_found, b)
  end.

Definition timed_out : exn := Raise Timeout "Read timed out. (read timeout=5)".

(** A client object whose user name is known and on which nothing was called. *)
Definition fresh {B : Type} (b : B) : client B :=
  {| username := PStr "me"; remote := b; sp_log := [] |}.

(** A client that holds an album of four tracks and a queue; queueing the
    third track fails. *)
Definition album_track (n : string) : pyval :=
  PDict [("uri", PStr ("spotify:track:" ++ n)); ("name", PStr ("Track " ++ n))].

Definition restricted : exn := Raise SpotifyException "Restriction violated".

Definition album_client (c : client_call) (queued : list pyval)
  : (exn + pyval) * list pyval :=
  match c with
  | c_is_valid_album _ => (inr (PBool true), queued)
  | c_get_album_tracks _ =>
      (inr (PList [album_track "1"; album_track "2"; album_track "3"; album_track "4"]),
       queued)
  | c_add_to_queue uri =>
      if is_str uri "spotify:track:3" then (inl restricted, queued)
      else (inr PNone, (queued ++ [uri])%list)
  | _ => (inr PNone, queued)
  end.

(** A client on which every call fails. *)
Definition failing_client (c : client_call) (w : unit) : (exn + pyval) * unit :=
  (inl not_found, w).

(** A client whose search finds nothing. *)
Definition empty_search_client (c : client_call) (w : unit) : (exn + pyval) * unit :=
  match c with
  | c_search _ _ _ => (inr (PDict [("tracks", PList [])]), w)
  | _ => (inr PNone, w)
  end.

(** The [Client] of [spotify_api.py] on a remote service [sp]; the methods
    that are not modelled return [None]. *)
Definition client_on {B : Type} (sp : sp_call -> B -> (exn + pyval) * B)
  : client_call -> M (client B) pyval :=
  Client_method B sp PNone PNone parse_local_documents parse_search_results
    parse_tracks urlparse_path (utils.validate B sp) (fun _ => ret PNone).

(** A dispatcher at the start of a call. *)
Definition start {W : Type} (w : W) : dispatcher W :=
  {| client_state := w; client_log := [] |}.

End doubles.

(** ** Further test doubles *)

Module doubles_rest.
Import spotify_api server spotify_api_rest doubles.

(** The path of one web url, as [urlparse] gives it. *)
Definition web_path (url : string) : exn + string :=
  if (url =? "https://open.spotify.com/track/ABC") then inr "/track/ABC"
  else inr url.

(** An album of three tracks, listed in pages of 2 and 1. *)
Definition album_item (n : string) (number : Z) : pyval :=
  PDict [("uri", PStr ("spotify:track:" ++ n)); ("name", PStr ("Track " ++ n));
         ("artists", PList [PDict [("name", PStr "Artist")]]);
         ("duration_ms", PInt 1000); ("track_number", PInt number)].

Definition album_data (n : string) (number : Z) : pyval :=
  PDict [("uri", PStr ("spotify:track:" ++ n)); ("name", PStr ("Track " ++ n));
         ("artists", PList [PStr "Artist"]);
         ("duration_ms", PInt 1000); ("track_number", PInt number)].

Definition album_page1 : pyval :=
  page [album_item "1" 1; album_item "2" 2] (PStr "page2").
Definition album_page2 : pyval := page [album_item "3" 3] PNone.

Definition album_service (c : sp_call) (b : unit) : (exn + pyval) * unit :=
  match c with
  | sp_album_tracks _ => (inr album_page1, b)
  | sp_next results =>
      match py_getitem results "next" with
      | inr (PStr "page2") => (inr album_page2, b)
      | _ => (inl not_found, b)
      end
  | _ => (inl not_found, b)
  end.

(** A service that lists two devices, the second one active. *)
Definition kitchen : list (string * pyval) :=
  [("id", PStr "dev1"); ("name", PStr "Kitchen"); ("is_active", PBool false)].
Definition phone : list (string * pyval) :=
  [("id", PStr "dev2"); ("name", PStr "Phone"); ("is_active", PBool true)].

Definition two_devices : pyval := PDict [("devices", PList [PDict kitchen; PDict phone])].

Definition devices_service (c : sp_call) (b : unit) : (exn + pyval) * unit :=
  match c with
  | sp_devices => (inr two_devices, b)
  | _ => (inl not_found, b)
  end.

(** A client that holds an album of two tracks and a queue, and on which
    every call returns. *)
Definition willing_client (c : client_call) (queued : list pyval)
  : (exn + pyval) * list pyval :=
  match c with
  | c_is_valid_album _ => (inr (PBool true), queued)
  | c_get_album_tracks _ => (inr (PList [album_track "1"; album_track "2"]), queued)
  | c_add_to_queue uri => (inr PNone, (queued ++ [uri])%list)
  | _ => (inr PNone, queued)
  end.

(** A stand-in for [utils.parse_track]: the item itself. *)
Definition parse_track (item : pyval) : exn + pyval := inr item.


Definition playing_episode : pyval :=
  PDict [("currently_playing_type", PStr "episode"); ("is_playing", PBool true)].


(** A service whose player reports [current]; an artist has no top tracks
    and every other call returns [None]. *)
Definition player_service (current : pyval) (c : api_call) (b : unit)
  : (exn + pyval) * unit :=
  match c with
  | sp_current_user_playing_track => (inr current, b)
  | sp_current_playback => (inr current, b)
  | sp_artist_top_tracks _ _ => (inr (PDict [("tracks", PList [])]), b)
  | _ => (inr PNone, b)
  end.

(** A session of a client on which none of these calls was made. *)
Definition begin {B : Type} (c : client B) : session B :=
  {| self := c; api_log := [] |}.

(** A client whose search finds two shows. *)
Definition show_search_client (c : client_call) (w : unit) : (exn + pyval) * unit :=
  match c with
  | c_search _ _ _ =>
      (inr (PDict [("shows", PList [PDict [("name", PStr "One")];
                                    PDict [("name", PStr "Two")]])]), w)
  | _ => (inr PNone, w)
  end.

(** A client object as [__init__] leaves it (line 98): the user name is not
    known yet. *)
Definition newcomer {B : Type} (b : B) : client B :=
  {| username := PNone; remote := b; sp_log := [] |}.

(** A service with one listed device, idle, on which the first attempt to
    queue fails whatever the device is; a later attempt succeeds when it
    names a device.  The state counts the attempts and holds the queue. *)
Definition unavailable : exn := Raise SpotifyException "Service unavailable".

Definition flaky_queue_service (c : sp_call) (b : nat * list (pyval * pyval))
  : (exn + pyval) * (nat * list (pyval * pyval)) :=
  let (attempts, queued) := b in
  match c with
  | sp_add_to_queue uri device_id =>
      match attempts, device_id with
      | O, _ => (inl unavailable, (S attempts, queued))
      | _, PNone => (inl no_active_device, (S attempts, queued))
      | _, _ => (inr PNone, (S attempts, (queued ++ [(uri, device_id)])%list))
      end
  | sp_devices =>
      (inr (PDict [("devices", PList [PDict [("id", PStr "dev1");
                                             ("name", PStr "Kitchen");
                                             ("is_active", PBool false)]])]), b)
  | _ => (inl not_found, b)
  end.



End doubles_rest.

(** * Properties *)

Import spotify_api server props.

(** ** The validators of the client *)

Section ValidatorFacts.

Variable B : Type.
Variable sp : sp_call -> B -> (exn + pyval) * B.
Variable urlparse_path : string -> exn + string.

Local Abbreviation extract := (_extract_id_from_uri urlparse_path).

(** What a validator does, spelled out: it answers [False] when the id
    cannot be extracted, and otherwise looks the id up and answers by the
    outcome of the lookup. *)
Lemma validator_run (k : kind) (uri : pyval) (s : client B) :
  validator sp urlparse_path k uri s =
  match extract uri with
  | inl _ => (inr (PBool false), s)
  | inr id =>
      let (r, b) := sp (lookup_call k id) (remote s) in
      (inr (PBool match r with inr _ => true | inl _ => false end),
       after_call s (lookup_call k id) r b)
  end.
Proof.
  destruct k; cbn [validator lookup_call];
    unfold is_valid_track, is_valid_album, is_valid_playlist, is_valid_artist,
      try_except, bind, lift, ret, sp_invoke, is_Exception;
    destruct (extract uri) as [e | id]; try reflexivity;
    match goal with |- context [sp ?c ?b] => destruct (sp c b) as [[e | v] b'] end;
    reflexivity.
Qed.

(** C6.  For every kind of resource and every argument (a uri in any of the
    accepted forms, or any other value), the validator of [Client] returns a
    boolean and never raises; the boolean is [True] exactly when the id was
    extracted and the lookup of that id on the remote service returned, so
    it is [False] whenever the lookup raised, whatever the exception. *)
Theorem validators_never_raise (k : kind) (uri : pyval) (s : client B) :
  exists (b : bool) (s' : client B),
    validator sp urlparse_path k uri s = (inr (PBool b), s') /\
    (b = true <->
     exists id v b', extract uri = inr id /\
                     sp (lookup_call k id) (remote s) = (inr v, b')).
Proof.
  rewrite validator_run.
  destruct (extract uri) as [e | id].
  - exists false, s. split; [reflexivity |].
    split; [discriminate | intros (id & v & b' & H & _); discriminate].
  - destruct (sp (lookup_call k id) (remote s)) as [[e | v] b'] eqn:Hsp.
    + eexists false, _. split; [reflexivity |].
      split; [discriminate |].
      intros (id' & v & b'' & Hid & Hv). injection Hid as <-.
      rewrite Hsp in Hv. discriminate.
    + eexists true, _. split; [reflexivity |].
      split; [| reflexivity]. intros _. now exists id, v, b'.
Qed.

End ValidatorFacts.

(** ** The search of the client *)

Section SearchFacts.

Variable B : Type.
Variable sp : sp_call -> B -> (exn + pyval) * B.
Variables LOCAL_SEARCH_URL SPOTIFY_COUNTRY : pyval.
Variable parse_local_documents : pyval -> pyval -> exn + pyval.
Variable parse_search_results : pyval -> pyval -> pyval -> exn + pyval.

Local Abbreviation smart_search' :=
  (smart_search B sp LOCAL_SEARCH_URL SPOTIFY_COUNTRY
     parse_local_documents parse_search_results).
Local Abbreviation online' :=
  (smart_search_online B sp SPOTIFY_COUNTRY parse_search_results).

(** A local answer that is a non-empty list passes the test of line 55, and
    line 56 then calls [.get] on the list: the search raises
    [AttributeError], after the local request and nothing else. *)
Lemma smart_search_on_a_list (query qtype limit x : pyval) (xs : list pyval)
  (s : client B) (b : B) :
  sp (requests_get LOCAL_SEARCH_URL query qtype) (remote s) = (inr (PList (x :: xs)), b) ->
  smart_search' query qtype limit s =
  (inl (Raise AttributeError "'list' object has no attribute 'get'"),
   after_call s (requests_get LOCAL_SEARCH_URL query qtype) (inr (PList (x :: xs))) b).
Proof.
  intros H.
  unfold smart_search, try_except, bind, sp_invoke, lift, ret, after_call.
  rewrite H. reflexivity.
Qed.

(** A local answer that is not a list (a dict with the key [documents]
    included) fails the test of line 55: the search goes to the remote
    service. *)
Lemma smart_search_not_a_list (query qtype limit local : pyval) (s : client B) (b : B) :
  sp (requests_get LOCAL_SEARCH_URL query qtype) (remote s) = (inr local, b) ->
  isinstance_list local = false ->
  smart_search' query qtype limit s =
  online' query qtype limit
    (after_call s (requests_get LOCAL_SEARCH_URL query qtype) (inr local) b).
Proof.
  intros H Hl.
  unfold smart_search, try_except, bind, sp_invoke, lift, ret, after_call.
  rewrite H, Hl. destruct (truthy local); reflexivity.
Qed.

(** C8.  When the request to the local endpoint fails with a
    [RequestException] (a timeout, a connection error, or the [HTTPError] of
    [raise_for_status]), [smart_search] does exactly what lines 74-77 do
    from there: it searches the remote service and parses its answer.  The
    local exception is dropped: the result is the parsed remote answer when
    the remote search returns, and the remote search's own exception when it
    raises. *)
Theorem smart_search_local_failure_falls_back
  (query qtype limit : pyval) (s : client B) (e : exn) (b : B) :
  sp (requests_get LOCAL_SEARCH_URL query qtype) (remote s) = (inl e, b) ->
  is_RequestException e = true ->
  let s1 := after_call s (requests_get LOCAL_SEARCH_URL query qtype) (inl e) b in
  smart_search' query qtype limit s = online' query qtype limit s1 /\
  forall (r : exn + pyval) (b' : B),
    sp (sp_search query qtype limit SPOTIFY_COUNTRY) b = (r, b') ->
    smart_search' query qtype limit s =
    (match r with
     | inr online_results => parse_search_results online_results qtype (username s)
     | inl e' => inl e'
     end,
     after_call s1 (sp_search query qtype limit SPOTIFY_COUNTRY) r b').
Proof.
  intros H He s1.
  assert (Heq : smart_search' query qtype limit s = online' query qtype limit s1).
  { unfold smart_search, try_except, bind, sp_invoke, lift, ret.
    rewrite H, He. reflexivity. }
  split; [exact Heq |].
  intros r b' Hr. rewrite Heq.
  unfold smart_search_online, bind, sp_invoke, get_self_username, lift, s1, after_call.
  cbn [remote username sp_log]. rewrite Hr.
  destruct r as [e' | v]; reflexivity.
Qed.

End SearchFacts.

(** ** Methods defined twice in the class body *)

(** [Client.get_playlist_tracks] is the definition of line 450 and
    [Client.add_to_queue] the one of line 406: the definitions of lines 140
    and 219 are rebound before any object exists. *)
Lemma Client_rebinds_two_methods :
  bound_def "get_playlist_tracks" Client_defs None = Some 450 /\
  bound_def "add_to_queue" Client_defs None = Some 406.
Proof. split; reflexivity. Qed.

Section ReboundMethodFacts.

Variable B : Type.
Variable sp : sp_call -> B -> (exn + pyval) * B.
Variable parse_tracks : pyval -> exn + pyval.

(** The bound [get_playlist_tracks] makes one call on the service, the
    lookup of the playlist, and answers from the items embedded in it: the
    cursor [next] of that first page is not read, whatever it holds. *)
Lemma get_playlist_tracks_body_single_fetch (playlist_id : pyval) (s : client B) :
  let (r, b) := sp (sp_playlist playlist_id) (remote s) in
  get_playlist_tracks_body B sp parse_tracks playlist_id s =
  (match r with
   | inl e => inl e
   | inr playlist =>
       if truthy playlist then
         (tracks <~ py_getitem playlist "tracks" ;;
          items <~ py_getitem tracks "items" ;;
          parse_tracks items)%pyexpr
       else inl (Raise ValueError "No playlist found.")
   end,
   after_call s (sp_playlist playlist_id) r b).
Proof.
  destruct (sp (sp_playlist playlist_id) (remote s)) as [r b] eqn:H.
  unfold get_playlist_tracks_body, bind, sp_invoke, lift, raise. rewrite H.
  destruct r as [e | playlist]; [reflexivity |].
  destruct (truthy playlist); reflexivity.
Qed.

(** The bound [add_to_queue] makes one attempt, on the device it was handed
    (none when [device] is empty), and a failure of that attempt leaves the
    method as it is: the devices are not listed and nothing is retried. *)
Lemma add_to_queue_body_single_attempt (track_id device device_id : pyval)
  (s : client B) :
  device_id_of device = inr device_id ->
  let (r, b) := sp (sp_add_to_queue track_id device_id) (remote s) in
  add_to_queue_body B sp track_id device s =
  (match r with inl e => inl e | inr _ => inr PNone end,
   after_call s (sp_add_to_queue track_id device_id) r b).
Proof.
  intros Hd.
  destruct (sp (sp_add_to_queue track_id device_id) (remote s)) as [r b] eqn:H.
  unfold add_to_queue_body, bind, sp_invoke, lift, ret. rewrite Hd, H.
  destruct r; reflexivity.
Qed.

End ReboundMethodFacts.

(** C2, at its own example.  On a playlist listed in pages of 2, 2 and 1,
    [Client.get_playlist_tracks] answers with the two tracks of the first
    page: it looks the playlist up once and never asks for a next page. *)
Theorem get_playlist_tracks_stops_at_first_page :
  let run := get_playlist_tracks unit doubles.paged_service doubles.parse_tracks
               (utils.validate unit doubles.paged_service) (PStr "P") (doubles.fresh tt) in
  fst run = inr (PList [doubles.track "1"; doubles.track "2"]) /\
  map fst (sp_log (snd run)) = [sp_playlist (PStr "P")].
Proof. split; reflexivity. Qed.

(** The definition of line 140, which the class body rebinds, does follow
    the cursors on the same playlist: five tracks, in order, after the first
    page and two next pages. *)
Lemma get_playlist_tracks_shadowed_follows_cursors :
  exists after,
    get_playlist_tracks_shadowed unit doubles.paged_service doubles.urlparse_path
      4 (PStr "spotify:playlist:P") (doubles.fresh tt)
    = Some (inr (PList (map doubles.track_data ["1"; "2"; "3"; "4"; "5"])), after) /\
    map fst (sp_log after) =
      [sp_playlist_items (PStr "P"); sp_next doubles.page1; sp_next doubles.page2].
Proof. eexists. split; reflexivity. Qed.

(** Under the decorator, the bound [add_to_queue] is the body of line 411
    on the device that [utils.validate] resolved: one attempt. *)
Section AddToQueueFacts.

Variable B : Type.
Variable sp : sp_call -> B -> (exn + pyval) * B.






End AddToQueueFacts.



(** The definition of line 219 on the second service: the attempt without
    a device fails, and the retry on the first listed device succeeds. *)
Lemma add_to_queue_shadowed_retries_after_a_failure :
  let run := add_to_queue_shadowed (nat * list (pyval * pyval))
               doubles_rest.flaky_queue_service
               (PStr "spotify:track:1") (doubles.fresh (0, [])) in
  fst run = inr (PBool true) /\
  map fst (sp_log (snd run)) =
    [sp_add_to_queue (PStr "spotify:track:1") PNone; sp_devices;
     sp_add_to_queue (PStr "spotify:track:1") (PStr "dev1")] /\
  remote (snd run) = (2, [(PStr "spotify:track:1", PStr "dev1")]).
Proof. repeat split; reflexivity. Qed.

(** The definition of line 219, which the class body rebinds, on the first
    service: the attempt without a device fails, a second attempt is made on
    the first listed device, which succeeds, and no third one. *)
Lemma add_to_queue_shadowed_retries_once :
  let run := add_to_queue_shadowed (list (pyval * pyval)) doubles.queue_service
               (PStr "spotify:track:1") (doubles.fresh []) in
  fst run = inr (PBool true) /\
  map fst (sp_log (snd run)) =
    [sp_add_to_queue (PStr "spotify:track:1") PNone; sp_devices;
     sp_add_to_queue (PStr "spotify:track:1") (PStr "dev1")] /\
  remote (snd run) = [(PStr "spotify:track:1", PStr "dev1")].
Proof. repeat split; reflexivity. Qed.

(** C4, at its own example.  When the local endpoint answers with a
    non-empty list of documents, [smart_search] raises [AttributeError]
    instead of returning the local results; the remote search is not
    consulted. *)
Theorem smart_search_fails_on_local_results :
  let local := PList [PDict [("documents", PList [doubles.track "1"])]] in
  let run := smart_search unit (doubles.search_service (inr local)) PNone PNone
               doubles.parse_local_documents doubles.parse_search_results
               (PStr "x") (PStr "track") (PInt 5) (doubles.fresh tt) in
  fst run = inl (Raise AttributeError "'list' object has no attribute 'get'") /\
  map fst (sp_log (snd run)) = [requests_get PNone (PStr "x") (PStr "track")].
Proof. split; reflexivity. Qed.

(** The fallback of C8 on a local endpoint that times out: the search
    returns what the remote service found, after the local request and the
    remote search. *)
Lemma smart_search_after_a_timeout :
  smart_search unit (doubles.search_service (inl doubles.timed_out)) PNone PNone
    doubles.parse_local_documents doubles.parse_search_results
    (PStr "x") (PStr "track") (PInt 5) (doubles.fresh tt)
  = (inr doubles.online_results,
     after_call
       (after_call (doubles.fresh tt) (requests_get PNone (PStr "x") (PStr "track"))
          (inl doubles.timed_out) tt)
       (sp_search (PStr "x") (PStr "track") (PInt 5) PNone)
       (inr doubles.online_results) tt).
Proof.
  exact (proj2 (smart_search_local_failure_falls_back unit
                  (doubles.search_service (inl doubles.timed_out)) PNone PNone
                  doubles.parse_local_documents doubles.parse_search_results
                  (PStr "x") (PStr "track") (PInt 5) (doubles.fresh tt)
                  doubles.timed_out tt eq_refl eq_refl)
               (inr doubles.online_results) tt eq_refl).
Defined.

(** ** The dispatcher *)

Lemma substring_whole (s : string) : substring 0 (String.length s) s = s.
Proof. induction s as [| c s IH]; cbn; [reflexivity | now rewrite IH]. Qed.

Lemma substring_cut (n : nat) (s : string) :
  (substring 0 n s ++ substring n (String.length s - n) s)%string = s.
Proof.
  revert s. induction n as [| n IH]; intros s.
  - rewrite Nat.sub_0_r, substring_whole. now destruct s.
  - destruct s as [| c s]; cbn; [reflexivity |]. now rewrite IH.
Qed.

Section DispatcherFacts.

Variable W : Type.
Variable spotify_client : client_call -> W -> (exn + pyval) * W.
Variable repr : pyval -> string.
Variable json_loads : string -> option pyval.
Variable int_of_str : string -> option Z.

Local Abbreviation invoke' := (invoke W spotify_client).
Local Abbreviation handle_call_tool' :=
  (handle_call_tool W spotify_client repr json_loads int_of_str).
Local Abbreviation strict := (faithful (fun _ => False)).

Lemma faithful_ret {A} (Q : A -> Prop) (a : A) :
  faithful (W := W) Q (ret a).
Proof. intros s a' s' Hs H. injection H as <- <-. now left. Qed.

Lemma faithful_lift {A} (Q : A -> Prop) (r : exn + A) :
  faithful (W := W) Q (lift r).
Proof. intros s a s' Hs H. injection H as _ <-. now left. Qed.

Lemma faithful_raise {A} (Q : A -> Prop) (e : exn) :
  faithful (W := W) Q (raise e).
Proof. intros s a s' Hs H. discriminate. Qed.

Lemma faithful_invoke (Q : pyval -> Prop) (c : client_call) :
  faithful Q (invoke' c).
Proof.
  intros s a s' Hs H. left. unfold invoke in H.
  destruct (spotify_client c (client_state s)) as [r w].
  injection H as -> <-. cbn.
  rewrite existsb_app, Hs. reflexivity.
Qed.

Lemma faithful_bind {A C} (Q : C -> Prop) (m : M (dispatcher W) A)
  (k : A -> M (dispatcher W) C) :
  strict m -> (forall a, faithful Q (k a)) -> faithful Q (bind m k).
Proof.
  intros Hm Hk s c s' Hs H. unfold bind in H.
  destruct (m s) as [[e | a] s1] eqn:Hms; [discriminate |].
  destruct (Hm s a s1 Hs Hms) as [Hs1 | []].
  exact (Hk a s1 c s' Hs1 H).
Qed.

Lemma faithful_try_except {A} (Q : A -> Prop) (m : M (dispatcher W) A)
  (catches : exn -> bool) (h : exn -> M (dispatcher W) A) :
  faithful Q m ->
  (forall e s a s', h e s = (inr a, s') -> Q a) ->
  faithful Q (try_except m catches h).
Proof.
  intros Hm Hh s a s' Hs H. unfold try_except in H.
  destruct (m s) as [[e | a0] s1] eqn:Hms.
  - destruct (catches e); [| discriminate]. right. exact (Hh e s1 a s' H).
  - injection H as <- <-. exact (Hm s a0 s1 Hs Hms).
Qed.

Lemma faithful_weaken {A} (Q : A -> Prop) (m : M (dispatcher W) A) :
  strict m -> faithful Q m.
Proof. intros Hm s a s' Hs H. destruct (Hm s a s' Hs H) as [? | []]. now left. Qed.

Ltac faithful_step :=
  lazymatch goal with
  | |- faithful _ (ret _) => apply faithful_ret
  | |- faithful _ (lift _) => apply faithful_lift
  | |- faithful _ (raise _) => apply faithful_raise
  | |- faithful _ (invoke _ _ _) => apply faithful_invoke
  | |- faithful _ (bind _ _) => apply faithful_bind; [| intro]
  | |- faithful _ (if ?b then _ else _) => destruct b
  | |- faithful _ (match ?x with _ => _ end) => destruct x
  end.

Ltac faithful_auto := cbv zeta; repeat faithful_step.

Lemma add_each_strict (key : string) (tracks added_tracks : list pyval) :
  strict (add_each W spotify_client key tracks added_tracks).
Proof.
  revert added_tracks. induction tracks as [| track rest IH]; intros added_tracks; cbn.
  - apply faithful_ret.
  - faithful_auto. apply IH.
Qed.

Lemma format_playback_response_strict (spotify_uri : pyval) :
  strict (format_playback_response W spotify_client repr spotify_uri).
Proof. unfold format_playback_response. faithful_auto. Qed.

Lemma playback_strict (arguments : pyval) :
  strict (playback W spotify_client repr int_of_str arguments).
Proof.
  unfold playback. faithful_auto; apply format_playback_response_strict.
Qed.

Lemma queue_add_strict (spotify_uri : pyval) :
  strict (queue_add W spotify_client spotify_uri).
Proof. unfold queue_add. faithful_auto; apply add_each_strict. Qed.

Ltac error_payload :=
  eexists; split; cycle 1; [reflexivity | cbn; discriminate].

Lemma search_tool_faithful (arguments : pyval) :
  faithful is_error_payload (search_tool W spotify_client repr arguments).
Proof.
  unfold search_tool. apply faithful_try_except.
  - apply faithful_weaken. faithful_auto.
  - intros e s r s' H. injection H as <- _. error_payload.
Qed.

Lemma queue_faithful (arguments : pyval) :
  faithful is_error_payload (queue W spotify_client repr arguments).
Proof.
  unfold queue. faithful_auto.
  apply faithful_try_except.
  - apply faithful_weaken, queue_add_strict.
  - intros e s r s' H. injection H as <- _. error_payload.
Qed.

Lemma get_info_tool_strict (arguments : pyval) :
  strict (get_info_tool W spotify_client arguments).
Proof. unfold get_info_tool. faithful_auto. Qed.

Lemma playlist_strict (arguments : pyval) :
  strict (playlist W spotify_client repr json_loads arguments).
Proof. unfold playlist, decoded_track_ids. faithful_auto. Qed.

Lemma tool_faithful (name : string) (arguments : pyval) :
  faithful is_error_payload
    (tool W spotify_client repr json_loads int_of_str name arguments).
Proof.
  unfold tool. faithful_auto.
  - apply faithful_weaken, playback_strict.
  - apply search_tool_faithful.
  - apply queue_faithful.
  - apply faithful_weaken, get_info_tool_strict.
  - apply faithful_weaken, playlist_strict.
Qed.

(** A name with the prefix that is none of the five tools falls to the
    default case of the [match]. *)
Lemma tool_unknown (name : string) (arguments : pyval) (s : dispatcher W) :
  substring 0 7 name = "Spotify" ->
  ~ In name tool_names ->
  tool W spotify_client repr json_loads int_of_str name arguments s =
  (inr (Some (create_error_response ("Unknown tool: " ++ name))), s).
Proof.
  intros Hp Hn. unfold tool. cbv zeta.
  pose proof (substring_cut 7 name) as Hcut. rewrite Hp in Hcut.
  repeat match goal with
  | |- context [String.eqb ?x ?y] =>
      destruct (String.eqb_spec x y) as [Heq | _];
      [ exfalso; apply Hn; rewrite <- Hcut, Heq; cbn; tauto | ]
  end.
  reflexivity.
Qed.

(** C1, as the code has it.  For a name that passes the assertion of line
    181 (its first seven characters are [Spotify]), no exception leaves
    [handle_call_tool]: the call returns.  If a call on the client raised
    during the run, what is returned is exactly the payload
    [{error: true, message: m}] with a non-empty [m]; and a name that is none
    of the five tool names is answered with that payload and the message
    [Unknown tool: <name>], without a call on the client. *)
Theorem handle_call_tool_converts_exceptions
  (name : string) (arguments : pyval) (s : dispatcher W) :
  substring 0 7 name = "Spotify" ->
  exists (r : option (list TextContent)) (s' : dispatcher W),
    handle_call_tool' name arguments s = (inr r, s') /\
    (existsb raised (client_log s) = false ->
     existsb raised (client_log s') = true ->
     is_error_payload r) /\
    (~ In name tool_names ->
     r = Some (create_error_response ("Unknown tool: " ++ name)) /\ s' = s).
Proof.
  intros Hp. unfold handle_call_tool. rewrite Hp. cbn [String.eqb Ascii.eqb Bool.eqb].
  pose proof (tool_faithful name arguments s) as Hf.
  pose proof (tool_unknown name arguments s Hp) as Hu.
  unfold try_except, is_Exception.
  destruct (tool W spotify_client repr json_loads int_of_str name arguments s)
    as [[e | r] s1].
  - destruct (is_SpotifyException e); eexists _, s1;
      (split; [reflexivity |]);
      (split; [intros _ _; error_payload |]);
      intros Hn; specialize (Hu Hn); discriminate.
  - exists r, s1. split; [reflexivity |]. split.
    + intros Hs Hs1. destruct (Hf r s1 Hs eq_refl) as [Hq | Hq]; [| exact Hq].
      rewrite Hq in Hs1. discriminate.
    + intros Hn. specialize (Hu Hn). injection Hu as -> ->. split; reflexivity.
Qed.

(** Without the prefix the assertion of line 181 fails, outside the [try]:
    the exception leaves the function, whatever the client. *)
Lemma handle_call_tool_assertion (name : string) (arguments : pyval) (s : dispatcher W) :
  substring 0 7 name <> "Spotify" ->
  handle_call_tool' name arguments s =
  (inl (Raise AssertionError ("Unknown tool: " ++ name)), s).
Proof.
  intros Hp. unfold handle_call_tool.
  destruct (String.eqb_spec (substring 0 7 name) "Spotify") as [Heq | _];
    [contradiction | reflexivity].
Qed.

(** Whatever raises inside the [try] of [Queue]/[add], a failed add of the
    loops included, is answered by line 424 with the message of the
    exception alone: [added_tracks] is not read on that path. *)
Lemma queue_add_failure_answer
  (arguments spotify_uri : pyval) (e : exn) (s s' : dispatcher W) :
  py_get arguments "action" PNone = inr (PStr "add") ->
  py_get arguments "spotify_uri" PNone = inr spotify_uri ->
  truthy spotify_uri = true ->
  queue_add W spotify_client spotify_uri s = (inl e, s') ->
  handle_call_tool' "SpotifyQueue" arguments s =
  (inr (Some (create_error_response ("Error adding to queue: " ++ exn_str e))), s').
Proof.
  intros Haction Huri Htruthy Hraise.
  unfold handle_call_tool, tool, try_except. cbn [substring String.length Nat.sub].
  cbn [String.eqb Ascii.eqb Bool.eqb].
  unfold queue, try_except, bind, lift, ret.
  rewrite Haction. cbn [is_str String.eqb Ascii.eqb Bool.eqb].
  rewrite Huri, Htruthy. cbn [negb]. rewrite Hraise. reflexivity.
Qed.

(** C7, as the code has it.  For a [Playback]/[start] call whose uri starts
    with [spotify:track:] and has a non-empty last segment, when the
    validation of that segment returns a false value the dispatcher answers
    with the structured error of line 215, and the validation is the only
    call it made on the client: playback is not started. *)
Theorem playback_start_rejects_invalid_track
  (arguments : pyval) (uri : string) (valid : pyval) (s : dispatcher W) (w : W) :
  let track_id := PStr (last_part (split_string ":" uri)) in
  py_get arguments "action" PNone = inr (PStr "start") ->
  py_get arguments "spotify_uri" PNone = inr (PStr uri) ->
  String.prefix "spotify:track:" uri = true ->
  truthy track_id = true ->
  spotify_client (c_is_valid_track track_id) (client_state s) = (inr valid, w) ->
  truthy valid = false ->
  handle_call_tool' "SpotifyPlayback" arguments s =
  (inr (Some (create_error_response
                "Invalid or non-existent track URI. Please try another track.")),
   after_method s (c_is_valid_track track_id) (inr valid) w).
Proof.
  intros track_id Haction Huri Hprefix Hid Hvalid Hfalse.
  assert (Htruthy : truthy (PStr uri) = true).
  { destruct uri; [discriminate Hprefix | reflexivity]. }
  unfold handle_call_tool, tool, try_except. cbn [substring String.length Nat.sub].
  cbn [String.eqb Ascii.eqb Bool.eqb].
  unfold playback, bind, lift, ret, invoke.
  rewrite Haction. cbn [is_str String.eqb Ascii.eqb Bool.eqb].
  rewrite Huri, Htruthy. cbn [py_startswith py_split].
  rewrite Hprefix. fold track_id. rewrite Hid, Hvalid, Hfalse.
  reflexivity.
Qed.

(** C10.  For a [Search] call whose arguments are a dict, when the search of
    the client returns a dict that holds nothing (no key, or an empty or
    null value) under the key [qtype + "s"], the dispatcher answers with the
    payload [{error: true, message: "No <qtype>s found for your query."}],
    not with a list of results. *)
Theorem search_without_items_is_an_error
  (arguments results : list (string * pyval)) (s : dispatcher W) (w : W) :
  let query := item_or arguments "query" (PStr EmptyString) in
  let qtype := item_or arguments "qtype" (PStr "track") in
  let limit := item_or arguments "limit" (PInt 10) in
  spotify_client (c_search query qtype limit) (client_state s) = (inr (PDict results), w) ->
  truthy (item_or results (str repr qtype ++ "s") (PList [])) = false ->
  handle_call_tool' "SpotifySearch" (PDict arguments) s =
  (inr (Some (create_error_response ("No " ++ str repr qtype ++ "s found for your query."))),
   after_method s (c_search query qtype limit) (inr (PDict results)) w).
Proof.
  intros query qtype limit Hsearch Hempty.
  unfold handle_call_tool, tool, try_except. cbn [substring String.length Nat.sub].
  cbn [String.eqb Ascii.eqb Bool.eqb].
  unfold search_tool, try_except, bind, lift, ret, invoke.
  cbn [py_get]. fold (item_or arguments "query" (PStr EmptyString)).
  fold (item_or arguments "qtype" (PStr "track")).
  fold (item_or arguments "limit" (PInt 10)).
  fold query qtype limit. rewrite Hsearch.
  cbn [py_get]. fold (item_or results (str repr qtype ++ "s") (PList [])).
  rewrite Hempty. reflexivity.
Qed.

End DispatcherFacts.

(** ** The dispatcher on the client of [spotify_api.py] *)

Section PlaylistEditFacts.

Variable B : Type.
Variable sp : sp_call -> B -> (exn + pyval) * B.
Variables LOCAL_SEARCH_URL SPOTIFY_COUNTRY : pyval.
Variable parse_local_documents : pyval -> pyval -> exn + pyval.
Variable parse_search_results : pyval -> pyval -> pyval -> exn + pyval.
Variable parse_tracks : pyval -> exn + pyval.
Variable urlparse_path : string -> exn + string.
Variable validate : forall A : Type, (pyval -> M (client B) A) -> M (client B) A.
Variable unmodelled : client_call -> M (client B) pyval.
Variable repr : pyval -> string.
Variable json_loads : string -> option pyval.
Variable int_of_str : string -> option Z.

Local Abbreviation Client' :=
  (Client_method B sp LOCAL_SEARCH_URL SPOTIFY_COUNTRY parse_local_documents
     parse_search_results parse_tracks urlparse_path validate unmodelled).
Local Abbreviation ensure_username' := (ensure_username B sp validate).

(** A decorated method runs after the decorator's own work, if that work
    does not raise. *)
Lemma ensure_username_then {A} (method : M (client B) A) (s s1 : client B) :
  ensure_username' (ret tt) s = (inr tt, s1) ->
  ensure_username' method s = method s1.
Proof.
  unfold ensure_username, bind, get_self_username, ret.
  destruct (username s); try (intros H; injection H as <-; reflexivity).
  destruct (set_username B sp validate s) as [[e | []] s2]; [discriminate |].
  intros H. injection H as <-. reflexivity.
Qed.

(** An edit whose remote call is [c] swallows the outcome of [c]. *)
Lemma swallowed_call (c : sp_call) (s : client B) :
  try_except (sp_invoke B sp c ;;; ret PNone) is_Exception (fun _ => ret PNone) s =
  let (r, b) := sp c (remote s) in (inr PNone, after_call s c r b).
Proof.
  unfold try_except, bind, sp_invoke, ret, is_Exception.
  destruct (sp c (remote s)) as [[e | v] b]; reflexivity.
Qed.

(** C9.  For a [Playlist] call with action [add_tracks], [remove_tracks] or
    [change_details] and arguments that pass the argument checks, once the
    decorator [ensure_username] has done its work without raising, the
    dispatcher answers with the fixed success text of the action whatever
    the call on the remote service did: the call is made, and its outcome,
    an exception included, is swallowed by the client method. *)
Theorem playlist_edits_always_report_success
  (e : playlist_edit) (arguments : list (string * pyval))
  (s : dispatcher (client B)) (s1 : client B) :
  dict_lookup "action" arguments = Some (PStr (edit_action e)) ->
  valid_edit_arguments json_loads e arguments = true ->
  ensure_username' (ret tt) (client_state s) = (inr tt, s1) ->
  let run := handle_call_tool (client B) Client' repr json_loads int_of_str
               "SpotifyPlaylist" (PDict arguments) s in
  let (outcome, b) := sp (edit_call json_loads e arguments) (remote s1) in
  fst run = inr (text_response (plain (edit_answer e))) /\
  client_state (snd run) = after_call s1 (edit_call json_loads e arguments) outcome b.
Proof.
  intros Haction Hvalid Hensure run.
  destruct (sp (edit_call json_loads e arguments) (remote s1)) as [outcome b] eqn:Hsp.
  subst run.
  unfold handle_call_tool, tool, try_except. cbn [substring String.length Nat.sub].
  cbn [String.eqb Ascii.eqb Bool.eqb].
  unfold playlist, decoded_track_ids, bind, lift, ret, invoke.
  cbn [py_get]. rewrite Haction.
  unfold valid_edit_arguments, track_ids_argument, argument, item_or in Hvalid.
  unfold edit_call, track_ids_argument, argument, item_or in Hsp |- *.
  destruct e; cbn [edit_action is_str String.eqb Ascii.eqb Bool.eqb edit_answer];
    apply andb_prop in Hvalid as [Hid Hrest].
  - destruct (dict_lookup "track_ids" arguments) as [[| | | t | |] |];
      try destruct (json_loads t);
      try discriminate Hrest;
      cbn [Client_method]; unfold add_tracks_to_playlist;
      rewrite (ensure_username_then _ _ _ Hensure), Hid, Hrest;
      cbn [negb]; rewrite swallowed_call, Hsp; split; reflexivity.
  - destruct (dict_lookup "track_ids" arguments) as [[| | | t | |] |];
      try destruct (json_loads t);
      try discriminate Hrest;
      cbn [Client_method]; unfold remove_tracks_from_playlist;
      rewrite (ensure_username_then _ _ _ Hensure), Hid, Hrest;
      cbn [negb]; rewrite swallowed_call, Hsp; split; reflexivity.
  - rewrite Hid. cbn [negb].
    assert (Hguard : negb (truthy match dict_lookup "name" arguments with
                                  | Some x => x | None => PNone end)
                     && negb (truthy match dict_lookup "description" arguments with
                                     | Some x => x | None => PNone end) = false).
    { apply orb_prop in Hrest as [H | H]; rewrite H; cbn;
        [reflexivity | apply andb_false_r]. }
    rewrite Hguard.
    cbn [Client_method]. unfold change_playlist_details.
    rewrite (ensure_username_then _ _ _ Hensure), Hid.
    cbn [negb]. rewrite swallowed_call, Hsp. split; reflexivity.
Qed.

(** A decorated method does not run when the decorator's own work raises:
    the exception is the outcome of the call. *)
Lemma ensure_username_raises {A} (method : M (client B) A) (s s1 : client B) (ex : exn) :
  ensure_username' (ret tt) s = (inl ex, s1) ->
  ensure_username' method s = (inl ex, s1).
Proof.
  unfold ensure_username, bind, get_self_username, ret.
  destruct (username s); try discriminate.
  destruct (set_username B sp validate s) as [[e | []] s2]; [| discriminate].
  intros H. injection H as <- <-. reflexivity.
Qed.

(** The other half of C9: an exception of the decorator's work, raised
    before the method and outside its [try], is not swallowed.  The edit is
    not attempted, and the dispatcher answers with the error payload of the
    exception. *)
Lemma playlist_edit_reports_a_failed_user_lookup
  (e : playlist_edit) (arguments : list (string * pyval))
  (s : dispatcher (client B)) (s1 : client B) (ex : exn) :
  dict_lookup "action" arguments = Some (PStr (edit_action e)) ->
  valid_edit_arguments json_loads e arguments = true ->
  ensure_username' (ret tt) (client_state s) = (inl ex, s1) ->
  let run := handle_call_tool (client B) Client' repr json_loads int_of_str
               "SpotifyPlaylist" (PDict arguments) s in
  fst run = inr (Some (create_error_response
                         ((if is_SpotifyException ex
                           then "An error occurred with the Spotify Client: "
                           else "Unexpected error occurred: ") ++ exn_str ex))) /\
  client_state (snd run) = s1.
Proof.
  intros Haction Hvalid Hensure run. subst run.
  unfold handle_call_tool, tool, try_except. cbn [substring String.length Nat.sub].
  cbn [String.eqb Ascii.eqb Bool.eqb].
  unfold playlist, decoded_track_ids, bind, lift, ret, invoke.
  cbn [py_get]. rewrite Haction.
  unfold valid_edit_arguments, track_ids_argument, argument, item_or in Hvalid.
  destruct e; cbn [edit_action is_str String.eqb Ascii.eqb Bool.eqb];
    apply andb_prop in Hvalid as [Hid Hrest].
  - destruct (dict_lookup "track_ids" arguments) as [[| | | t | |] |];
      try destruct (json_loads t);
      try discriminate Hrest;
      cbn [Client_method]; unfold add_tracks_to_playlist;
      rewrite (ensure_username_raises _ _ _ _ Hensure); unfold is_Exception;
      destruct (is_SpotifyException ex); split; reflexivity.
  - destruct (dict_lookup "track_ids" arguments) as [[| | | t | |] |];
      try destruct (json_loads t);
      try discriminate Hrest;
      cbn [Client_method]; unfold remove_tracks_from_playlist;
      rewrite (ensure_username_raises _ _ _ _ Hensure); unfold is_Exception;
      destruct (is_SpotifyException ex); split; reflexivity.
  - rewrite Hid. cbn [negb].
    assert (Hguard : negb (truthy match dict_lookup "name" arguments with
                                  | Some x => x | None => PNone end)
                     && negb (truthy match dict_lookup "description" arguments with
                                     | Some x => x | None => PNone end) = false).
    { apply orb_prop in Hrest as [H | H]; rewrite H; cbn;
        [reflexivity | apply andb_false_r]. }
    rewrite Hguard.
    cbn [Client_method]. unfold change_playlist_details.
    rewrite (ensure_username_raises _ _ _ _ Hensure). unfold is_Exception.
    destruct (is_SpotifyException ex); split; reflexivity.
Qed.

End PlaylistEditFacts.

(** ** The properties on the test doubles *)

(** C1 as stated fails on a name without the prefix: for the tool name
    [GetInfo] the assertion of line 181 raises outside the [try], and the
    [AssertionError] leaves [handle_call_tool] instead of a structured
    error. *)
Lemma handle_call_tool_assertion_escapes :
  fst (handle_call_tool unit doubles.empty_search_client doubles.repr
         doubles.json_loads doubles.int_of_str
         "GetInfo" (PDict [("item_uri", PStr "spotify:track:ABC")]) (doubles.start tt))
  = inl (Raise AssertionError "Unknown tool: GetInfo").
Proof. reflexivity. Qed.

(** C1 on a client on which every call fails: [SpotifyGetInfo] returns, and
    returns the error payload. *)
Lemma handle_call_tool_on_a_failing_client :
  exists (r : option (list TextContent)) (s' : dispatcher unit),
    handle_call_tool unit doubles.failing_client doubles.repr doubles.json_loads
      doubles.int_of_str "SpotifyGetInfo"
      (PDict [("item_uri", PStr "spotify:track:ABC")]) (doubles.start tt) = (inr r, s') /\
    is_error_payload r.
Proof.
  destruct (handle_call_tool_converts_exceptions unit doubles.failing_client
              doubles.repr doubles.json_loads doubles.int_of_str "SpotifyGetInfo"
              (PDict [("item_uri", PStr "spotify:track:ABC")]) (doubles.start tt)
              eq_refl) as (r & s' & Hrun & Herr & _).
  exists r, s'. split; [exact Hrun |].
  apply Herr; [reflexivity |].
  cbv in Hrun. injection Hrun as _ <-. reflexivity.
Defined.

(** C5, at its own example.  Queueing an album of four tracks when the add
    of the third one fails: two tracks are in the queue, and the answer is
    the error payload with the message of the exception, which holds no
    count of the tracks that were added. *)
Theorem queue_add_failure_drops_the_count :
  let run := handle_call_tool (list pyval) doubles.album_client doubles.repr
               doubles.json_loads doubles.int_of_str "SpotifyQueue"
               (PDict [("action", PStr "add"); ("spotify_uri", PStr "spotify:album:A")])
               (doubles.start []) in
  fst run = inr (Some (create_error_response
                         "Error adding to queue: Restriction violated")) /\
  client_state (snd run) = [PStr "spotify:track:1"; PStr "spotify:track:2"].
Proof. split; reflexivity. Qed.

(** C7 as stated fails on track uris that the guard of lines 209-213 does
    not cover.  On a service where no track exists, so that the validation
    of every uri returns [False]: for the web form of a track uri, and for
    [spotify:track:] with an empty id, the dispatcher does not validate and
    starts playback. *)
Lemma playback_start_without_validation :
  let Client := doubles.client_on doubles.failing_service in
  let start_with (uri : pyval) :=
    handle_call_tool (client unit) Client doubles.repr doubles.json_loads
      doubles.int_of_str "SpotifyPlayback"
      (PDict [("action", PStr "start"); ("spotify_uri", uri)])
      (doubles.start (doubles.fresh tt)) in
  let web := PStr "https://open.spotify.com/track/ABC" in
  let empty := PStr "spotify:track:" in
  (fst (Client (c_is_valid_track web) (doubles.fresh tt)) = inr (PBool false) /\
   map fst (client_log (snd (start_with web))) = [c_start_playback web; c_get_info web]) /\
  (fst (Client (c_is_valid_track empty) (doubles.fresh tt)) = inr (PBool false) /\
   fst (Client (c_is_valid_track (PStr EmptyString)) (doubles.fresh tt)) = inr (PBool false) /\
   map fst (client_log (snd (start_with empty)))
   = [c_start_playback empty; c_get_info empty]).
Proof. repeat split; reflexivity. Qed.

(** C7 on the same service, for [spotify:track:ABC]: the structured error,
    after the validation of [ABC] and nothing else. *)
Lemma playback_start_rejects_unknown_track :
  handle_call_tool (client unit) (doubles.client_on doubles.failing_service)
    doubles.repr doubles.json_loads doubles.int_of_str "SpotifyPlayback"
    (PDict [("action", PStr "start"); ("spotify_uri", PStr "spotify:track:ABC")])
    (doubles.start (doubles.fresh tt))
  = (inr (Some (create_error_response
                  "Invalid or non-existent track URI. Please try another track.")),
     after_method (doubles.start (doubles.fresh tt)) (c_is_valid_track (PStr "ABC"))
       (inr (PBool false))
       (after_call (doubles.fresh tt) (sp_track (PStr "ABC")) (inl doubles.not_found) tt)).
Proof.
  exact (playback_start_rejects_invalid_track (client unit)
           (doubles.client_on doubles.failing_service)
           doubles.repr doubles.json_loads doubles.int_of_str
           (PDict [("action", PStr "start"); ("spotify_uri", PStr "spotify:track:ABC")])
           "spotify:track:ABC" (PBool false) (doubles.start (doubles.fresh tt))
           (after_call (doubles.fresh tt) (sp_track (PStr "ABC")) (inl doubles.not_found) tt)
           eq_refl eq_refl eq_refl eq_refl eq_refl eq_refl).
Defined.

(** C9 on a service on which every call fails: adding a track to a playlist
    is answered with the success text, after the failed call. *)
Lemma add_tracks_reports_success_on_a_failing_service :
  let arguments := [("action", PStr "add_tracks"); ("playlist_id", PStr "P");
                    ("track_ids", PList [PStr "spotify:track:1"])] in
  let run := handle_call_tool (client unit) (doubles.client_on doubles.failing_service)
               doubles.repr doubles.json_loads doubles.int_of_str
               "SpotifyPlaylist" (PDict arguments) (doubles.start (doubles.fresh tt)) in
  fst run = inr (text_response (plain "Tracks added to playlist.")) /\
  client_state (snd run) =
    after_call (doubles.fresh tt)
      (sp_playlist_add_items (PStr "P") (PList [PStr "spotify:track:1"]) PNone)
      (inl doubles.not_found) tt.
Proof.
  exact (playlist_edits_always_report_success unit doubles.failing_service PNone PNone
           doubles.parse_local_documents doubles.parse_search_results
           doubles.parse_tracks doubles.urlparse_path
           (utils.validate unit doubles.failing_service)
           (fun _ => ret PNone) doubles.repr doubles.json_loads doubles.int_of_str
           add_tracks
           [("action", PStr "add_tracks"); ("playlist_id", PStr "P");
            ("track_ids", PList [PStr "spotify:track:1"])]
           (doubles.start (doubles.fresh tt)) (doubles.fresh tt)
           eq_refl eq_refl eq_refl).
Defined.

(** C9 as stated fails on a client whose user name is not known yet.  The
    decorator fetches the name before the edit, outside the [try] of the
    method: on a service on which every call fails, and on one that lists
    its devices and fails on everything else, adding a track with valid
    arguments is answered with the error payload, and the edit is not
    attempted. *)
Lemma playlist_edit_fails_while_the_user_is_unknown :
  let arguments := [("action", PStr "add_tracks"); ("playlist_id", PStr "P");
                    ("track_ids", PList [PStr "spotify:track:1"])] in
  let run (sp : sp_call -> unit -> (exn + pyval) * unit) :=
    handle_call_tool (client unit) (doubles.client_on sp)
      doubles.repr doubles.json_loads doubles.int_of_str
      "SpotifyPlaylist" (PDict arguments) (doubles.start (doubles_rest.newcomer tt)) in
  let failure := create_error_response
                   "An error occurred with the Spotify Client: http status: 404" in
  valid_edit_arguments doubles.json_loads add_tracks arguments = true /\
  (fst (run doubles.failing_service) = inr (Some failure) /\
   map fst (sp_log (client_state (snd (run doubles.failing_service)))) = [sp_devices]) /\
  (fst (run doubles_rest.devices_service) = inr (Some failure) /\
   map fst (sp_log (client_state (snd (run doubles_rest.devices_service))))
   = [sp_devices; sp_current_user]).
Proof. repeat split; reflexivity. Qed.

(** C10 on a client whose search finds nothing, with the default [qtype]. *)
Lemma search_finds_no_tracks :
  handle_call_tool unit doubles.empty_search_client doubles.repr doubles.json_loads
    doubles.int_of_str "SpotifySearch" (PDict [("query", PStr "x")]) (doubles.start tt)
  = (inr (Some (create_error_response "No tracks found for your query.")),
     after_method (doubles.start tt) (c_search (PStr "x") (PStr "track") (PInt 10))
       (inr (PDict [("tracks", PList [])])) tt).
Proof.
  exact (search_without_items_is_an_error unit doubles.empty_search_client
           doubles.repr doubles.json_loads doubles.int_of_str
           [("query", PStr "x")] [("tracks", PList [])] (doubles.start tt) tt
           eq_refl eq_refl).
Defined.

(** * More properties of the code *)

Import spotify_api_rest props_rest.

(** ** The id of a uri *)

Lemma split_string_nonempty (sep : ascii) (s : string) : split_string sep s <> [].
Proof.
  destruct s as [| c s]; cbn; [discriminate |].
  destruct (Ascii.eqb c sep); [discriminate |].
  destruct (split_string sep s); discriminate.
Qed.

(** Splitting around a separator splits both sides. *)
Lemma split_string_app (sep : ascii) (a rest : string) :
  split_string sep (a ++ String sep rest) =
  (split_string sep a ++ split_string sep rest)%list.
Proof.
  induction a as [| c a IH]; cbn.
  - rewrite Ascii.eqb_refl. reflexivity.
  - rewrite IH. destruct (Ascii.eqb c sep); [reflexivity |].
    pose proof (split_string_nonempty sep a) as Hn.
    destruct (split_string sep a); [contradiction | reflexivity].
Qed.

Lemma split_string_without (sep : ascii) (s : string) :
  contains (String sep EmptyString) s = false -> split_string sep s = [s].
Proof.
  induction s as [| c s IH]; cbn; [reflexivity |].
  intros H. apply orb_false_elim in H as [Hc Hs].
  destruct (ascii_dec sep c) as [-> | Hne].
  - destruct s; discriminate Hc.
  - destruct (Ascii.eqb_spec c sep) as [-> | _]; [contradiction |].
    rewrite (IH Hs). reflexivity.
Qed.

Lemma last_part_app (l l' : list string) :
  l' <> [] -> last_part (l ++ l') = last_part l'.
Proof.
  intros Hn. unfold last_part. induction l as [| x l IH]; cbn; [reflexivity |].
  destruct (l ++ l')%list eqn:E; [| exact IH].
  apply app_eq_nil in E as [_ E]. contradiction.
Qed.

(** The last segment after a separator is what follows it, when that holds
    no separator. *)
Lemma last_part_after (sep : ascii) (a id : string) :
  contains (String sep EmptyString) id = false ->
  last_part (split_string sep (a ++ String sep id)) = id.
Proof.
  intros H. rewrite split_string_app, last_part_app by apply split_string_nonempty.
  rewrite (split_string_without _ _ H). reflexivity.
Qed.

Lemma string_app_assoc (a b c : string) : ((a ++ b) ++ c = a ++ (b ++ c))%string.
Proof. induction a as [| x a IH]; cbn; [reflexivity | now rewrite IH]. Qed.

Lemma prefix_app (a b : string) : String.prefix a (a ++ b) = true.
Proof.
  induction a as [| c a IH]; cbn; [destruct b; reflexivity |].
  destruct (ascii_dec c c); [exact IH | contradiction].
Qed.

Section UriFacts.

Variable urlparse_path : string -> exn + string.

Local Abbreviation extract := (_extract_id_from_uri urlparse_path).

(** For every locator [spotify:<kind>:<id>] whose id holds no colon,
    [_extract_id_from_uri] returns the id, whatever the kind. *)
Theorem extract_id_of_scheme_uri (kind id : string) :
  contains ":" id = false ->
  extract (PStr ("spotify:" ++ kind ++ ":" ++ id)) = inr (PStr id).
Proof.
  intros H. unfold _extract_id_from_uri. cbn [py_startswith py_split].
  rewrite (prefix_app "spotify:" (kind ++ ":" ++ id)).
  replace ("spotify:" ++ kind ++ ":" ++ id)%string
    with (("spotify:" ++ kind) ++ String ":" id)%string
    by (rewrite string_app_assoc; reflexivity).
  rewrite (last_part_after ":" _ _ H). reflexivity.
Qed.

(** For every web url (a string that starts with [http] and not with
    [spotify:]) whose path, as [urlparse] gives it, ends in [/<id>] with no
    slash in the id, [_extract_id_from_uri] returns the id. *)
Theorem extract_id_of_web_url (url dir id : string) :
  String.prefix "spotify:" url = false ->
  String.prefix "http" url = true ->
  urlparse_path url = inr (dir ++ "/" ++ id)%string ->
  contains "/" id = false ->
  extract (PStr url) = inr (PStr id).
Proof.
  intros Hs Hh Hp H. unfold _extract_id_from_uri. cbn [py_startswith].
  rewrite Hs, Hh, Hp.
  change (dir ++ "/" ++ id)%string with (dir ++ String "/" id)%string.
  rewrite (last_part_after "/" _ _ H). reflexivity.
Qed.

(** A string of neither form is taken as the id itself, and a value that is
    no string raises [AttributeError]. *)
Lemma extract_id_of_bare_id (u : string) :
  String.prefix "spotify:" u = false ->
  String.prefix "http" u = false ->
  extract (PStr u) = inr (PStr u).
Proof.
  intros Hs Hh. unfold _extract_id_from_uri. cbn [py_startswith].
  rewrite Hs, Hh. reflexivity.
Qed.

End UriFacts.

(** The scheme form on [spotify:track:ABC]. *)
Lemma extract_id_of_a_track_uri :
  _extract_id_from_uri doubles.urlparse_path (PStr "spotify:track:ABC") = inr (PStr "ABC").
Proof. exact (extract_id_of_scheme_uri doubles.urlparse_path "track" "ABC" eq_refl). Defined.

(** The web form on a track url. *)
Lemma extract_id_of_a_track_url :
  _extract_id_from_uri doubles_rest.web_path (PStr "https://open.spotify.com/track/ABC")
  = inr (PStr "ABC").
Proof.
  exact (extract_id_of_web_url doubles_rest.web_path
           "https://open.spotify.com/track/ABC" "/track" "ABC"
           eq_refl eq_refl eq_refl eq_refl).
Defined.

(** ** The search never answers from the local endpoint *)

Section LocalSearchFacts.

Variable B : Type.
Variable sp : sp_call -> B -> (exn + pyval) * B.
Variables LOCAL_SEARCH_URL SPOTIFY_COUNTRY : pyval.
Variable parse_local_documents : pyval -> pyval -> exn + pyval.
Variable parse_search_results : pyval -> pyval -> pyval -> exn + pyval.

(** Whatever the local endpoint does, a result that [smart_search] returns
    is the result of the remote search of lines 74-77, run after the local
    request: the local documents are never what is returned. *)
Theorem smart_search_returns_remote_results
  (query qtype limit v : pyval) (s s' : client B) :
  smart_search B sp LOCAL_SEARCH_URL SPOTIFY_COUNTRY parse_local_documents
    parse_search_results query qtype limit s = (inr v, s') ->
  let request := requests_get LOCAL_SEARCH_URL query qtype in
  let (local, b) := sp request (remote s) in
  smart_search_online B sp SPOTIFY_COUNTRY parse_search_results query qtype limit
    (after_call s request local b) = (inr v, s').
Proof.
  intros H request.
  destruct (sp request (remote s)) as [local b] eqn:Hsp. subst request.
  destruct local as [e | local].
  - destruct (is_RequestException e) eqn:He.
    + rewrite <- H.
      unfold smart_search, try_except, bind, sp_invoke, lift, ret.
      rewrite Hsp, He. reflexivity.
    + unfold smart_search, try_except, bind, sp_invoke in H.
      rewrite Hsp, He in H. discriminate H.
  - destruct (isinstance_list local) eqn:Hl.
    + destruct local as [| | | | xs |]; try discriminate Hl.
      destruct xs as [| x xs].
      * rewrite <- H.
        unfold smart_search, try_except, bind, sp_invoke, lift, ret.
        rewrite Hsp. reflexivity.
      * rewrite (smart_search_on_a_list B sp LOCAL_SEARCH_URL SPOTIFY_COUNTRY
                   parse_local_documents parse_search_results
                   query qtype limit x xs s b Hsp) in H.
        discriminate H.
    + rewrite <- H. symmetry.
      exact (smart_search_not_a_list B sp LOCAL_SEARCH_URL SPOTIFY_COUNTRY
               parse_local_documents parse_search_results
               query qtype limit local s b Hsp Hl).
Qed.

End LocalSearchFacts.

(** A local endpoint that answers with a dict of documents: the search
    returns what the remote service found. *)
Lemma smart_search_ignores_local_documents :
  let local := PDict [("documents", PList [doubles.track "1"])] in
  smart_search_online unit (doubles.search_service (inr local)) PNone
    doubles.parse_search_results (PStr "x") (PStr "track") (PInt 5)
    (after_call (doubles.fresh tt) (requests_get PNone (PStr "x") (PStr "track"))
       (inr local) tt)
  = (inr doubles.online_results,
     after_call
       (after_call (doubles.fresh tt) (requests_get PNone (PStr "x") (PStr "track"))
          (inr local) tt)
       (sp_search (PStr "x") (PStr "track") (PInt 5) PNone)
       (inr doubles.online_results) tt).
Proof.
  exact (smart_search_returns_remote_results unit
           (doubles.search_service (inr (PDict [("documents", PList [doubles.track "1"])])))
           PNone PNone doubles.parse_local_documents doubles.parse_search_results
           (PStr "x") (PStr "track") (PInt 5) doubles.online_results
           (doubles.fresh tt) _ eq_refl).
Defined.

(** ** The tracks of an album *)

Lemma album_page_tracks_emap (xs tracks : list pyval) :
  album_page_tracks xs tracks =
  (ds <~ emap album_track_data xs ;; inr (tracks ++ ds)%list)%pyexpr.
Proof.
  revert tracks. induction xs as [| x xs IH]; intros tracks; cbn.
  - now rewrite app_nil_r.
  - destruct (album_track_data x) as [e | d]; cbn; [reflexivity |].
    rewrite IH. destruct (emap album_track_data xs) as [e | ds]; cbn; [reflexivity |].
    now rewrite <- app_assoc.
Qed.

(** A value with an item under a string key is a non-empty dict. *)
Lemma getitem_truthy (v : pyval) (key : string) (x : pyval) :
  py_getitem v key = inr x -> truthy v = true.
Proof.
  destruct v as [| | | | | kvs]; try discriminate.
  destruct kvs; [discriminate | reflexivity].
Qed.

Section AlbumFacts.

Variable B : Type.
Variable sp : sp_call -> B -> (exn + pyval) * B.
Variable urlparse_path : string -> exn + string.

Lemma album_pages_listing (b : B) (page : pyval) (ds : list pyval)
  (calls : list sp_call) (b_end : B) :
  listing sp b page ds calls b_end ->
  forall (fuel : nat) (tracks : list pyval) (s : client B),
    remote s = b ->
    List.length calls + 2 <= fuel ->
    exists s' : client B,
      album_pages B sp fuel page tracks s = Some (inr (PList (tracks ++ ds)), s') /\
      remote s' = b_end /\ username s' = username s /\
      map fst (sp_log s') = (map fst (sp_log s) ++ calls)%list.
Proof.
  induction 1 as [b page ds next Hpage Hnext
                 | b b' b_end page page' ds ds' next calls Hpage Hnext Hsp Hrest IH];
    intros fuel tracks s Hs Hfuel;
    destruct Hpage as (items & xs & Hitems & Hxs & Hds & Hn).
  - destruct fuel as [| [| fuel]]; cbn in Hfuel; try lia.
    exists s. cbn [album_pages].
    rewrite (getitem_truthy _ _ _ Hitems), Hitems. cbn [ebind].
    rewrite Hxs. cbn [ebind]. rewrite album_page_tracks_emap, Hds. cbn [ebind].
    rewrite Hn. cbn [ebind]. rewrite Hnext. cbn [truthy].
    repeat split; [exact Hs | now rewrite app_nil_r].
  - destruct fuel as [| fuel]; cbn in Hfuel; try lia.
    cbn [album_pages].
    rewrite (getitem_truthy _ _ _ Hitems), Hitems. cbn [ebind].
    rewrite Hxs. cbn [ebind]. rewrite album_page_tracks_emap, Hds. cbn [ebind].
    rewrite Hn. cbn [ebind]. rewrite Hnext.
    unfold sp_invoke. rewrite Hs, Hsp.
    destruct (IH fuel (tracks ++ ds)%list (after_call s (sp_next page) (inr page') b')
                eq_refl ltac:(lia)) as (s' & Hrun & Hb & Hu & Hlog).
    exists s'. rewrite Hrun, <- app_assoc.
    repeat split; [exact Hb | exact Hu |].
    rewrite Hlog. cbn [after_call sp_log]. rewrite map_app, <- app_assoc. reflexivity.
Qed.

(** For an album whose listing is paginated, with pages that hold the data
    of their tracks: given fuel for its pages, [get_album_tracks] returns
    the tracks of every page in listing order, after the first request and
    one request per cursor, in order, and nothing else. *)
Theorem get_album_tracks_follows_every_cursor
  (album_uri album_id page : pyval) (ds : list pyval) (calls : list sp_call)
  (b b_end : B) (fuel : nat) (s : client B) :
  _extract_id_from_uri urlparse_path album_uri = inr album_id ->
  sp (sp_album_tracks album_id) (remote s) = (inr page, b) ->
  listing sp b page ds calls b_end ->
  List.length calls + 2 <= fuel ->
  exists s' : client B,
    get_album_tracks B sp urlparse_path fuel album_uri s = Some (inr (PList ds), s') /\
    remote s' = b_end /\ username s' = username s /\
    map fst (sp_log s') = (map fst (sp_log s) ++ sp_album_tracks album_id :: calls)%list.
Proof.
  intros Hid Hfirst Hlist Hfuel.
  unfold get_album_tracks, sp_invoke. rewrite Hid, Hfirst.
  destruct (album_pages_listing b page ds calls b_end Hlist fuel []
              (after_call s (sp_album_tracks album_id) (inr page) b) eq_refl Hfuel)
    as (s' & Hrun & Hb & Hu & Hlog).
  exists s'. repeat split; [exact Hrun | exact Hb | exact Hu |].
  rewrite Hlog. cbn [after_call sp_log]. rewrite map_app, <- app_assoc. reflexivity.
Qed.

End AlbumFacts.

(** The listing of the album of the test double: two pages, three tracks. *)
Lemma album_service_listing :
  listing doubles_rest.album_service tt doubles_rest.album_page1
    ([doubles_rest.album_data "1" 1; doubles_rest.album_data "2" 2]
       ++ [doubles_rest.album_data "3" 3])
    [sp_next doubles_rest.album_page1] tt.
Proof.
  eapply listing_more with (next := PStr "page2").
  - eexists _, _. repeat split; reflexivity.
  - reflexivity.
  - reflexivity.
  - eapply listing_last with (next := PNone).
    + eexists _, _. repeat split; reflexivity.
    + reflexivity.
Defined.

(** An album of three tracks in pages of 2 and 1: all three, in order. *)
Lemma get_album_tracks_of_two_pages :
  exists s' : client unit,
    get_album_tracks unit doubles_rest.album_service doubles.urlparse_path 3
      (PStr "spotify:album:A") (doubles.fresh tt)
    = Some (inr (PList [doubles_rest.album_data "1" 1; doubles_rest.album_data "2" 2;
                        doubles_rest.album_data "3" 3]), s') /\
    remote s' = tt /\ username s' = PStr "me" /\
    map fst (sp_log s') = [sp_album_tracks (PStr "A"); sp_next doubles_rest.album_page1].
Proof.
  exact (get_album_tracks_follows_every_cursor unit doubles_rest.album_service
           doubles.urlparse_path (PStr "spotify:album:A") (PStr "A")
           doubles_rest.album_page1 _ _ tt tt 3 (doubles.fresh tt)
           eq_refl eq_refl album_service_listing (le_n 3)).
Defined.

(** ** The information on an item *)

Section InfoFacts.

Variable B : Type.
Variable sp : sp_call -> B -> (exn + pyval) * B.
Variable urlparse_path : string -> exn + string.
Variable repr : pyval -> string.

Local Abbreviation get_info' := (get_info B sp urlparse_path repr).

(** [get_info] decides the kind by the words the uri holds: a string that
    holds none of [track], [playlist], [album], [artist] (a bare id, which
    the validators accept, included) raises [ValueError] with the uri in
    its message, and no call is made on the service. *)
Theorem get_info_rejects_a_uri_without_kind (u : string) (id : pyval) (s : client B) :
  _extract_id_from_uri urlparse_path (PStr u) = inr id ->
  contains "track" u = false ->
  contains "playlist" u = false ->
  contains "album" u = false ->
  contains "artist" u = false ->
  get_info' (PStr u) s = (inl (Raise ValueError ("Unsupported URI type: " ++ u)), s).
Proof.
  intros Hid Ht Hp Hal Har.
  unfold get_info, bind, lift, raise. rewrite Hid. cbn [py_in].
  rewrite Ht, Hp, Hal, Har. reflexivity.
Qed.

(** The word [track] is tested first: a uri that holds it anywhere, the uri
    of a playlist, an album or an artist included, is looked up as a track,
    under the id extracted from it, and by no other call. *)
Theorem get_info_looks_up_a_track_first (u : string) (id : pyval) (s : client B) :
  _extract_id_from_uri urlparse_path (PStr u) = inr id ->
  contains "track" u = true ->
  get_info' (PStr u) s =
  let (r, b) := sp (sp_track id) (remote s) in
  (match r with
   | inl e => inl e
   | inr item => track_info item
   end,
   after_call s (sp_track id) r b).
Proof.
  intros Hid Ht.
  unfold get_info, bind, lift, sp_invoke. rewrite Hid. cbn [py_in]. rewrite Ht.
  destruct (sp (sp_track id) (remote s)) as [[e | item] b]; reflexivity.
Qed.

End InfoFacts.

(** A bare id is rejected. *)
Lemma get_info_rejects_a_bare_id :
  get_info unit doubles.failing_service doubles.urlparse_path doubles.repr
    (PStr "3n3Ppam7vgaVa1iaRUc9Lp") (doubles.fresh tt)
  = (inl (Raise ValueError "Unsupported URI type: 3n3Ppam7vgaVa1iaRUc9Lp"),
     doubles.fresh tt).
Proof.
  exact (get_info_rejects_a_uri_without_kind unit doubles.failing_service
           doubles.urlparse_path doubles.repr "3n3Ppam7vgaVa1iaRUc9Lp"
           (PStr "3n3Ppam7vgaVa1iaRUc9Lp") (doubles.fresh tt)
           eq_refl eq_refl eq_refl eq_refl eq_refl).
Defined.

(** The playlist [soundtrack] is looked up as a track. *)
Lemma get_info_of_a_playlist_named_soundtrack :
  get_info unit doubles.failing_service doubles.urlparse_path doubles.repr
    (PStr "spotify:playlist:soundtrack") (doubles.fresh tt)
  = (inl doubles.not_found,
     after_call (doubles.fresh tt) (sp_track (PStr "soundtrack"))
       (inl doubles.not_found) tt).
Proof.
  exact (get_info_looks_up_a_track_first unit doubles.failing_service
           doubles.urlparse_path doubles.repr "spotify:playlist:soundtrack"
           (PStr "soundtrack") (doubles.fresh tt) eq_refl eq_refl).
Defined.

(** ** The choice of a device *)

Lemma first_active_find (dicts : list (list (string * pyval))) :
  first_active (map PDict dicts) =
  inr (option_map PDict
         (find (fun d => truthy (item_or d "is_active" PNone)) dicts)).
Proof.
  induction dicts as [| d dicts IH]; cbn; [reflexivity |].
  fold (item_or d "is_active" PNone).
  destruct (truthy (item_or d "is_active" PNone)); [reflexivity | exact IH].
Qed.

Lemma is_active_flags (dicts : list (list (string * pyval))) :
  emap is_active (map PDict dicts) =
  inr (map (fun d => item_or d "is_active" PNone) dicts).
Proof.
  induction dicts as [| d dicts IH]; cbn; [reflexivity |].
  rewrite IH. reflexivity.
Qed.

Lemma existsb_map {A C : Type} (f : A -> C) (p : C -> bool) (xs : list A) :
  existsb p (map f xs) = existsb (fun x => p (f x)) xs.
Proof. induction xs as [| x xs IH]; cbn; [reflexivity | now rewrite IH]. Qed.

Section DeviceFacts.

Variable B : Type.
Variable sp : sp_call -> B -> (exn + pyval) * B.

(** On a listing of devices, [_get_candidate_device] returns the first
    device that is active; when none is, the first device of the listing,
    whose name it reads for the log: a first device without a name raises
    [KeyError]; an empty listing raises [ConnectionError].  The listing is
    requested once. *)
Theorem candidate_device_is_first_active_or_first
  (answer : pyval) (devices : list (list (string * pyval))) (b : B) (s : client B) :
  sp sp_devices (remote s) = (inr answer, b) ->
  py_getitem answer "devices" = inr (PList (map PDict devices)) ->
  _get_candidate_device B sp s =
  (match devices with
   | [] => inl (Raise ConnectionError "No active device. Is Spotify open?")
   | first :: _ =>
       match find active devices with
       | Some device => inr (PDict device)
       | None =>
           match dict_lookup "name" first with
           | Some _ => inr (PDict first)
           | None => inl (Raise KeyError "'name'")
           end
       end
   end,
   after_call s sp_devices (inr answer) b).
Proof.
  intros Hsp Hdevices.
  unfold _get_candidate_device, get_devices, bind, lift, raise, sp_invoke.
  rewrite Hsp, Hdevices.
  destruct devices as [| first rest]; [reflexivity |].
  cbn [map truthy negb py_iter ebind]. rewrite <- map_cons, first_active_find.
  cbn [ebind]. unfold active.
  destruct (find (fun d => truthy (item_or d "is_active" PNone)) (first :: rest));
    cbn [option_map]; [reflexivity |].
  cbn [map py_getitem0 ebind py_getitem].
  destruct (dict_lookup "name" first); reflexivity.
Qed.

(** On a listing of devices, [is_active_device] answers whether some device
    of the listing is active, and it agrees with [_get_candidate_device]:
    it answers [True] exactly when the candidate of the same listing is
    returned and is an active device, and not the fallback to the first
    device or an exception. *)
Theorem is_active_device_agrees_with_candidate
  (answer : pyval) (devices : list (list (string * pyval))) (b : B) (s : client B) :
  sp sp_devices (remote s) = (inr answer, b) ->
  py_getitem answer "devices" = inr (PList (map PDict devices)) ->
  is_active_device B sp s =
    (inr (PBool (existsb active devices)), after_call s sp_devices (inr answer) b) /\
  (existsb active devices = true <->
   exists device,
     _get_candidate_device B sp s =
       (inr (PDict device), after_call s sp_devices (inr answer) b) /\
     active device = true).
Proof.
  intros Hsp Hdevices.
  assert (Hcandidate :
    _get_candidate_device B sp s =
    (match devices with
     | [] => inl (Raise ConnectionError "No active device. Is Spotify open?")
     | first :: _ =>
         match find active devices with
         | Some device => inr (PDict device)
         | None =>
             match dict_lookup "name" first with
             | Some _ => inr (PDict first)
             | None => inl (Raise KeyError "'name'")
             end
         end
     end,
     after_call s sp_devices (inr answer) b)).
  { unfold _get_candidate_device, get_devices, bind, lift, raise, sp_invoke.
    rewrite Hsp, Hdevices.
    destruct devices as [| first rest]; [reflexivity |].
    cbn [map truthy negb py_iter ebind]. rewrite <- map_cons, first_active_find.
    cbn [ebind]. unfold active.
    destruct (find (fun d => truthy (item_or d "is_active" PNone)) (first :: rest));
      cbn [option_map]; [reflexivity |].
    cbn [map py_getitem0 ebind py_getitem].
    destruct (dict_lookup "name" first); reflexivity. }
  split.
  - unfold is_active_device, get_devices, bind, lift, sp_invoke.
    rewrite Hsp, Hdevices. cbn [py_iter ebind].
    rewrite is_active_flags. cbn [ebind]. rewrite existsb_map. reflexivity.
  - rewrite Hcandidate. split.
    + intros H. apply existsb_exists in H as (d & Hin & Hd).
      destruct devices as [| first rest]; [destruct Hin |].
      destruct (find active (first :: rest)) as [device |] eqn:Hfind.
      * exists device. split; [reflexivity |]. now apply find_some in Hfind.
      * rewrite (find_none _ _ Hfind d Hin) in Hd. discriminate.
    + intros (device & Hrun & Hd). apply existsb_exists.
      destruct devices as [| first rest]; [discriminate Hrun |].
      destruct (find active (first :: rest)) as [found |] eqn:Hfind.
      * apply find_some in Hfind as [Hin Hfound]. now exists found.
      * destruct (dict_lookup "name" first); [| discriminate Hrun].
        injection Hrun as ->.
        rewrite (find_none _ _ Hfind device (or_introl eq_refl)) in Hd. discriminate.
Qed.

End DeviceFacts.

(** Of a kitchen speaker that is idle and a phone that plays, the phone. *)
Lemma candidate_device_of_two :
  _get_candidate_device unit doubles_rest.devices_service (doubles.fresh tt)
  = (inr (PDict doubles_rest.phone),
     after_call (doubles.fresh tt) sp_devices (inr doubles_rest.two_devices) tt).
Proof.
  exact (candidate_device_is_first_active_or_first unit doubles_rest.devices_service
           doubles_rest.two_devices [doubles_rest.kitchen; doubles_rest.phone] tt
           (doubles.fresh tt) eq_refl eq_refl).
Defined.

(** Of the same two devices: [True], and the candidate is the phone, which
    plays. *)
Lemma is_active_device_of_two :
  let listed := after_call (doubles.fresh tt) sp_devices (inr doubles_rest.two_devices) tt in
  is_active_device unit doubles_rest.devices_service (doubles.fresh tt)
  = (inr (PBool true), listed) /\
  exists device,
    _get_candidate_device unit doubles_rest.devices_service (doubles.fresh tt)
    = (inr (PDict device), listed) /\
    active device = true.
Proof.
  destruct (is_active_device_agrees_with_candidate unit doubles_rest.devices_service
              doubles_rest.two_devices [doubles_rest.kitchen; doubles_rest.phone] tt
              (doubles.fresh tt) eq_refl eq_refl) as [Hflag Hagree].
  split; [exact Hflag | exact (proj1 Hagree eq_refl)].
Defined.

(** ** Playback, the top tracks of an artist and the token *)

(** An [except] clause that raises again changes nothing. *)
Lemma try_except_reraise {St A : Type} (m : M St A) (s : St) :
  try_except m is_Exception (fun e => raise e) s = m s.
Proof. unfold try_except, raise. destruct (m s) as [[e | a] s']; reflexivity. Qed.

Section PlayerFacts.

Variable B : Type.
Variable sp : sp_call -> B -> (exn + pyval) * B.
Variable api : api_call -> B -> (exn + pyval) * B.
Variable urlparse_path : string -> exn + string.
Variable parse_track : pyval -> exn + pyval.

Local Abbreviation api_invoke' := (api_invoke B api).

(** [get_artist_top_tracks] asks for the top tracks in the country of the
    user's profile, and in [US] when the profile cannot be read (the request
    raises, or the profile has no [country]): a failure to read the profile
    never leaves the method. *)
Theorem top_tracks_market_falls_back_to_US
  (artist_uri artist_id : pyval) (s : session B) :
  _extract_id_from_uri urlparse_path artist_uri = inr artist_id ->
  let (profile, b1) := sp sp_current_user (remote (self s)) in
  let country :=
    match profile with
    | inr user_info =>
        match py_getitem user_info "country" with
        | inr c => c
        | inl _ => PStr "US"
        end
    | inl _ => PStr "US"
    end in
  let s1 := {| self := after_call (self s) sp_current_user profile b1;
               api_log := api_log s |} in
  let (r, b2) := api (sp_artist_top_tracks artist_id country) b1 in
  get_artist_top_tracks B sp api urlparse_path artist_uri s =
  (match r with
   | inl e => inl e
   | inr results =>
       (tracks <~ py_getitem results "tracks" ;;
        xs <~ py_iter tracks ;;
        ds <~ emap top_track_data xs ;;
        inr (PList ds))%pyexpr
   end,
   after_api_call s1 (sp_artist_top_tracks artist_id country) r b2).
Proof.
  intros Hid.
  destruct (sp sp_current_user (remote (self s))) as [profile b1] eqn:Hprofile.
  cbv zeta.
  match goal with |- context [api ?c b1] => destruct (api c b1) as [r b2] eqn:Hapi end.
  unfold get_artist_top_tracks, market, bind, lift, try_except, on_self,
    sp_invoke, api_invoke, ret.
  rewrite Hid, Hprofile.
  destruct profile as [e | user_info]; cbn [self remote after_call].
  - rewrite Hapi. destruct r; reflexivity.
  - destruct (py_getitem user_info "country") as [e | c]; cbn [self remote after_call];
      rewrite Hapi; destruct r; reflexivity.
Qed.




(** [get_current_track] returns [None] when nothing is playing and when
    what is playing is not a track, without parsing anything. *)
Theorem get_current_track_is_none_without_a_track
  (current : pyval) (b : B) (s : session B) :
  api sp_current_user_playing_track (remote (self s)) = (inr current, b) ->
  truthy current = false \/
  (exists kvs, current = PDict kvs /\
               is_str (item_or kvs "currently_playing_type" PNone) "track" = false) ->
  get_current_track B api parse_track s =
  (inr PNone, after_api_call s sp_current_user_playing_track (inr current) b).
Proof.
  intros Hapi Hcase. unfold get_current_track. rewrite try_except_reraise.
  unfold bind, ret, lift, api_invoke. rewrite Hapi.
  destruct Hcase as [Hf | (kvs & -> & Hkind)].
  - rewrite Hf. reflexivity.
  - destruct (truthy (PDict kvs)); [| reflexivity].
    cbn [negb py_get]. fold (item_or kvs "currently_playing_type" PNone).
    rewrite Hkind. reflexivity.
Qed.


Lemma next_tracks_step (k : nat) (s : session B) :
  next_tracks B api (S k) s =
  let (r, b) := api sp_next_track (remote (self s)) in
  match r with
  | inl e => (inl e, after_api_call s sp_next_track (inl e) b)
  | inr v => next_tracks B api k (after_api_call s sp_next_track (inr v) b)
  end.
Proof.
  cbn [next_tracks]. unfold bind, api_invoke.
  destruct (api sp_next_track (remote (self s))) as [[e | v] b]; reflexivity.
Qed.

Lemma next_tracks_log (k : nat) (s : session B) :
  exists (j : nat) (outcomes : list (exn + pyval)),
    j <= k /\ List.length outcomes = j /\
    api_log (snd (next_tracks B api k s)) =
      (api_log s ++ combine (repeat sp_next_track j) outcomes)%list /\
    match fst (next_tracks B api k s) with
    | inr _ => j = k /\ existsb raised (combine (repeat sp_next_track j) outcomes) = false
    | inl e => exists oks, outcomes = (map inr oks ++ [inl e])%list
    end.
Proof.
  revert s. induction k as [| k IH]; intros s.
  - exists 0, []. cbn. rewrite app_nil_r. repeat split; lia.
  - rewrite next_tracks_step.
    destruct (api sp_next_track (remote (self s))) as [[e | v] b] eqn:Hapi.
    + exists 1, [inl e]. cbn [fst snd]. repeat split; [lia |]. exists []. reflexivity.
    + destruct (IH (after_api_call s sp_next_track (inr v) b))
        as (j & outcomes & Hj & Hlen & Hlog & Hres).
      exists (S j), (inr v :: outcomes). repeat split; [lia | cbn; lia | |].
      * rewrite Hlog. cbn [after_api_call api_log repeat combine].
        rewrite <- app_assoc. reflexivity.
      * destruct (fst (next_tracks B api k (after_api_call s sp_next_track (inr v) b))).
        -- destruct Hres as (oks & ->). exists (v :: oks). reflexivity.
        -- destruct Hres as [-> Hq]. split; [reflexivity | exact Hq].
Qed.

(** [skip_track n] asks for the next track once per skip, at most [n] times
    and not at all for [n <= 0]: it returns [None] after exactly [n] calls
    that all returned, and it raises the exception of the first call that
    fails, which is then the last call made. *)
Theorem skip_track_stops_at_first_failure (n : Z) (s : session B) :
  let run := skip_track B api n s in
  exists (j : nat) (outcomes : list (exn + pyval)),
    j <= Z.to_nat n /\ List.length outcomes = j /\
    api_log (snd run) = (api_log s ++ combine (repeat sp_next_track j) outcomes)%list /\
    match fst run with
    | inr v => v = PNone /\ j = Z.to_nat n /\
               existsb raised (combine (repeat sp_next_track j) outcomes) = false
    | inl e => exists oks, outcomes = (map inr oks ++ [inl e])%list
    end.
Proof.
  intros run. subst run. unfold skip_track, bind, ret.
  destruct (next_tracks_log (Z.to_nat n) s) as (j & outcomes & Hj & Hlen & Hlog & Hres).
  exists j, outcomes.
  destruct (next_tracks B api (Z.to_nat n) s) as [[e | []] s'];
    cbn [fst snd] in *; repeat split; try assumption; tauto.
Qed.

(** [auth_ok] returns a boolean and never raises: [True] exactly when a
    cached token exists and the check of its expiry returned a false value;
    [False] when there is no token, when it is expired, and whenever one of
    the two calls raised. *)
Theorem auth_ok_never_raises (s : session B) :
  exists (ok : bool) (s' : session B),
    auth_ok B api s = (inr (PBool ok), s') /\
    (ok = true <->
     exists token b1 expired b2,
       api cache_get_cached_token (remote (self s)) = (inr token, b1) /\
       token <> PNone /\
       api (auth_is_token_expired token) b1 = (inr expired, b2) /\
       truthy expired = false).
Proof.
  unfold auth_ok, try_except, bind, ret, api_invoke, is_Exception.
  destruct (api cache_get_cached_token (remote (self s))) as [[e | token] b1] eqn:Htoken.
  - eexists false, _. split; [reflexivity |].
    split; [discriminate | intros (? & ? & ? & ? & H & _); discriminate].
  - assert (Hcase : token = PNone \/ token <> PNone)
      by (destruct token; (now left) || (right; discriminate)).
    destruct Hcase as [-> | Hne].
    + eexists false, _. split; [reflexivity |].
      split; [discriminate |].
      intros (? & ? & ? & ? & H & Hn & _). injection H as <- _. contradiction.
    + destruct (api (auth_is_token_expired token) b1) as [[e | expired] b2] eqn:Hexp.
      * exists false,
          (after_api_call (after_api_call s cache_get_cached_token (inr token) b1)
             (auth_is_token_expired token) (inl e) b2).
        split; [destruct token; try contradiction;
                cbn [after_api_call self remote]; rewrite Hexp; reflexivity |].
        split; [discriminate |].
        intros (t & b1' & x & b2' & H & _ & Hx & _). injection H as <- <-.
        rewrite Hexp in Hx. discriminate.
      * exists (negb (truthy expired)),
          (after_api_call (after_api_call s cache_get_cached_token (inr token) b1)
             (auth_is_token_expired token) (inr expired) b2).
        split; [destruct token; try contradiction;
                cbn [after_api_call self remote]; rewrite Hexp; reflexivity |].
        split.
        -- intros H. exists token, b1, expired, b2.
           repeat split; try assumption. now apply negb_true_iff.
        -- intros (t & b1' & x & b2' & H & _ & Hx & Hf). injection H as <- <-.
           rewrite Hexp in Hx. injection Hx as <- _. now rewrite Hf.
Qed.

End PlayerFacts.

(** The top tracks of an artist when the profile cannot be read: asked for
    in [US]. *)
Lemma top_tracks_without_a_profile :
  get_artist_top_tracks unit doubles.failing_service
    (doubles_rest.player_service PNone) doubles.urlparse_path
    (PStr "spotify:artist:A") (doubles_rest.begin (doubles.fresh tt))
  = (inr (PList []),
     after_api_call
       {| self := after_call (doubles.fresh tt) sp_current_user (inl doubles.not_found) tt;
          api_log := [] |}
       (sp_artist_top_tracks (PStr "A") (PStr "US"))
       (inr (PDict [("tracks", PList [])])) tt).
Proof.
  exact (top_tracks_market_falls_back_to_US unit doubles.failing_service
           (doubles_rest.player_service PNone) doubles.urlparse_path
           (PStr "spotify:artist:A") (PStr "A") (doubles_rest.begin (doubles.fresh tt))
           eq_refl).
Defined.




(** While an episode plays there is no current track. *)
Lemma get_current_track_during_an_episode :
  get_current_track unit (doubles_rest.player_service doubles_rest.playing_episode)
    doubles_rest.parse_track (doubles_rest.begin (doubles.fresh tt))
  = (inr PNone,
     after_api_call (doubles_rest.begin (doubles.fresh tt)) sp_current_user_playing_track
       (inr doubles_rest.playing_episode) tt).
Proof.
  exact (get_current_track_is_none_without_a_track unit
           (doubles_rest.player_service doubles_rest.playing_episode)
           doubles_rest.parse_track doubles_rest.playing_episode tt
           (doubles_rest.begin (doubles.fresh tt)) eq_refl
           (or_intror (ex_intro _ _ (conj eq_refl eq_refl)))).
Defined.


(** ** More on the dispatcher *)

Lemma is_str_true (v : pyval) (lit : string) : is_str v lit = true -> v = PStr lit.
Proof.
  destruct v; try discriminate. cbn. intros H.
  apply String.eqb_eq in H. now subst.
Qed.

Section DispatcherMoreFacts.

Variable W : Type.
Variable spotify_client : client_call -> W -> (exn + pyval) * W.
Variable repr : pyval -> string.
Variable json_loads : string -> option pyval.
Variable int_of_str : string -> option Z.

Local Abbreviation handle_call_tool' :=
  (handle_call_tool W spotify_client repr json_loads int_of_str).
Local Abbreviation error' := (fun message => Some (create_error_response message)).

Lemma answers_ret (r : option (list TextContent)) :
  r <> None -> answers (W := W) (ret r).
Proof. intros Hr s r' s' H. injection H as <- _. exact Hr. Qed.

Lemma answers_bind {A} (m : M (dispatcher W) A)
  (k : A -> M (dispatcher W) (option (list TextContent))) :
  (forall a, answers (k a)) -> answers (bind m k).
Proof.
  intros Hk s r s' H. unfold bind in H.
  destruct (m s) as [[e | a] s1]; [discriminate |]. exact (Hk a s1 r s' H).
Qed.

Lemma answers_try_except (m : M (dispatcher W) (option (list TextContent)))
  (catches : exn -> bool) (h : exn -> M (dispatcher W) (option (list TextContent))) :
  answers m -> (forall e, answers (h e)) -> answers (try_except m catches h).
Proof.
  intros Hm Hh s r s' H. unfold try_except in H.
  destruct (m s) as [[e | a] s1] eqn:Hms.
  - destruct (catches e); [exact (Hh e s1 r s' H) | discriminate].
  - injection H as <- <-. exact (Hm s a s1 Hms).
Qed.

Ltac answers_step :=
  lazymatch goal with
  | |- answers (ret _) => apply answers_ret; discriminate
  | |- answers (bind _ _) => apply answers_bind; intro
  | |- answers (try_except _ _ _) => apply answers_try_except; [| intro]
  | |- answers (if ?b then _ else _) => destruct b
  | |- answers (match ?x with _ => _ end) => destruct x
  end.

Ltac answers_auto := cbv zeta; repeat answers_step.

Lemma search_tool_answers (arguments : pyval) :
  answers (search_tool W spotify_client repr arguments).
Proof. unfold search_tool. answers_auto. Qed.

Lemma queue_answers (arguments : pyval) :
  answers (queue W spotify_client repr arguments).
Proof. unfold queue, queue_add. answers_auto. Qed.

Lemma get_info_tool_answers (arguments : pyval) :
  answers (get_info_tool W spotify_client arguments).
Proof. unfold get_info_tool. answers_auto. Qed.

Lemma playlist_answers (arguments : pyval) :
  answers (playlist W spotify_client repr json_loads arguments).
Proof. unfold playlist, decoded_track_ids. answers_auto. Qed.

(** [Playback] returns no response exactly for an action that is none of
    its four, and then without a call on the client. *)
Lemma playback_none (arguments : pyval) (s s' : dispatcher W) :
  playback W spotify_client repr int_of_str arguments s = (inr None, s') <->
  (exists action, py_get arguments "action" PNone = inr action /\
                  playback_action action = false) /\ s' = s.
Proof.
  unfold playback, playback_action. unfold bind at 1. unfold lift at 1.
  destruct (py_get arguments "action" PNone) as [e | action].
  - split; [discriminate | intros [(a & H & _) _]; discriminate].
  - assert (Hnot : forall m, answers m -> m s <> (inr None, s')).
    { intros m Hm H. exact (Hm s None s' H eq_refl). }
    destruct (is_str action "get") eqn:Eget.
    { split; [| intros [(a & H & Ha) _]; injection H as <-;
                rewrite Eget in Ha; discriminate].
      intros H. exfalso. revert H. apply Hnot. answers_auto. }
    destruct (is_str action "start") eqn:Estart.
    { split; [| intros [(a & H & Ha) _]; injection H as <-;
                rewrite Eget, Estart in Ha; discriminate].
      intros H. exfalso. revert H. apply Hnot. answers_auto. }
    destruct (is_str action "pause") eqn:Epause.
    { split; [| intros [(a & H & Ha) _]; injection H as <-;
                rewrite Eget, Estart, Epause in Ha; discriminate].
      intros H. exfalso. revert H. apply Hnot. answers_auto. }
    destruct (is_str action "skip") eqn:Eskip.
    { split; [| intros [(a & H & Ha) _]; injection H as <-;
                rewrite Eget, Estart, Epause, Eskip in Ha; discriminate].
      intros H. exfalso. revert H. apply Hnot. answers_auto. }
    unfold ret. split.
    + intros H. injection H as <-. split; [| reflexivity].
      exists action. split; [reflexivity |].
      now rewrite Eget, Estart, Epause, Eskip.
    + intros [_ ->]. reflexivity.
Qed.

(** [handle_call_tool] ends without a response, returning [None], in one
    case only: the tool is [SpotifyPlayback] and the action is none of
    [get], [start], [pause], [skip].  No call is made on the client then.
    Every other call that returns, returns a response. *)
Theorem handle_call_tool_returns_none_only_for_playback
  (name : string) (arguments : pyval) (s s' : dispatcher W) :
  handle_call_tool' name arguments s = (inr None, s') <->
  name = "SpotifyPlayback" /\
  (exists action, py_get arguments "action" PNone = inr action /\
                  playback_action action = false) /\
  s' = s.
Proof.
  unfold handle_call_tool.
  destruct (String.eqb_spec (substring 0 7 name) "Spotify") as [Hp | Hp].
  - pose proof (substring_cut 7 name) as Hcut. rewrite Hp in Hcut.
    unfold try_except, is_Exception, tool. cbv zeta.
    assert (Hnot : forall m, answers m ->
              match m s with
              | (inl e, s1) =>
                  (if is_SpotifyException e
                   then ret (error' ("An error occurred with the Spotify Client: "
                                       ++ exn_str e))
                   else ret (error' ("Unexpected error occurred: " ++ exn_str e))) s1
              | r => r
              end <> (inr None, s')).
    { intros m Hm H. destruct (m s) as [[e | r] s1] eqn:Hms.
      - destruct (is_SpotifyException e); discriminate H.
      - injection H as -> ->. exact (Hm s None s' Hms eq_refl). }
    destruct (String.eqb_spec (substring 7 (String.length name - 7) name) "Playback")
      as [Hs | Hs].
    + rewrite Hs in Hcut.
      destruct (playback W spotify_client repr int_of_str arguments s)
        as [[e | r] s1] eqn:Hrun.
      * split; [destruct (is_SpotifyException e); discriminate |].
        intros (_ & Hq). apply playback_none in Hq. rewrite Hrun in Hq. discriminate.
      * split.
        -- intros H. injection H as -> ->. split; [now symmetry |].
           now apply playback_none.
        -- intros (_ & Hq). apply playback_none in Hq. rewrite Hrun in Hq. exact Hq.
    + assert (Hname : name <> "SpotifyPlayback").
      { intros ->. apply Hs. reflexivity. }
      split; [| intros (Hn & _); contradiction].
      intros H. exfalso.
      repeat match type of H with
      | context [String.eqb ?x ?y] => destruct (String.eqb x y)
      end.
      * exact (Hnot _ (search_tool_answers arguments) H).
      * exact (Hnot _ (queue_answers arguments) H).
      * exact (Hnot _ (get_info_tool_answers arguments) H).
      * exact (Hnot _ (playlist_answers arguments) H).
      * discriminate H.
  - split; [discriminate |].
    intros (-> & _). exfalso. apply Hp. reflexivity.
Qed.

(** A request that is turned down on its arguments is answered with the
    error payload of its message, and the client is left untouched: no
    call is made on it. *)
Theorem rejected_requests_reach_no_client
  (name : string) (a : list (string * pyval)) (message : string) (s : dispatcher W) :
  rejected repr json_loads name a message ->
  handle_call_tool' name (PDict a) s = (inr (error' message), s).
Proof.
  intros H. unfold handle_call_tool.
  destruct H;
    cbn [substring String.length Nat.sub String.eqb Ascii.eqb Bool.eqb];
    unfold tool, try_except; cbn [substring String.length Nat.sub];
    cbn [String.eqb Ascii.eqb Bool.eqb];
    unfold queue, playlist, decoded_track_ids, bind, lift, ret;
    cbn [py_get];
    repeat match goal with
    | |- context [match dict_lookup ?k a with Some x => x | None => PNone end] =>
        change (match dict_lookup k a with Some x => x | None => PNone end)
          with (argument a k)
    end.
  - rewrite H, H0. reflexivity.
  - rewrite H, H0. reflexivity.
  - rewrite (is_str_true _ _ H) in *. cbn [is_str String.eqb Ascii.eqb Bool.eqb].
    rewrite H0. reflexivity.
  - destruct H as [H | H]; rewrite (is_str_true _ _ H) in *;
      cbn [is_str String.eqb Ascii.eqb Bool.eqb]; rewrite H0, H1; reflexivity.
  - rewrite (is_str_true _ _ H) in *. cbn [is_str String.eqb Ascii.eqb Bool.eqb].
    rewrite H0. reflexivity.
  - rewrite (is_str_true _ _ H) in *. cbn [is_str String.eqb Ascii.eqb Bool.eqb].
    rewrite H0, H1, H2. reflexivity.
  - rewrite H, H0, H1, H2, H3. reflexivity.
Qed.

End DispatcherMoreFacts.

(** A queue request without a uri, on a client on which every call would
    fail: turned down before any call. *)
Lemma queue_add_without_a_uri :
  handle_call_tool unit doubles.failing_client doubles.repr doubles.json_loads
    doubles.int_of_str "SpotifyQueue" (PDict [("action", PStr "add")]) (doubles.start tt)
  = (inr (Some (create_error_response "spotify_uri is required for the 'add' action.")),
     doubles.start tt).
Proof.
  exact (rejected_requests_reach_no_client unit doubles.failing_client doubles.repr
           doubles.json_loads doubles.int_of_str "SpotifyQueue" [("action", PStr "add")] _
           (doubles.start tt)
           (queue_add_without_uri doubles.repr doubles.json_loads
              [("action", PStr "add")] eq_refl eq_refl)).
Defined.

(** ** Queueing the tracks of a collection *)

Lemma py_get_argument (a : list (string * pyval)) (key : string) :
  py_get (PDict a) key PNone = inr (argument a key).
Proof. reflexivity. Qed.

Section QueueFacts.

Variable W : Type.
Variable spotify_client : client_call -> W -> (exn + pyval) * W.
Variable repr : pyval -> string.
Variable json_loads : string -> option pyval.
Variable int_of_str : string -> option Z.

Local Abbreviation handle_call_tool' :=
  (handle_call_tool W spotify_client repr json_loads int_of_str).
Local Abbreviation add_each' := (add_each W spotify_client).

Lemma add_each_step (key : string) (track : list (string * pyval))
  (rest added_tracks : list pyval) (s : dispatcher W) :
  add_each' key (PDict track :: rest) added_tracks s =
  let (r, w) := spotify_client (add_call key track) (client_state s) in
  match r with
  | inl e => (inl e, after_method s (add_call key track) (inl e) w)
  | inr v => add_each' key rest (added_tracks ++ [PDict track])
               (after_method s (add_call key track) (inr v) w)
  end.
Proof.
  cbn [add_each]. unfold bind, lift, invoke, add_call. cbn [py_get].
  fold (item_or track key PNone).
  destruct (spotify_client (c_add_to_queue (item_or track key PNone)) (client_state s))
    as [[e | v] w]; reflexivity.
Qed.

Lemma add_each_log (key : string) (tracks : list (list (string * pyval)))
  (added_tracks : list pyval) (s : dispatcher W) :
  exists (j : nat) (outcomes : list (exn + pyval)),
    j <= List.length tracks /\ List.length outcomes = j /\
    client_log (snd (add_each' key (map PDict tracks) added_tracks s)) =
      (client_log s ++ combine (map (add_call key) (firstn j tracks)) outcomes)%list /\
    match fst (add_each' key (map PDict tracks) added_tracks s) with
    | inr added => added = (added_tracks ++ map PDict tracks)%list /\
                   j = List.length tracks /\
                   existsb raised
                     (combine (map (add_call key) (firstn j tracks)) outcomes) = false
    | inl e => exists oks, outcomes = (map inr oks ++ [inl e])%list
    end.
Proof.
  revert added_tracks s.
  induction tracks as [| track tracks IH]; intros added_tracks s.
  - exists 0, []. cbn. rewrite !app_nil_r. repeat split; lia.
  - cbn [map]. rewrite add_each_step.
    destruct (spotify_client (add_call key track) (client_state s)) as [[e | v] w].
    + exists 1, [inl e]. cbn [fst snd firstn map combine after_method client_log List.length].
      repeat split; [lia |]. exists []. reflexivity.
    + destruct (IH (added_tracks ++ [PDict track])%list
                  (after_method s (add_call key track) (inr v) w))
        as (j & outcomes & Hj & Hlen & Hlog & Hres).
      exists (S j), (inr v :: outcomes).
      repeat split; [cbn; lia | cbn; lia | |].
      * rewrite Hlog. cbn [after_method client_log firstn map combine].
        rewrite <- app_assoc. reflexivity.
      * destruct (fst (add_each' key (map PDict tracks) (added_tracks ++ [PDict track])
                         (after_method s (add_call key track) (inr v) w))).
        -- destruct Hres as (oks & ->). exists (v :: oks). reflexivity.
        -- destruct Hres as (-> & -> & Hq). rewrite <- app_assoc.
           repeat split. exact Hq.
Qed.

(** The loops of lines 358-361, 380-383 and 402-405 queue the tracks one by
    one, in listing order, and end at the first add that raises: the tracks
    after it are not attempted.  When no add raises, every track was added
    and [added_tracks] holds them all. *)
Theorem add_each_is_sequential_and_stops_at_first_failure
  (key : string) (tracks : list (list (string * pyval)))
  (added_tracks : list pyval) (s : dispatcher W) :
  let run := add_each' key (map PDict tracks) added_tracks s in
  exists (j : nat) (outcomes : list (exn + pyval)),
    j <= List.length tracks /\ List.length outcomes = j /\
    client_log (snd run) =
      (client_log s ++ combine (map (add_call key) (firstn j tracks)) outcomes)%list /\
    match fst run with
    | inr added => added = (added_tracks ++ map PDict tracks)%list /\
                   j = List.length tracks /\
                   existsb raised
                     (combine (map (add_call key) (firstn j tracks)) outcomes) = false
    | inl e => exists oks, outcomes = (map inr oks ++ [inl e])%list
    end.
Proof. exact (add_each_log key tracks added_tracks s). Qed.

(** When every add returns, so does the loop, with all the tracks. *)
Lemma add_each_all (key : string) (tracks : list (list (string * pyval)))
  (added_tracks : list pyval) (s : dispatcher W) :
  (forall uri w, exists v w', spotify_client (c_add_to_queue uri) w = (inr v, w')) ->
  exists s' : dispatcher W,
    add_each' key (map PDict tracks) added_tracks s =
      (inr (added_tracks ++ map PDict tracks)%list, s') /\
    map fst (client_log s') = (map fst (client_log s) ++ map (add_call key) tracks)%list.
Proof.
  intros Hadd. revert added_tracks s.
  induction tracks as [| track tracks IH]; intros added_tracks s.
  - exists s. cbn. rewrite !app_nil_r. split; reflexivity.
  - cbn [map]. rewrite add_each_step.
    destruct (Hadd (item_or track key PNone) (client_state s)) as (v & w & Hv).
    unfold add_call at 1. rewrite Hv.
    destruct (IH (added_tracks ++ [PDict track])%list
                (after_method s (add_call key track) (inr v) w)) as (s' & Hrun & Hlog).
    exists s'. rewrite Hrun, <- app_assoc. split; [reflexivity |].
    rewrite Hlog. cbn [after_method client_log]. rewrite map_app, <- app_assoc.
    reflexivity.
Qed.

(** Queueing an album that is valid, whose tracks are listed and all added:
    the answer reports as [tracks_added], and in its status, the number of
    tracks of the album, and the client was called in this order: the
    validation, the listing, one add per track in listing order under the
    track's [uri], and the information on the album. *)
Theorem queue_add_album_reports_every_track
  (a : list (string * pyval)) (u : string) (valid : pyval)
  (tracks : list (list (string * pyval))) (w1 w2 : W) (s : dispatcher W) :
  is_str (argument a "action") "add" = true ->
  argument a "spotify_uri" = PStr u ->
  contains "track" u = false ->
  contains "playlist" u = false ->
  contains "album" u = true ->
  spotify_client (c_is_valid_album (PStr u)) (client_state s) = (inr valid, w1) ->
  truthy valid = true ->
  spotify_client (c_get_album_tracks (PStr u)) w1 = (inr (PList (map PDict tracks)), w2) ->
  (forall uri w, exists v w', spotify_client (c_add_to_queue uri) w = (inr v, w')) ->
  (forall w, exists info w', spotify_client (c_get_info (PStr u)) w = (inr info, w')) ->
  exists (album_info : pyval) (s' : dispatcher W),
    handle_call_tool' "SpotifyQueue" (PDict a) s =
    (inr (text_response (json_dumps (PDict
       [("status", PStr ("All " ++ decimal (Z.of_nat (List.length tracks))
                           ++ " tracks from album added to queue successfully"));
        ("album_details", album_info);
        ("tracks_added", PInt (Z.of_nat (List.length tracks)))]))), s') /\
    map fst (client_log s') =
      (map fst (client_log s)
         ++ [c_is_valid_album (PStr u); c_get_album_tracks (PStr u)]
         ++ map (add_call "uri") tracks ++ [c_get_info (PStr u)])%list.
Proof.
  intros Haction Huri Ht Hp Hal Hvalid Htruthy Htracks Hadd Hinfo.
  assert (Hne : truthy (PStr u) = true).
  { destruct u; [discriminate Hal | reflexivity]. }
  destruct (add_each_all "uri" tracks []
              (after_method (after_method s (c_is_valid_album (PStr u)) (inr valid) w1)
                 (c_get_album_tracks (PStr u)) (inr (PList (map PDict tracks))) w2) Hadd)
    as (s1 & Hrun & Hlog).
  destruct (Hinfo (client_state s1)) as (info & w3 & Hi).
  exists info, (after_method s1 (c_get_info (PStr u)) (inr info) w3).
  unfold handle_call_tool, tool, try_except.
  cbn [substring String.length Nat.sub String.eqb Ascii.eqb Bool.eqb].
  unfold queue, queue_add, try_except, bind, lift, ret, invoke.
  rewrite !py_get_argument, Haction, Huri, Hne. cbn [negb py_in].
  rewrite Ht, Hp, Hal, Hvalid, Htruthy. cbn [negb after_method client_state].
  rewrite Htracks. cbn [py_iter after_method client_state].
  rewrite Hrun, Hi.
  unfold count. rewrite length_app, length_map. cbn [List.length Nat.add].
  split; [reflexivity |].
  cbn [after_method client_log]. rewrite map_app, Hlog.
  cbn [after_method client_log]. rewrite !map_app, <- !app_assoc. reflexivity.
Qed.

End QueueFacts.

(** An album of two tracks on a client on which every call returns. *)
Lemma queue_add_album_of_two_tracks :
  exists (album_info : pyval) (s' : dispatcher (list pyval)),
    handle_call_tool (list pyval) doubles_rest.willing_client doubles.repr
      doubles.json_loads doubles.int_of_str "SpotifyQueue"
      (PDict [("action", PStr "add"); ("spotify_uri", PStr "spotify:album:A")])
      (doubles.start []) =
    (inr (text_response (json_dumps (PDict
       [("status", PStr "All 2 tracks from album added to queue successfully");
        ("album_details", album_info);
        ("tracks_added", PInt 2)]))), s') /\
    map fst (client_log s') =
      [c_is_valid_album (PStr "spotify:album:A");
       c_get_album_tracks (PStr "spotify:album:A");
       c_add_to_queue (PStr "spotify:track:1"); c_add_to_queue (PStr "spotify:track:2");
       c_get_info (PStr "spotify:album:A")].
Proof.
  exact (queue_add_album_reports_every_track (list pyval) doubles_rest.willing_client
           doubles.repr doubles.json_loads doubles.int_of_str
           [("action", PStr "add"); ("spotify_uri", PStr "spotify:album:A")]
           "spotify:album:A" (PBool true)
           [[("uri", PStr "spotify:track:1"); ("name", PStr "Track 1")];
            [("uri", PStr "spotify:track:2"); ("name", PStr "Track 2")]]
           [] [] (doubles.start [])
           eq_refl eq_refl eq_refl eq_refl eq_refl eq_refl eq_refl eq_refl
           (fun uri w => ex_intro _ PNone (ex_intro _ (w ++ [uri])%list eq_refl))
           (fun w => ex_intro _ PNone (ex_intro _ w eq_refl))).
Defined.

(** ** What the dispatcher answers *)

Lemma join_values_strings (names : list string) (index : nat) :
  join_values (map PStr names) index = inr names.
Proof.
  revert index. induction names as [| n names IH]; intros index; cbn; [reflexivity |].
  rewrite IH. reflexivity.
Qed.

Section AnswerFacts.

Variable W : Type.
Variable spotify_client : client_call -> W -> (exn + pyval) * W.
Variable repr : pyval -> string.
Variable json_loads : string -> option pyval.
Variable int_of_str : string -> option Z.

Local Abbreviation handle_call_tool' :=
  (handle_call_tool W spotify_client repr json_loads int_of_str).

(** The queue decides the kind of a uri by the words it holds, [track]
    first: a uri that holds the word anywhere (the uri of a playlist, an
    album or an artist included) is validated as a track, and when that
    validation fails the request is answered as an invalid track, with no
    other call on the client. *)
Theorem queue_add_validates_a_track_first
  (a : list (string * pyval)) (u : string) (valid : pyval) (w : W) (s : dispatcher W) :
  is_str (argument a "action") "add" = true ->
  argument a "spotify_uri" = PStr u ->
  contains "track" u = true ->
  spotify_client (c_is_valid_track (PStr u)) (client_state s) = (inr valid, w) ->
  truthy valid = false ->
  handle_call_tool' "SpotifyQueue" (PDict a) s =
  (inr (Some (create_error_response
                "Invalid or non-existent track URI. Please try another track.")),
   after_method s (c_is_valid_track (PStr u)) (inr valid) w).
Proof.
  intros Haction Huri Ht Hvalid Hf.
  assert (Hne : truthy (PStr u) = true).
  { destruct u; [discriminate Ht | reflexivity]. }
  unfold handle_call_tool, tool, try_except.
  cbn [substring String.length Nat.sub String.eqb Ascii.eqb Bool.eqb].
  unfold queue, queue_add, try_except, bind, lift, ret, invoke.
  rewrite !py_get_argument, Haction, Huri, Hne. cbn [negb py_in].
  rewrite Ht, Hvalid, Hf. reflexivity.
Qed.

(** An exception of the client's search, a [SpotifyException] included, is
    answered by the [except] of the search itself (line 319), with the
    message [An error occurred during search: <exception>]: the handlers
    of lines 531-538 are not reached. *)
Theorem search_failure_is_reported_as_a_search_error
  (a : list (string * pyval)) (e : exn) (w : W) (s : dispatcher W) :
  let query := item_or a "query" (PStr EmptyString) in
  let qtype := item_or a "qtype" (PStr "track") in
  let limit := item_or a "limit" (PInt 10) in
  spotify_client (c_search query qtype limit) (client_state s) = (inl e, w) ->
  handle_call_tool' "SpotifySearch" (PDict a) s =
  (inr (Some (create_error_response ("An error occurred during search: " ++ exn_str e))),
   after_method s (c_search query qtype limit) (inl e) w).
Proof.
  intros query qtype limit Hsearch.
  unfold handle_call_tool, tool, try_except.
  cbn [substring String.length Nat.sub String.eqb Ascii.eqb Bool.eqb].
  unfold search_tool, try_except, bind, lift, ret, invoke. cbn [py_get].
  fold (item_or a "query" (PStr EmptyString)).
  fold (item_or a "qtype" (PStr "track")).
  fold (item_or a "limit" (PInt 10)).
  fold query qtype limit. rewrite Hsearch. reflexivity.
Qed.

(** An exception of [get_info] reaches the handlers of lines 531-538: a
    [SpotifyException] is answered with [An error occurred with the Spotify
    Client: <exception>], any other exception with [Unexpected error
    occurred: <exception>]. *)
Theorem get_info_failure_is_reported_by_class
  (a : list (string * pyval)) (e : exn) (w : W) (s : dispatcher W) :
  spotify_client (c_get_info (argument a "item_uri")) (client_state s) = (inl e, w) ->
  handle_call_tool' "SpotifyGetInfo" (PDict a) s =
  (inr (Some (create_error_response
                ((if is_SpotifyException e
                  then "An error occurred with the Spotify Client: "
                  else "Unexpected error occurred: ") ++ exn_str e))),
   after_method s (c_get_info (argument a "item_uri")) (inl e) w).
Proof.
  intros Hinfo.
  unfold handle_call_tool, tool, try_except.
  cbn [substring String.length Nat.sub String.eqb Ascii.eqb Bool.eqb].
  unfold get_info_tool, bind, lift, ret, invoke.
  rewrite py_get_argument, Hinfo. unfold is_Exception.
  destruct (is_SpotifyException e); reflexivity.
Qed.

(** [Playback]/[start] without a uri resumes playback and then always
    answers with an error: once the client's [start_playback] has returned,
    the confirmation text is formatted for the uri [None], so that either
    [get_info] raises or splitting [None] raises [AttributeError]. *)
Theorem playback_resume_starts_and_answers_an_error
  (a : list (string * pyval)) (started : pyval) (w1 : W) (s : dispatcher W) :
  is_str (argument a "action") "start" = true ->
  argument a "spotify_uri" = PNone ->
  spotify_client (c_start_playback PNone) (client_state s) = (inr started, w1) ->
  let s1 := after_method s (c_start_playback PNone) (inr started) w1 in
  let (info, w2) := spotify_client (c_get_info PNone) w1 in
  handle_call_tool' "SpotifyPlayback" (PDict a) s =
  (inr (Some (create_error_response
                match info with
                | inl e =>
                    (if is_SpotifyException e
                     then "An error occurred with the Spotify Client: "
                     else "Unexpected error occurred: ") ++ exn_str e
                | inr _ =>
                    "Unexpected error occurred: 'NoneType' object has no attribute 'split'"
                end)),
   after_method s1 (c_get_info PNone) info w2).
Proof.
  intros Haction Huri Hstart s1.
  destruct (spotify_client (c_get_info PNone) w1) as [info w2] eqn:Hinfo.
  unfold handle_call_tool, tool, try_except.
  cbn [substring String.length Nat.sub String.eqb Ascii.eqb Bool.eqb].
  unfold playback, format_playback_response, bind, lift, ret, invoke.
  rewrite !py_get_argument. rewrite (is_str_true _ _ Haction), Huri.
  cbn [is_str String.eqb Ascii.eqb Bool.eqb truthy].
  rewrite Hstart. cbn [after_method client_state]. rewrite Hinfo.
  unfold is_Exception.
  destruct info as [e | v]; [destruct (is_SpotifyException e) |]; reflexivity.
Qed.

(** The list of track ids may be given as a list or as the JSON text of
    one: when the text decodes to a value that is no string, the call on
    the [Playlist] tool does the same, on the client and in its answer, as
    the call that gives the decoded value itself. *)
Theorem track_ids_as_json_text (a : list (string * pyval)) (t : string) (v : pyval)
  (s : dispatcher W) :
  json_loads t = Some v ->
  isinstance_str v = false ->
  handle_call_tool' "SpotifyPlaylist" (PDict (("track_ids", PStr t) :: a)) s =
  handle_call_tool' "SpotifyPlaylist" (PDict (("track_ids", v) :: a)) s.
Proof.
  intros Hloads Hv.
  unfold handle_call_tool, tool, try_except.
  cbn [substring String.length Nat.sub String.eqb Ascii.eqb Bool.eqb].
  unfold playlist, decoded_track_ids, bind, lift, ret.
  cbn [py_get dict_lookup String.eqb Ascii.eqb Bool.eqb]. rewrite Hloads.
  destruct v; try discriminate Hv; reflexivity.
Qed.

(** The artists of an item that has a list of names under [artists] are
    those names joined by a comma and a space, whatever it has under
    [artist]. *)
Theorem get_artist_string_joins_the_names
  (item : list (string * pyval)) (names : list string) :
  dict_lookup "artists" item = Some (PList (map PStr names)) ->
  get_artist_string (PDict item) = inr (py_join ", " names).
Proof.
  intros H. unfold get_artist_string. cbn [py_get ebind]. rewrite H.
  rewrite join_values_strings. reflexivity.
Qed.

End AnswerFacts.

(** The playlist [soundtrack], on a service where no track exists: turned
    down as an invalid track. *)
Lemma queue_add_of_a_playlist_named_soundtrack :
  handle_call_tool (client unit) (doubles.client_on doubles.failing_service)
    doubles.repr doubles.json_loads doubles.int_of_str "SpotifyQueue"
    (PDict [("action", PStr "add"); ("spotify_uri", PStr "spotify:playlist:soundtrack")])
    (doubles.start (doubles.fresh tt))
  = (inr (Some (create_error_response
                  "Invalid or non-existent track URI. Please try another track.")),
     after_method (doubles.start (doubles.fresh tt))
       (c_is_valid_track (PStr "spotify:playlist:soundtrack")) (inr (PBool false))
       (after_call (doubles.fresh tt) (sp_track (PStr "soundtrack"))
          (inl doubles.not_found) tt)).
Proof.
  exact (queue_add_validates_a_track_first (client unit)
           (doubles.client_on doubles.failing_service)
           doubles.repr doubles.json_loads doubles.int_of_str
           [("action", PStr "add"); ("spotify_uri", PStr "spotify:playlist:soundtrack")]
           "spotify:playlist:soundtrack" (PBool false) _
           (doubles.start (doubles.fresh tt)) eq_refl eq_refl eq_refl eq_refl eq_refl).
Defined.

(** A search on a client on which every call fails. *)
Lemma search_on_a_failing_client :
  handle_call_tool unit doubles.failing_client doubles.repr doubles.json_loads
    doubles.int_of_str "SpotifySearch" (PDict [("query", PStr "x")]) (doubles.start tt)
  = (inr (Some (create_error_response
                  "An error occurred during search: http status: 404")),
     after_method (doubles.start tt) (c_search (PStr "x") (PStr "track") (PInt 10))
       (inl doubles.not_found) tt).
Proof.
  exact (search_failure_is_reported_as_a_search_error unit doubles.failing_client
           doubles.repr doubles.json_loads doubles.int_of_str [("query", PStr "x")]
           doubles.not_found tt (doubles.start tt) eq_refl).
Defined.

(** The information on an item on a client on which every call fails. *)
Lemma get_info_on_a_failing_client :
  handle_call_tool unit doubles.failing_client doubles.repr doubles.json_loads
    doubles.int_of_str "SpotifyGetInfo" (PDict [("item_uri", PStr "spotify:track:ABC")])
    (doubles.start tt)
  = (inr (Some (create_error_response
                  "An error occurred with the Spotify Client: http status: 404")),
     after_method (doubles.start tt) (c_get_info (PStr "spotify:track:ABC"))
       (inl doubles.not_found) tt).
Proof.
  exact (get_info_failure_is_reported_by_class unit doubles.failing_client
           doubles.repr doubles.json_loads doubles.int_of_str
           [("item_uri", PStr "spotify:track:ABC")]
           doubles.not_found tt (doubles.start tt) eq_refl).
Defined.

(** Resuming playback on a client on which every call returns. *)
Lemma playback_resume_on_a_willing_client :
  handle_call_tool (list pyval) doubles_rest.willing_client doubles.repr
    doubles.json_loads doubles.int_of_str "SpotifyPlayback"
    (PDict [("action", PStr "start")]) (doubles.start [])
  = (inr (Some (create_error_response
        "Unexpected error occurred: 'NoneType' object has no attribute 'split'")),
     after_method
       (after_method (doubles.start []) (c_start_playback PNone) (inr PNone) [])
       (c_get_info PNone) (inr PNone) []).
Proof.
  exact (playback_resume_starts_and_answers_an_error (list pyval)
           doubles_rest.willing_client doubles.repr doubles.json_loads
           doubles.int_of_str [("action", PStr "start")] PNone [] (doubles.start [])
           eq_refl eq_refl eq_refl).
Defined.

(** The text of an empty list of track ids. *)
Lemma track_ids_as_the_text_of_an_empty_list :
  let a := [("action", PStr "add_tracks"); ("playlist_id", PStr "P")] in
  handle_call_tool unit doubles.failing_client doubles.repr doubles.json_loads
    doubles.int_of_str "SpotifyPlaylist" (PDict (("track_ids", PStr "[]") :: a))
    (doubles.start tt)
  = handle_call_tool unit doubles.failing_client doubles.repr doubles.json_loads
      doubles.int_of_str "SpotifyPlaylist" (PDict (("track_ids", PList []) :: a))
      (doubles.start tt).
Proof.
  exact (track_ids_as_json_text unit doubles.failing_client doubles.repr
           doubles.json_loads doubles.int_of_str
           [("action", PStr "add_tracks"); ("playlist_id", PStr "P")]
           "[]" (PList []) (doubles.start tt) eq_refl eq_refl).
Defined.

(** Two artists. *)
Lemma get_artist_string_of_two :
  get_artist_string (PDict [("name", PStr "Song");
                            ("artists", PList [PStr "Ann"; PStr "Bob"]);
                            ("artist", PStr "Ann")])
  = inr "Ann, Bob".
Proof.
  exact (get_artist_string_joins_the_names
           [("name", PStr "Song"); ("artists", PList [PStr "Ann"; PStr "Bob"]);
            ("artist", PStr "Ann")] ["Ann"; "Bob"] eq_refl).
Defined.

(** ** The validators and the kind of a uri *)

Section ValidatorKindFacts.

Variable B : Type.
Variable sp : sp_call -> B -> (exn + pyval) * B.
Variable urlparse_path : string -> exn + string.

(** A validator does not look at the kind a uri names: on
    [spotify:<named>:<id>], whatever [<named>] is, the validator of kind
    [k] looks [<id>] up as a resource of kind [k], and answers by the outcome
    of that lookup. *)
Theorem validators_look_up_the_id_whatever_the_kind
  (k : kind) (named id : string) (s : client B) :
  contains ":" id = false ->
  validator sp urlparse_path k (PStr ("spotify:" ++ named ++ ":" ++ id)) s =
  let (r, b) := sp (lookup_call k (PStr id)) (remote s) in
  (inr (PBool match r with inr _ => true | inl _ => false end),
   after_call s (lookup_call k (PStr id)) r b).
Proof.
  intros H. rewrite validator_run.
  assert (Hid : _extract_id_from_uri urlparse_path
                  (PStr ("spotify:" ++ named ++ ":" ++ id)) = inr (PStr id)).
  { unfold _extract_id_from_uri. cbn [py_startswith py_split].
    rewrite (prefix_app "spotify:" (named ++ ":" ++ id)).
    replace ("spotify:" ++ named ++ ":" ++ id)%string
      with (("spotify:" ++ named) ++ String ":" id)%string
      by (rewrite string_app_assoc; reflexivity).
    rewrite (last_part_after ":" _ _ H). reflexivity. }
  rewrite Hid. reflexivity.
Qed.

End ValidatorKindFacts.

(** The uri of an album, given to the validator of tracks. *)
Lemma is_valid_track_of_an_album_uri :
  validator doubles.failing_service doubles.urlparse_path Track
    (PStr "spotify:album:ABC") (doubles.fresh tt)
  = (inr (PBool false),
     after_call (doubles.fresh tt) (sp_track (PStr "ABC")) (inl doubles.not_found) tt).
Proof.
  exact (validators_look_up_the_id_whatever_the_kind unit doubles.failing_service
           doubles.urlparse_path Track "album" "ABC" (doubles.fresh tt) eq_refl).
Defined.

(** ** Edits of a playlist with missing arguments *)

Section PlaylistArgumentFacts.

Variable B : Type.
Variable sp : sp_call -> B -> (exn + pyval) * B.
Variables LOCAL_SEARCH_URL SPOTIFY_COUNTRY : pyval.
Variable parse_local_documents : pyval -> pyval -> exn + pyval.
Variable parse_search_results : pyval -> pyval -> pyval -> exn + pyval.
Variable parse_tracks : pyval -> exn + pyval.
Variable urlparse_path : string -> exn + string.
Variable validate : forall A : Type, (pyval -> M (client B) A) -> M (client B) A.
Variable unmodelled : client_call -> M (client B) pyval.
Variable repr : pyval -> string.
Variable json_loads : string -> option pyval.
Variable int_of_str : string -> option Z.

Local Abbreviation Client' :=
  (Client_method B sp LOCAL_SEARCH_URL SPOTIFY_COUNTRY parse_local_documents
     parse_search_results parse_tracks urlparse_path validate unmodelled).
Local Abbreviation ensure_username' := (ensure_username B sp validate).

(** For [add_tracks] and [remove_tracks] the dispatcher checks neither the
    playlist id nor the track ids: a request without one of them reaches the
    client method, whose [ValueError] comes back as an unexpected error,
    the playlist id being checked first.  Once the decorator has done its
    work, the client makes no call on the remote service. *)
Theorem playlist_edit_with_a_missing_argument
  (remove : bool) (arguments : list (string * pyval)) (track_ids : pyval)
  (s : dispatcher (client B)) (s1 : client B) :
  let playlist_id := argument arguments "playlist_id" in
  let method :=
    if remove then c_remove_tracks_from_playlist playlist_id track_ids
    else c_add_tracks_to_playlist playlist_id track_ids in
  let message :=
    if truthy playlist_id then "No track IDs provided." else "No playlist ID provided." in
  dict_lookup "action" arguments
  = Some (PStr (edit_action (if remove then remove_tracks else add_tracks))) ->
  track_ids_argument json_loads arguments = Some track_ids ->
  truthy playlist_id && truthy track_ids = false ->
  ensure_username' (ret tt) (client_state s) = (inr tt, s1) ->
  handle_call_tool (client B) Client' repr json_loads int_of_str
    "SpotifyPlaylist" (PDict arguments) s
  = (inr (Some (create_error_response ("Unexpected error occurred: " ++ message))),
     after_method s method (inl (Raise ValueError message)) s1).
Proof.
  intros playlist_id method message Haction Hids Hmissing Hensure.
  subst method message.
  unfold handle_call_tool, tool, try_except.
  cbn [substring String.length Nat.sub String.eqb Ascii.eqb Bool.eqb].
  unfold playlist, decoded_track_ids, bind, lift, ret, invoke.
  cbn [py_get]. rewrite Haction.
  unfold track_ids_argument, argument, item_or in Hids.
  unfold playlist_id, argument, item_or in Hmissing |- *.
  destruct remove; cbn [edit_action is_str String.eqb Ascii.eqb Bool.eqb];
    (destruct (dict_lookup "track_ids" arguments) as [[| | | t | |] |];
     try destruct (json_loads t); try discriminate Hids; injection Hids as <-);
    cbn [Client_method]; unfold add_tracks_to_playlist, remove_tracks_from_playlist;
    rewrite (ensure_username_then B sp validate _ _ _ Hensure);
    unfold raise, is_Exception;
    destruct (truthy match dict_lookup "playlist_id" arguments with
                     | Some v => v | None => PNone end);
    cbn [negb andb] in Hmissing |- *; try rewrite Hmissing; reflexivity.
Qed.

End PlaylistArgumentFacts.

(** Adding a track to no playlist. *)
Lemma add_tracks_without_a_playlist :
  handle_call_tool (client unit) (doubles.client_on doubles.failing_service)
    doubles.repr doubles.json_loads doubles.int_of_str "SpotifyPlaylist"
    (PDict [("action", PStr "add_tracks"); ("track_ids", PList [PStr "spotify:track:1"])])
    (doubles.start (doubles.fresh tt))
  = (inr (Some (create_error_response
                  "Unexpected error occurred: No playlist ID provided.")),
     after_method (doubles.start (doubles.fresh tt))
       (c_add_tracks_to_playlist PNone (PList [PStr "spotify:track:1"]))
       (inl (Raise ValueError "No playlist ID provided.")) (doubles.fresh tt)).
Proof.
  exact (playlist_edit_with_a_missing_argument unit doubles.failing_service PNone PNone
           doubles.parse_local_documents doubles.parse_search_results
           doubles.parse_tracks doubles.urlparse_path
           (utils.validate unit doubles.failing_service)
           (fun _ => ret PNone) doubles.repr doubles.json_loads doubles.int_of_str
           false
           [("action", PStr "add_tracks"); ("track_ids", PList [PStr "spotify:track:1"])]
           (PList [PStr "spotify:track:1"])
           (doubles.start (doubles.fresh tt)) (doubles.fresh tt)
           eq_refl eq_refl eq_refl eq_refl).
Defined.

(** ** A search of another kind *)

(** For a [qtype] that is none of the four kinds, every item gives the
    line [<number>. Unsupported qtype: <qtype>], whatever the item is. *)
Lemma format_search_items_unsupported (repr : pyval -> string) (qtype : pyval)
  (items : list pyval) (idx : nat) :
  is_str qtype "track" = false -> is_str qtype "artist" = false ->
  is_str qtype "album" = false -> is_str qtype "playlist" = false ->
  format_search_items repr qtype idx items =
  inr (map (fun i => decimal (Z.of_nat i) ++ ". Unsupported qtype: " ++ str repr qtype)%string
         (seq idx (List.length items))).
Proof.
  intros Ht Ha Hb Hp. revert idx.
  induction items as [| item items IH]; intros idx; [reflexivity |].
  cbn [format_search_items List.length seq map]. unfold format_search_item.
  rewrite Ht, Ha, Hb, Hp. cbn [ebind]. rewrite IH. reflexivity.
Qed.

Section SearchKindFacts.

Variable W : Type.
Variable spotify_client : client_call -> W -> (exn + pyval) * W.
Variable repr : pyval -> string.
Variable json_loads : string -> option pyval.
Variable int_of_str : string -> option Z.

(** A search of a kind other than [track], [artist], [album] and
    [playlist] (a comma-separated list of kinds, say) is not turned down:
    it is handed to the client, and when the result holds items under
    [<qtype>s], the answer is a plain text with one line
    [<number>. Unsupported qtype: <qtype>] for each item, numbered from 1,
    and nothing of the items themselves. *)
Theorem search_of_another_kind_lists_no_item
  (a results : list (string * pyval)) (item : pyval) (items : list pyval) (w : W)
  (s : dispatcher W) :
  let query := item_or a "query" (PStr EmptyString) in
  let qtype := item_or a "qtype" (PStr "track") in
  let limit := item_or a "limit" (PInt 10) in
  is_str qtype "track" = false -> is_str qtype "artist" = false ->
  is_str qtype "album" = false -> is_str qtype "playlist" = false ->
  spotify_client (c_search query qtype limit) (client_state s) = (inr (PDict results), w) ->
  dict_lookup (str repr qtype ++ "s") results = Some (PList (item :: items)) ->
  handle_call_tool W spotify_client repr json_loads int_of_str
    "SpotifySearch" (PDict a) s =
  (inr (text_response (plain (py_join newline
          ((glass_sign ++ " Search Results for " ++ str repr qtype ++ "s:")
           :: map (fun i => decimal (Z.of_nat i) ++ ". Unsupported qtype: "
                              ++ str repr qtype)
                (seq 1 (S (List.length items)))))))%string,
   after_method s (c_search query qtype limit) (inr (PDict results)) w).
Proof.
  intros query qtype limit Ht Ha Hb Hp Hsearch Hitems.
  unfold handle_call_tool, tool, try_except.
  cbn [substring String.length Nat.sub String.eqb Ascii.eqb Bool.eqb].
  unfold search_tool, try_except, bind, lift, ret, invoke. cbn [py_get].
  fold (item_or a "query" (PStr EmptyString)).
  fold (item_or a "qtype" (PStr "track")).
  fold (item_or a "limit" (PInt 10)).
  fold query qtype limit. rewrite Hsearch.
  cbn [py_get after_method client_state]. rewrite Hitems.
  cbn [truthy negb py_iter ebind].
  rewrite (format_search_items_unsupported repr qtype (item :: items) 1 Ht Ha Hb Hp).
  reflexivity.
Qed.

End SearchKindFacts.

(** A search for shows, with two results. *)
Lemma search_for_shows :
  handle_call_tool unit doubles_rest.show_search_client doubles.repr doubles.json_loads
    doubles.int_of_str "SpotifySearch" (PDict [("query", PStr "x"); ("qtype", PStr "show")])
    (doubles.start tt)
  = (inr (text_response (plain (py_join newline
            [glass_sign ++ " Search Results for shows:";
             "1. Unsupported qtype: show"; "2. Unsupported qtype: show"])))%string,
     after_method (doubles.start tt) (c_search (PStr "x") (PStr "show") (PInt 10))
       (inr (PDict [("shows", PList [PDict [("name", PStr "One")];
                                     PDict [("name", PStr "Two")]])])) tt).
Proof.
  exact (search_of_another_kind_lists_no_item unit doubles_rest.show_search_client
           doubles.repr doubles.json_loads doubles.int_of_str
           [("query", PStr "x"); ("qtype", PStr "show")]
           [("shows", PList [PDict [("name", PStr "One")]; PDict [("name", PStr "Two")]])]
           (PDict [("name", PStr "One")]) [PDict [("name", PStr "Two")]] tt
           (doubles.start tt) eq_refl eq_refl eq_refl eq_refl eq_refl eq_refl).
Defined.
